(** * BiasClear scan action: a shallow embedding of [scan.py]

    The development follows the script top down: Python strings and the
    few library functions the script calls ([str.strip], [str(int)],
    [round], [json.dumps]), the per-file records, the effect monad that
    carries the local variables of [main] together with the observable
    trace, then [main] itself, [_set_output], [_build_summary] and
    [_write_summary].  The theorems come last. *)

From Stdlib Require Import List ZArith NArith Bool Lia String Ascii.
From Stdlib Require Import QArith Qabs Decimal DecimalN DecimalZ DecimalFacts.
Import ListNotations.
Local Open Scope Z_scope.

(* ===================================================================== *)
(** ** Python strings *)
(* ===================================================================== *)

(** A Python [str] is a sequence of code points. *)
Definition pystr := list N.

(** ASCII literals of the script. *)
Definition lit (s : string) : pystr :=
  List.map N_of_ascii (list_ascii_of_string s).

Definition QUOTE : N := 34%N.
Definition BACKSLASH : N := 92%N.
Definition NEWLINE : N := 10%N.
Definition BACKTICK : N := 96%N.

(** The non-ASCII glyphs the script prints. *)
Definition MAGNIFIER : pystr := [0x1F50D%N].
Definition SKIP_GLYPH : pystr := [0x23ED%N].
Definition RED : pystr := [0x1F534%N].
Definition YELLOW : pystr := [0x1F7E1%N].
Definition GREEN : pystr := [0x1F7E2%N].
Definition WARN_GLYPH : pystr := [0x26A0%N; 0xFE0F%N].
Definition BAR : pystr := [0x2501%N].
Definition CHART : pystr := [0x1F4CA%N].
Definition CROSS : pystr := [0x274C%N].
Definition CHECK_MARK : pystr := [0x2705%N].
Definition EM_DASH : pystr := [0x2014%N].

Definition pystr_eqb (a b : pystr) : bool :=
  if list_eq_dec N.eq_dec a b then true else false.

(** [s * n] *)
Fixpoint repeat_str (s : pystr) (n : nat) : pystr :=
  match n with
  | O => []
  | S n' => s ++ repeat_str s n'
  end.

(** [sep.join(parts)] *)
Fixpoint join (sep : pystr) (parts : list pystr) : pystr :=
  match parts with
  | [] => []
  | [p] => p
  | p :: rest => p ++ sep ++ join sep rest
  end.

(** [c in s] for a one-character needle. *)
Definition contains_char (c : N) (s : pystr) : bool :=
  existsb (N.eqb c) s.

(** Truthiness of a string: [if s:] *)
Definition str_truthy (s : pystr) : bool :=
  match s with [] => false | _ => true end.

(** *** [str.strip()]

    With no argument [strip] removes the code points for which
    [str.isspace] holds, at both ends. *)
Definition is_space (c : N) : bool :=
  ((0x09 <=? c) && (c <=? 0x0D) ||
   (0x1C <=? c) && (c <=? 0x20) ||
   (c =? 0x85) || (c =? 0xA0) || (c =? 0x1680) ||
   (0x2000 <=? c) && (c <=? 0x200A) ||
   (c =? 0x2028) || (c =? 0x2029) || (c =? 0x202F) ||
   (c =? 0x205F) || (c =? 0x3000))%N.

Fixpoint lstrip (s : pystr) : pystr :=
  match s with
  | c :: r => if is_space c then lstrip r else s
  | [] => []
  end.

Definition rstrip (s : pystr) : pystr := List.rev (lstrip (List.rev s)).

Definition strip (s : pystr) : pystr := rstrip (lstrip s).

(** *** [str(n)] for integers *)

Definition digit_char (d : N) : N := (48 + d)%N.

Fixpoint uint_chars (u : Decimal.uint) : pystr :=
  match u with
  | Nil => []
  | D0 r => digit_char 0 :: uint_chars r
  | D1 r => digit_char 1 :: uint_chars r
  | D2 r => digit_char 2 :: uint_chars r
  | D3 r => digit_char 3 :: uint_chars r
  | D4 r => digit_char 4 :: uint_chars r
  | D5 r => digit_char 5 :: uint_chars r
  | D6 r => digit_char 6 :: uint_chars r
  | D7 r => digit_char 7 :: uint_chars r
  | D8 r => digit_char 8 :: uint_chars r
  | D9 r => digit_char 9 :: uint_chars r
  end.

Definition str_of_N (n : N) : pystr := uint_chars (N.to_uint n).

Definition str_of_nat (n : nat) : pystr := str_of_N (N.of_nat n).

Definition MINUS : N := 45%N.

Definition str_of_Z (z : Z) : pystr :=
  if z <? 0 then MINUS :: str_of_N (Z.abs_N z) else str_of_N (Z.abs_N z).

Definition str_of_bool (b : bool) : pystr :=
  if b then lit "True" else lit "False".

(* ===================================================================== *)
(** ** Python values and [json.dumps] *)
(* ===================================================================== *)

(** The values that reach [json.dumps] in the script: dictionaries with
    string keys (kept in insertion order), lists, strings, integers and
    booleans. *)
#[warnings="-register-all"]
Inductive pyval : Type :=
| PNone
| PBool (b : bool)
| PInt (z : Z)
| PStr (s : pystr)
| PList (l : list pyval)
| PDict (d : list (pystr * pyval)).

(** [d.get(k)] on an insertion-ordered dictionary. *)
Fixpoint assoc_get (d : list (pystr * pyval)) (k : pystr) : option pyval :=
  match d with
  | [] => None
  | (k', v) :: r => if pystr_eqb k' k then Some v else assoc_get r k
  end.

Definition py_get (v : pyval) (k : pystr) : option pyval :=
  match v with
  | PDict d => assoc_get d k
  | _ => None
  end.

(** *** Encoder

    [json.dumps(obj, default=str)] with the default options: ASCII only
    output, [", "] between items and [": "] after a key.  Every value of
    [pyval] is serialisable, so the [default] hook is never called. *)

Definition hex_digit (d : N) : N :=
  if (d <? 10)%N then (48 + d)%N else (87 + d)%N.

(** ['{0:04x}'.format(n)] for [n < 65536] *)
Definition hex4 (n : N) : pystr :=
  [hex_digit (n / 4096); hex_digit ((n / 256) mod 16);
   hex_digit ((n / 16) mod 16); hex_digit (n mod 16)]%N.

Definition u_escape (n : N) : pystr := BACKSLASH :: 117%N :: hex4 n.

(** One code point of [encode_basestring_ascii].  For a code point above
    the basic plane the two halves are [0xd800 | ((n >> 10) & 0x3ff)] and
    [0xdc00 | (n & 0x3ff)], written here with division and remainder. *)
Definition escape_char (c : N) : pystr :=
  (if c =? 34 then [92; 34]
   else if c =? 92 then [92; 92]
   else if c =? 8 then [92; 98]
   else if c =? 12 then [92; 102]
   else if c =? 10 then [92; 110]
   else if c =? 13 then [92; 114]
   else if c =? 9 then [92; 116]
   else if (32 <=? c) && (c <=? 126) then [c]
   else if c <? 0x10000 then u_escape c
   else
     let n := c - 0x10000 in
     u_escape (0xD800 + (n / 1024) mod 1024) ++ u_escape (0xDC00 + n mod 1024))%N.

Definition encode_string (s : pystr) : pystr :=
  QUOTE :: flat_map escape_char s ++ [QUOTE].

Fixpoint json_dumps (v : pyval) : pystr :=
  match v with
  | PNone => lit "null"
  | PBool b => if b then lit "true" else lit "false"
  | PInt z => str_of_Z z
  | PStr s => encode_string s
  | PList l => lit "[" ++ join (lit ", ") (List.map json_dumps l) ++ lit "]"
  | PDict d =>
      lit "{" ++
      join (lit ", ")
           (List.map (fun kv => match kv with
                                | (k, x) => encode_string k ++ lit ": " ++ json_dumps x
                                end) d) ++
      lit "}"
  end.

(** *** Decoder

    [json.loads] on documents without fractional numbers: [pyval] carries
    no float, so a number followed by a fraction or an exponent is
    rejected. *)

Definition is_json_ws (c : N) : bool :=
  ((c =? 32) || (c =? 9) || (c =? 10) || (c =? 13))%N.

Fixpoint skip_ws (s : pystr) : pystr :=
  match s with
  | c :: r => if is_json_ws c then skip_ws r else s
  | [] => []
  end.

Definition hex_val (c : N) : option N :=
  (if (48 <=? c) && (c <=? 57) then Some (c - 48)
   else if (97 <=? c) && (c <=? 102) then Some (c - 87)
   else if (65 <=? c) && (c <=? 70) then Some (c - 55)
   else None)%N.

Definition parse_hex4 (s : pystr) : option (N * pystr) :=
  match s with
  | a :: b :: c :: d :: r =>
      match hex_val a, hex_val b, hex_val c, hex_val d with
      | Some a', Some b', Some c', Some d' =>
          Some ((((a' * 16 + b') * 16 + c') * 16 + d')%N, r)
      | _, _, _, _ => None
      end
  | _ => None
  end.

(** The one-letter escapes of the decoder's [BACKSLASH] table. *)
Definition unescape (e : N) : option N :=
  (if e =? 34 then Some 34
   else if e =? 92 then Some 92
   else if e =? 47 then Some 47
   else if e =? 98 then Some 8
   else if e =? 102 then Some 12
   else if e =? 110 then Some 10
   else if e =? 114 then Some 13
   else if e =? 116 then Some 9
   else None)%N.

Definition is_high_surrogate (c : N) : bool := ((0xD800 <=? c) && (c <=? 0xDBFF))%N.
Definition is_low_surrogate (c : N) : bool := ((0xDC00 <=? c) && (c <=? 0xDFFF))%N.

(** [\uXXXX], joined with a following low surrogate when there is one. *)
Definition scan_unicode (s : pystr) : option (N * pystr) :=
  match parse_hex4 s with
  | None => None
  | Some (uni, r) =>
      if is_high_surrogate uni then
        match r with
        | b :: u :: r' =>
            if ((b =? 92) && (u =? 117))%N then
              match parse_hex4 r' with
              | None => None
              | Some (uni2, r2) =>
                  if is_low_surrogate uni2
                  then Some ((0x10000 + (uni - 0xD800) * 1024 + (uni2 - 0xDC00))%N, r2)
                  else Some (uni, r)
              end
            else Some (uni, r)
        | _ => Some (uni, r)
        end
      else Some (uni, r)
  end.

(** [scanstring], entered after the opening quote. *)
Fixpoint scan_string (fuel : nat) (s : pystr) : option (pystr * pystr) :=
  match fuel with
  | O => None
  | S fuel' =>
      match s with
      | [] => None
      | c :: r =>
          if (c =? 34)%N then Some ([], r)
          else if (c =? 92)%N then
            match r with
            | [] => None
            | e :: r' =>
                if (e =? 117)%N then
                  match scan_unicode r' with
                  | None => None
                  | Some (cp, r2) =>
                      match scan_string fuel' r2 with
                      | Some (str, rest) => Some (cp :: str, rest)
                      | None => None
                      end
                  end
                else
                  match unescape e with
                  | None => None
                  | Some c' =>
                      match scan_string fuel' r' with
                      | Some (str, rest) => Some (c' :: str, rest)
                      | None => None
                      end
                  end
            end
          else if (c <? 32)%N then None
          else
            match scan_string fuel' r with
            | Some (str, rest) => Some (c :: str, rest)
            | None => None
            end
      end
  end.

Definition digit_of (c : N) : option (Decimal.uint -> Decimal.uint) :=
  (if c =? 48 then Some D0 else if c =? 49 then Some D1
   else if c =? 50 then Some D2 else if c =? 51 then Some D3
   else if c =? 52 then Some D4 else if c =? 53 then Some D5
   else if c =? 54 then Some D6 else if c =? 55 then Some D7
   else if c =? 56 then Some D8 else if c =? 57 then Some D9
   else None)%N.

(** The longest prefix of digits. *)
Fixpoint scan_digits (s : pystr) : Decimal.uint * pystr :=
  match s with
  | c :: r =>
      match digit_of c with
      | Some mk => let (u, rest) := scan_digits r in (mk u, rest)
      | None => (Nil, s)
      end
  | [] => (Nil, [])
  end.

Definition starts_fraction (s : pystr) : bool :=
  match s with
  | c :: _ => ((c =? 46) || (c =? 101) || (c =? 69))%N
  | [] => false
  end.

(** A JSON integer: an optional sign, then [0] or a digit string that
    does not start with [0]. *)
Definition scan_int (s : pystr) : option (Z * pystr) :=
  let (neg, s1) :=
    match s with
    | c :: r => if (c =? 45)%N then (true, r) else (false, s)
    | [] => (false, s)
    end in
  let (u, rest) := scan_digits s1 in
  if uint_beq u Nil then None
  else if negb (uint_beq (unorm u) u) then None
  else if starts_fraction rest then None
  else
    let z := Z.of_N (N.of_uint u) in
    Some (if neg then - z else z, rest).

Fixpoint expect (w : pystr) (s : pystr) : option pystr :=
  match w with
  | [] => Some s
  | a :: w' =>
      match s with
      | c :: r => if (a =? c)%N then expect w' r else None
      | [] => None
      end
  end.

(** [value (, value)* ]] with the cursor on the first value. *)
Fixpoint scan_items (pv : pystr -> option (pyval * pystr)) (n : nat) (s : pystr)
  : option (list pyval * pystr) :=
  match n with
  | O => None
  | S n' =>
      match pv s with
      | None => None
      | Some (v, r) =>
          match skip_ws r with
          | c :: r' =>
              if (c =? 44)%N then
                match scan_items pv n' (skip_ws r') with
                | Some (vs, rest) => Some (v :: vs, rest)
                | None => None
                end
              else if (c =? 93)%N then Some ([v], r')
              else None
          | [] => None
          end
      end
  end.

(** ["key": value (, "key": value)* }] with the cursor on the first quote. *)
Fixpoint scan_pairs (pv : pystr -> option (pyval * pystr)) (n : nat) (s : pystr)
  : option (list (pystr * pyval) * pystr) :=
  match n with
  | O => None
  | S n' =>
      match s with
      | q :: s1 =>
          if (q =? 34)%N then
            match scan_string (List.length s1) s1 with
            | None => None
            | Some (k, r) =>
                match skip_ws r with
                | c :: r1 =>
                    if (c =? 58)%N then
                      match pv (skip_ws r1) with
                      | None => None
                      | Some (v, r2) =>
                          match skip_ws r2 with
                          | c2 :: r3 =>
                              if (c2 =? 44)%N then
                                match scan_pairs pv n' (skip_ws r3) with
                                | Some (kvs, rest) => Some ((k, v) :: kvs, rest)
                                | None => None
                                end
                              else if (c2 =? 125)%N then Some ([(k, v)], r3)
                              else None
                          | [] => None
                          end
                      end
                    else None
                | [] => None
                end
            end
          else None
      | [] => None
      end
  end.

(** [scan_once]: one value at the cursor. *)
Fixpoint scan_once (fuel : nat) (s : pystr) : option (pyval * pystr) :=
  match fuel with
  | O => None
  | S fuel' =>
      match s with
      | [] => None
      | c :: r =>
          if (c =? 34)%N then
            match scan_string (List.length r) r with
            | Some (str, rest) => Some (PStr str, rest)
            | None => None
            end
          else if (c =? 123)%N then
            match skip_ws r with
            | c1 :: r1 =>
                if (c1 =? 125)%N then Some (PDict [], r1)
                else
                  match scan_pairs (scan_once fuel') (List.length r) (c1 :: r1) with
                  | Some (kvs, rest) => Some (PDict kvs, rest)
                  | None => None
                  end
            | [] => None
            end
          else if (c =? 91)%N then
            match skip_ws r with
            | c1 :: r1 =>
                if (c1 =? 93)%N then Some (PList [], r1)
                else
                  match scan_items (scan_once fuel') (List.length r) (c1 :: r1) with
                  | Some (vs, rest) => Some (PList vs, rest)
                  | None => None
                  end
            | [] => None
            end
          else if (c =? 110)%N then
            match expect (lit "ull") r with
            | Some rest => Some (PNone, rest)
            | None => None
            end
          else if (c =? 116)%N then
            match expect (lit "rue") r with
            | Some rest => Some (PBool true, rest)
            | None => None
            end
          else if (c =? 102)%N then
            match expect (lit "alse") r with
            | Some rest => Some (PBool false, rest)
            | None => None
            end
          else
            match scan_int s with
            | Some (z, rest) => Some (PInt z, rest)
            | None => None
            end
      end
  end.

(** [json.loads]: leading blanks, one value, trailing blanks, end. *)
Definition json_loads (s : pystr) : option pyval :=
  match scan_once (S (List.length s)) (skip_ws s) with
  | Some (v, rest) =>
      match skip_ws rest with
      | [] => Some v
      | _ :: _ => None
      end
  | None => None
  end.

(* ===================================================================== *)
(** ** The analyzer's verdict and the per-file records *)
(* ===================================================================== *)

(** A flag as the analyzer returns it; either key may be missing. *)
Record flag : Type := mkFlag {
  flag_name : option pystr;
  flag_severity : option pystr
}.

(** The dictionary [scan_local] returns; every key may be missing. *)
Record verdict : Type := mkVerdict {
  v_truth_score : option Z;
  v_flags : option (list flag);
  v_bias_detected : option bool
}.

(** [d.get(key, default)] on an optional field. *)
Definition get_default {A : Type} (field : option A) (default : A) : A :=
  match field with
  | Some a => a
  | None => default
  end.

(** The two dictionaries [main] appends to [results]: the one built after
    a successful scan, and the one built by the exception handler, whose
    [skipped] entry is always [True]. *)
Inductive file_result : Type :=
| Scanned (file : pystr) (truth_score : Z) (bias_detected : bool)
          (flag_count : nat) (flags : list (pystr * pystr))
| Failed (file : pystr) (error : pystr).

(** [{"name": f.get("name", ""), "severity": f.get("severity", "")}] *)
Definition flag_entry (f : flag) : pystr * pystr :=
  (get_default (flag_name f) [], get_default (flag_severity f) []).

Definition get_file (r : file_result) : pystr :=
  match r with
  | Scanned file _ _ _ _ => file
  | Failed file _ => file
  end.

(** [r.get("truth_score")] *)
Definition get_truth_score (r : file_result) : option Z :=
  match r with
  | Scanned _ truth_score _ _ _ => Some truth_score
  | Failed _ _ => None
  end.

(** [r.get("bias_detected")] *)
Definition get_bias_detected (r : file_result) : option bool :=
  match r with
  | Scanned _ _ bias_detected _ _ => Some bias_detected
  | Failed _ _ => None
  end.

(** [r.get("flags")] *)
Definition get_flags (r : file_result) : option (list (pystr * pystr)) :=
  match r with
  | Scanned _ _ _ _ flags => Some flags
  | Failed _ _ => None
  end.

(** [r.get("skipped")] *)
Definition get_skipped (r : file_result) : option bool :=
  match r with
  | Scanned _ _ _ _ _ => None
  | Failed _ _ => Some true
  end.

(** [r.get("error")] *)
Definition get_error (r : file_result) : option pystr :=
  match r with
  | Scanned _ _ _ _ _ => None
  | Failed _ error => Some error
  end.

Definition is_scanned (r : file_result) : bool :=
  match r with
  | Scanned _ _ _ _ _ => true
  | Failed _ _ => false
  end.

(** The dictionary itself, as [json.dumps] sees it. *)
Definition to_py (r : file_result) : pyval :=
  match r with
  | Scanned file truth_score bias_detected flag_count flags =>
      PDict [(lit "file", PStr file);
             (lit "truth_score", PInt truth_score);
             (lit "bias_detected", PBool bias_detected);
             (lit "flag_count", PInt (Z.of_nat flag_count));
             (lit "flags",
              PList (List.map (fun f => PDict [(lit "name", PStr (fst f));
                                               (lit "severity", PStr (snd f))])
                              flags))]
  | Failed file error =>
      PDict [(lit "file", PStr file);
             (lit "error", PStr error);
             (lit "skipped", PBool true)]
  end.

(** [json.dumps(results, default=str)] *)
Definition dump_report (results : list file_result) : pystr :=
  json_dumps (PList (List.map to_py results)).

(* ===================================================================== *)
(** ** The average score *)
(* ===================================================================== *)

(** [total_score / max(len(scanned), 1)] is a true division of integers:
    Python returns the binary64 number nearest to the exact quotient, ties
    to the even significand.  [round(x, 1)] then rounds the exact value of
    that double to the nearest tenth, ties to the even tenth, and returns
    the double nearest to that decimal; [str] prints it with its one
    decimal.

    A double is carried as the rational it denotes.  The exponent range of
    binary64 is not modelled: it is met only by quotients from [2^1024] on,
    where Python raises [OverflowError], and below [2^-1022], neither of
    which scores between 0 and 100 produce. *)

(** [a / (b * 2^e)] as a fraction of integers. *)
Definition scaled (a b e : Z) : Z * Z :=
  if 0 <=? e then (a, b * 2 ^ e) else (a * 2 ^ (- e), b).

(** [n / d] rounded to the nearest integer, ties to the even one, for
    [0 <= n] and [0 < d]. *)
Definition round_half_even (n d : Z) : Z :=
  let m := n / d in
  let r := n mod d in
  if 2 * r <? d then m
  else if d <? 2 * r then m + 1
  else if Z.even m then m else m + 1.

(** The exponent [e] at which [a / b], for [0 < a] and [0 < b], has a
    significand of 53 bits: [2^52 <= a / (b * 2^e) < 2^53]. *)
Definition binade (a b : Z) : Z :=
  let e0 := Z.log2 a - Z.log2 b - 53 in
  let (n0, d0) := scaled a b e0 in
  if n0 / d0 <? 2 ^ 53 then e0 else e0 + 1.

(** The double nearest to [q]. *)
Definition fl64 (q : Q) : Q :=
  let a := Z.abs (Qnum q) in
  let b := Zpos (Qden q) in
  if a =? 0 then 0 # 1
  else
    let e := binade a b in
    let (n, d) := scaled a b e in
    let m := round_half_even n d in
    let s := if Qnum q <? 0 then - m else m in
    if 0 <=? e then (s * 2 ^ e) # 1 else s # Z.to_pos (2 ^ (- e)).

(** [a / n] for integers *)
Definition true_div (a : Z) (n : nat) : Q := fl64 (a # Pos.of_nat n).

(** What [round(x, 1)] returns, as the decimal it denotes: a sign and a
    number of tenths. *)
Record dec1 : Type := mkDec1 {
  d_neg : bool;
  d_tenths : N
}.

(** [round(x, 1)] on the exact value [q] of the double [x]. *)
Definition round1 (q : Q) : dec1 :=
  let a := Z.abs (Qnum q) in
  let d := Zpos (Qden q) in
  let t := (10 * a) / d in
  let r := (10 * a) mod d in
  let t' := if 2 * r <? d then t
            else if d <? 2 * r then t + 1
            else if Z.even t then t else t + 1 in
  mkDec1 (Qnum q <? 0) (Z.to_N t').

(** The rational a [dec1] denotes. *)
Definition dec1_Q (d : dec1) : Q :=
  (if d_neg d then - Z.of_N (d_tenths d) else Z.of_N (d_tenths d)) # 10.

(** [str(x)] for the double [x] nearest to a decimal with one digit after
    the point: the shortest text that reads back as [x], in positional
    form.  That text is the decimal itself as long as it has at most 15
    significant digits, which an average of scores between 0 and 100
    always has; from [1e16] on [str] turns to the exponent form, which is
    not modelled. *)
Definition str_of_dec1 (d : dec1) : pystr :=
  (if d_neg d then [MINUS] else []) ++
  str_of_N (d_tenths d / 10) ++ lit "." ++ str_of_N (d_tenths d mod 10).

(** [avg_score] is the integer [100] or a rounded float. *)
Inductive avg : Type :=
| AvgInt (z : Z)
| AvgFloat (d : dec1).

Definition str_of_avg (a : avg) : pystr :=
  match a with
  | AvgInt z => str_of_Z z
  | AvgFloat d => str_of_dec1 d
  end.

(* ===================================================================== *)
(** ** Configuration, environment and effects *)
(* ===================================================================== *)

(** The four settings [main] reads from the environment, parsed. *)
Record config : Type := mkConfig {
  paths_pattern : pystr;
  threshold : Z;
  domain : pystr;
  fail_on_bias : bool
}.

(** What a call into the outside world does: return or raise an
    [Exception] whose [str] is [msg]. *)
Inductive outcome (A : Type) : Type :=
| Returns (a : A)
| Raises (msg : pystr).
Arguments Returns {A} a.
Arguments Raises {A} msg.

(** The world around the script: the two sink variables, the file system
    ([glob.glob] and [open(..., errors="ignore").read()]), the analyzer and
    the delimiter [uuid.uuid4().hex] produces. *)
Record world : Type := mkWorld {
  GITHUB_OUTPUT : option pystr;
  GITHUB_STEP_SUMMARY : option pystr;
  glob : pystr -> list pystr;
  read_file : pystr -> outcome pystr;
  scan_local : pystr -> pystr -> outcome verdict;
  uuid4_hex : pystr
}.

(** What an observer of the run sees, in order. *)
Inductive event : Type :=
| Print (line : pystr)
| Append (file : pystr) (data : pystr)
| Read (file : pystr)
| Analyze (text : pystr) (domain : pystr).

(** The local variables of [main] that the loop updates, and the trace. *)
Record state : Type := mkState {
  results : list file_result;
  flagged : list file_result;
  total_score : Z;
  trace : list event
}.

Definition initial : state := mkState [] [] 0 [].

(** A computation returns, raises an [Exception], or leaves through
    [sys.exit]; the state it reached is kept in each case. *)
Inductive result (A : Type) : Type :=
| Val (a : A)
| Exc (msg : pystr)
| SysExit (code : Z).
Arguments Val {A} a.
Arguments Exc {A} msg.
Arguments SysExit {A} code.

Definition M (A : Type) : Type := state -> result A * state.

Definition ret {A : Type} (a : A) : M A := fun st => (Val a, st).

Definition bind {A B : Type} (m : M A) (k : A -> M B) : M B :=
  fun st =>
    match m st with
    | (Val a, st') => k a st'
    | (Exc msg, st') => (Exc msg, st')
    | (SysExit code, st') => (SysExit code, st')
    end.

Declare Scope py_scope.
Delimit Scope py_scope with py.
Notation "x <- m ;; k" := (bind m (fun x => k))
  (at level 61, m at next level, right associativity) : py_scope.
Notation "m ;; k" := (bind m (fun _ => k))
  (at level 61, right associativity) : py_scope.
Local Open Scope py_scope.

Definition raise {A : Type} (msg : pystr) : M A := fun st => (Exc msg, st).

(** [sys.exit(code)] raises [SystemExit], which is not an [Exception]. *)
Definition sys_exit {A : Type} (code : Z) : M A := fun st => (SysExit code, st).

(** [try: body / except Exception as e: handler(str(e))] *)
Definition try_except {A : Type} (body : M A) (handler : pystr -> M A) : M A :=
  fun st =>
    match body st with
    | (Exc msg, st') => handler msg st'
    | other => other
    end.

Definition get : M state := fun st => (Val st, st).

Definition emit (e : event) : M unit :=
  fun st => (Val tt, mkState (results st) (flagged st) (total_score st) (trace st ++ [e])).

Definition print (line : pystr) : M unit := emit (Print line).

Definition lift {A : Type} (o : outcome A) : M A :=
  match o with
  | Returns a => ret a
  | Raises msg => raise msg
  end.

(** [results.append(r)] *)
Definition results_append (r : file_result) : M unit :=
  fun st => (Val tt, mkState (results st ++ [r]) (flagged st) (total_score st) (trace st)).

(** [flagged.append(r)] *)
Definition flagged_append (r : file_result) : M unit :=
  fun st => (Val tt, mkState (results st) (flagged st ++ [r]) (total_score st) (trace st)).

(** [total_score += score] *)
Definition total_score_add (score : Z) : M unit :=
  fun st => (Val tt, mkState (results st) (flagged st) (total_score st + score) (trace st)).

(** [for x in l: body(x)] *)
Fixpoint for_each {A : Type} (body : A -> M unit) (l : list A) : M unit :=
  match l with
  | [] => ret tt
  | x :: rest => body x ;; for_each body rest
  end.

(** The exit status of the process that ran [asyncio.run(main())]: [0]
    after a normal return, the code given to [sys.exit], and [1] after an
    exception nobody caught. *)
Definition exit_status {A : Type} (r : result A) : Z :=
  match r with
  | Val _ => 0
  | Exc _ => 1
  | SysExit code => code
  end.

(** [truth_score] rows of the summary: [f['truth_score']] raises
    [KeyError] on a dictionary without the key. *)
Definition getitem_truth_score (f : file_result) : outcome Z :=
  match get_truth_score f with
  | Some z => Returns z
  | None => Raises (lit "'truth_score'")
  end.

(** One row of the flagged table. *)
Definition summary_row (f : file_result) : outcome pystr :=
  let flag_names :=
    join (lit ", ") (List.map fst (firstn 3 (get_default (get_flags f) []))) in
  match getitem_truth_score f with
  | Returns score =>
      Returns (lit "| " ++ [BACKTICK] ++ get_file f ++ [BACKTICK] ++ lit " | " ++
               str_of_Z score ++ lit " | " ++ flag_names ++ lit " |")
  | Raises msg => Raises msg
  end.

(** The [for f in flagged] loop of [_build_summary]. *)
Fixpoint summary_rows (fl : list file_result) : outcome (list pystr) :=
  match fl with
  | [] => Returns []
  | f :: rest =>
      match summary_row f with
      | Raises msg => Raises msg
      | Returns row =>
          match summary_rows rest with
          | Raises msg => Raises msg
          | Returns rows => Returns (row :: rows)
          end
      end
  end.

Definition FOOTER : pystr :=
  lit "*Powered by [BiasClear](https://github.com/bws82/biasclear) " ++ EM_DASH ++
  lit " structural bias detection built on Persistent Influence Theory*".

Definition _build_summary (scanned fl : list file_result) (avg_score : avg)
    (thr : Z) (dom : pystr) : outcome pystr :=
  let lines :=
    [lit "## " ++ MAGNIFIER ++ lit " BiasClear Scan Results";
     [];
     lit "| Metric | Value |";
     lit "|--------|-------|";
     lit "| Files scanned | " ++ str_of_nat (List.length scanned) ++ lit " |";
     lit "| Files flagged | " ++ str_of_nat (List.length fl) ++ lit " |";
     lit "| Average truth score | " ++ str_of_avg avg_score ++ lit "/100 |";
     lit "| Threshold | " ++ str_of_Z thr ++ lit " |";
     lit "| Domain | " ++ dom ++ lit " |";
     []] in
  let tail := [lit "---"; FOOTER] in
  match fl with
  | _ :: _ =>
      match summary_rows fl with
      | Raises msg => Raises msg
      | Returns rows =>
          Returns (join [NEWLINE]
                     (lines ++
                      [lit "### " ++ WARN_GLYPH ++ lit " Flagged Files"; [];
                       lit "| File | Score | Flags |";
                       lit "|------|-------|-------|"] ++ rows ++ [[]] ++ tail))
      end
  | [] =>
      Returns (join [NEWLINE]
                 (lines ++ [lit "### " ++ CHECK_MARK ++ lit " All files passed"; []] ++ tail))
  end.

(** [scanned = [r for r in results if not r.get("skipped")]] *)
Definition scanned_of (rs : list file_result) : list file_result :=
  filter (fun r => negb (get_default (get_skipped r) false)) rs.

(** [round(total_score / max(len(scanned), 1), 1) if scanned else 100] *)
Definition avg_score_of (total : Z) (scanned : list file_result) : avg :=
  match scanned with
  | _ :: _ => AvgFloat (round1 (true_div total (Nat.max (List.length scanned) 1)))
  | [] => AvgInt 100
  end.

(** [below = [f for f in flagged if f.get("truth_score", 100) < threshold]] *)
Definition below_of (thr : Z) (fl : list file_result) : list file_result :=
  filter (fun f => get_default (get_truth_score f) 100 <? thr) fl.

Definition nonempty {A : Type} (l : list A) : bool :=
  match l with
  | [] => false
  | _ :: _ => true
  end.

(** [value[:100]] followed by the ellipsis of the local fallback. *)
Definition abbreviated (value : pystr) : pystr :=
  firstn 100 value ++ (if (100 <? List.length value)%nat then lit "..." else []).

Section Script.

Variable cfg : config.
Variable w : world.

(** [with open(filepath, "r", encoding="utf-8", errors="ignore") as f:
    text = f.read()] *)
Definition open_read (filepath : pystr) : M pystr :=
  emit (Read filepath) ;; lift (read_file w filepath).

(** [await scan_local(text, domain=domain)] *)
Definition await_scan_local (text dom : pystr) : M verdict :=
  emit (Analyze text dom) ;; lift (scan_local w text dom).

(** [with open(file, "a") as f: f.write(data)] *)
Definition append_to (file data : pystr) : M unit := emit (Append file data).

Definition _set_output (name value : pystr) : M unit :=
  let output_file := get_default (GITHUB_OUTPUT w) [] in
  if str_truthy output_file then
    if contains_char NEWLINE value then
      let delimiter := uuid4_hex w in
      append_to output_file
        (name ++ lit "<<" ++ delimiter ++ [NEWLINE] ++ value ++ [NEWLINE] ++
         delimiter ++ [NEWLINE])
    else
      append_to output_file (name ++ lit "=" ++ value ++ [NEWLINE])
  else
    print (lit "  [output] " ++ name ++ lit "=" ++ abbreviated value).

Definition _write_summary (summary : pystr) : M unit :=
  let summary_file := get_default (GITHUB_STEP_SUMMARY w) [] in
  if str_truthy summary_file then
    append_to summary_file (summary ++ [NEWLINE])
  else
    print ([NEWLINE] ++ summary).

(** The body of [for filepath in files], with its [try]/[except]. *)
Definition scan_file (filepath : pystr) : M unit :=
  try_except
    (text <- open_read filepath ;;
     if negb (str_truthy (strip text)) then
       print (lit "  " ++ SKIP_GLYPH ++ lit " " ++ filepath ++ lit " (empty, skipped)")
     else
       result <- await_scan_local text (domain cfg) ;;
       let score := get_default (v_truth_score result) 100 in
       let flags := get_default (v_flags result) [] in
       let bias_detected := get_default (v_bias_detected result) false in
       let flag_count := List.length flags in
       total_score_add score ;;
       let file_result :=
         Scanned filepath score bias_detected flag_count
                 (List.map flag_entry (firstn 5 flags)) in
       results_append file_result ;;
       status <-
         (if bias_detected || (score <? threshold cfg) then
            flagged_append file_result ;;
            let flag_names :=
              join (lit ", ")
                   (List.map (fun f => get_default (flag_name f) []) (firstn 3 flags)) in
            print (lit "::warning file=" ++ filepath ++ lit "::" ++
                   lit "BiasClear: score " ++ str_of_Z score ++ lit "/100, " ++
                   str_of_nat flag_count ++ lit " pattern(s) detected: " ++ flag_names) ;;
            ret RED
          else if score <? 90 then ret YELLOW
          else ret GREEN) ;;
       print (lit "  " ++ status ++ lit " " ++ filepath ++ lit ": score " ++
              str_of_Z score ++ lit ", " ++ str_of_nat flag_count ++ lit " flag(s)"))
    (fun e =>
       print (lit "  " ++ WARN_GLYPH ++ lit "  " ++ filepath ++
              lit ": scan failed (" ++ e ++ lit ")") ;;
       results_append (Failed filepath e)).

Definition main : M unit :=
  let files := glob w (paths_pattern cfg) in
  if negb (nonempty files) then
    print (lit "::notice::No files matched pattern '" ++ paths_pattern cfg ++ lit "'") ;;
    _set_output (lit "total_files") (lit "0") ;;
    _set_output (lit "flagged_files") (lit "0") ;;
    _set_output (lit "avg_score") (lit "100") ;;
    _set_output (lit "report") (lit "[]") ;;
    ret tt
  else
    print (MAGNIFIER ++ lit " BiasClear scanning " ++ str_of_nat (List.length files) ++
           lit " file(s) in domain '" ++ domain cfg ++ lit "'") ;;
    print (lit "   Threshold: " ++ str_of_Z (threshold cfg) ++
           lit " | Fail on bias: " ++ str_of_bool (fail_on_bias cfg)) ;;
    print (lit "   Pattern: " ++ paths_pattern cfg) ;;
    print [] ;;
    for_each scan_file files ;;
    st <- get ;;
    let scanned := scanned_of (results st) in
    let avg_score := avg_score_of (total_score st) scanned in
    print [] ;;
    print (repeat_str BAR 60) ;;
    print (CHART ++ lit " BiasClear Results: " ++ str_of_nat (List.length scanned) ++
           lit " scanned, " ++ str_of_nat (List.length (flagged st)) ++
           lit " flagged, avg score " ++ str_of_avg avg_score) ;;
    print (repeat_str BAR 60) ;;
    _set_output (lit "total_files") (str_of_nat (List.length scanned)) ;;
    _set_output (lit "flagged_files") (str_of_nat (List.length (flagged st))) ;;
    _set_output (lit "avg_score") (str_of_avg avg_score) ;;
    _set_output (lit "report") (dump_report (results st)) ;;
    summary <- lift (_build_summary scanned (flagged st) avg_score
                                    (threshold cfg) (domain cfg)) ;;
    _write_summary summary ;;
    (if nonempty (flagged st) && fail_on_bias cfg then
       let below := below_of (threshold cfg) (flagged st) in
       if nonempty below then
         print ([NEWLINE] ++ CROSS ++ lit " " ++ str_of_nat (List.length below) ++
                lit " file(s) scored below threshold (" ++
                str_of_Z (threshold cfg) ++ lit ")") ;;
         sys_exit 1
       else ret tt
     else ret tt) ;;
    print ([NEWLINE] ++ CHECK_MARK ++ lit " All files passed BiasClear scan").

End Script.

(* ===================================================================== *)
(** ** Well-formed text *)
(* ===================================================================== *)

(** A string of code points in which no high surrogate is directly
    followed by a low surrogate.  Text decoded from UTF-8 and file names
    decoded with [surrogateescape] are of this kind. *)
Fixpoint valid_str (s : pystr) : bool :=
  match s with
  | [] => true
  | c :: r =>
      (c <? 0x110000)%N &&
      negb (is_high_surrogate c &&
            match r with
            | c' :: _ => is_low_surrogate c'
            | [] => false
            end) &&
      valid_str r
  end.

Fixpoint valid_val (v : pyval) : bool :=
  match v with
  | PStr s => valid_str s
  | PList l => forallb valid_val l
  | PDict d =>
      forallb (fun kv => match kv with
                         | (k, x) => valid_str k && valid_val x
                         end) d
  | _ => true
  end.

Definition valid_result (r : file_result) : bool :=
  match r with
  | Scanned file _ _ _ flags =>
      valid_str file &&
      forallb (fun f => valid_str (fst f) && valid_str (snd f)) flags
  | Failed file error => valid_str file && valid_str error
  end.

(** What may follow an integer in a document: anything but a digit, a
    point or an exponent mark. *)
Definition ends_number (rest : pystr) : bool :=
  match rest with
  | [] => true
  | c :: _ =>
      negb ((48 <=? c) && (c <=? 57) || (c =? 46) || (c =? 101) || (c =? 69))%N
  end.

(* ===================================================================== *)
(** ** Vocabulary of the statements *)
(* ===================================================================== *)

(** What one pass of the loop body adds when it starts from nothing, and
    how such an addition is laid on top of a state. *)
Definition delta (cfg : config) (w : world) (filepath : pystr) : state :=
  snd (scan_file cfg w filepath initial).

Definition combine (st d : state) : state :=
  mkState (results st ++ results d) (flagged st ++ flagged d)
          (total_score st + total_score d) (trace st ++ trace d).

(** The state the loop of [main] ends in. *)
Definition loop_state (cfg : config) (w : world) (files : list pystr) : state :=
  snd (for_each (scan_file cfg w) files initial).

(** A matched file whose text is empty once stripped. *)
Definition is_blank (w : world) (filepath : pystr) : bool :=
  match read_file w filepath with
  | Returns text => negb (str_truthy (strip text))
  | Raises _ => false
  end.

(** Reading [filepath], or analysing what was read, raises [msg]. *)
Definition raises_on (cfg : config) (w : world) (filepath msg : pystr) : Prop :=
  read_file w filepath = Raises msg \/
  exists text, read_file w filepath = Returns text /\
               str_truthy (strip text) = true /\
               scan_local w text (domain cfg) = Raises msg.

(** Reading and analysing [filepath] succeed with verdict [v]. *)
Definition scans_to (cfg : config) (w : world) (filepath : pystr) (v : verdict) : Prop :=
  exists text, read_file w filepath = Returns text /\
               str_truthy (strip text) = true /\
               scan_local w text (domain cfg) = Returns v.

(** The record [main] builds from a verdict. *)
Definition scanned_entry (filepath : pystr) (v : verdict) : file_result :=
  Scanned filepath (get_default (v_truth_score v) 100)
          (get_default (v_bias_detected v) false)
          (List.length (get_default (v_flags v) []))
          (List.map flag_entry (firstn 5 (get_default (v_flags v) []))).

Definition reads_of (tr : list event) : list pystr :=
  flat_map (fun e => match e with Read f => [f] | _ => [] end) tr.

Definition analyzed_of (tr : list event) : list pystr :=
  flat_map (fun e => match e with Analyze text _ => [text] | _ => [] end) tr.

Definition printed_of (tr : list event) : list pystr :=
  flat_map (fun e => match e with Print line => [line] | _ => [] end) tr.

(** Everything appended to [file], in order. *)
Definition appended_to (file : pystr) (tr : list event) : pystr :=
  flat_map (fun e => match e with
                     | Append f data => if pystr_eqb f file then data else []
                     | _ => []
                     end) tr.

Fixpoint sum_scores (rs : list file_result) : Z :=
  match rs with
  | [] => 0
  | r :: rest => get_default (get_truth_score r) 0 + sum_scores rest
  end.


(** The four ways the loop body can go at a file. *)
Inductive file_case : Type :=
| ReadError (msg : pystr)
| BlankFile (text : pystr)
| ScanError (text : pystr) (msg : pystr)
| Scored (text : pystr) (v : verdict).

Definition classify_file (cfg : config) (w : world) (filepath : pystr) : file_case :=
  match read_file w filepath with
  | Raises msg => ReadError msg
  | Returns text =>
      if str_truthy (strip text) then
        match scan_local w text (domain cfg) with
        | Raises msg => ScanError text msg
        | Returns v => Scored text v
        end
      else BlankFile text
  end.

(** [bias_detected or score < threshold] on a verdict. *)
Definition verdict_flagged (cfg : config) (v : verdict) : bool :=
  get_default (v_bias_detected v) false
  || (get_default (v_truth_score v) 100 <? threshold cfg).

(** The same test on a record of [results]. *)
Definition entry_flagged (cfg : config) (r : file_result) : bool :=
  match r with
  | Scanned _ truth_score bias_detected _ _ =>
      bias_detected || (truth_score <? threshold cfg)
  | Failed _ _ => false
  end.

Definition add_trace (st : state) (evs : list event) : state :=
  mkState (results st) (flagged st) (total_score st) (trace st ++ evs).

(** The events one call of [_set_output] and of [_write_summary] adds. *)
Definition output_events (w : world) (name value : pystr) : list event :=
  trace (snd (_set_output w name value initial)).

Definition summary_events (w : world) (summary : pystr) : list event :=
  trace (snd (_write_summary w summary initial)).

(** The per-file progress line and the skip notice, as [main] prints them. *)
Definition progress_line (status filepath : pystr) (score : Z) (flag_count : nat) : pystr :=
  lit "  " ++ status ++ lit " " ++ filepath ++ lit ": score " ++
  str_of_Z score ++ lit ", " ++ str_of_nat flag_count ++ lit " flag(s)".

Definition skip_line (filepath : pystr) : pystr :=
  lit "  " ++ SKIP_GLYPH ++ lit " " ++ filepath ++ lit " (empty, skipped)".

Definition failed_line (filepath msg : pystr) : pystr :=
  lit "  " ++ WARN_GLYPH ++ lit "  " ++ filepath ++ lit ": scan failed (" ++ msg ++ lit ")".

(** The glyph [main] puts on the progress line of a scored file. *)
Definition status_of (cfg : config) (v : verdict) : pystr :=
  if verdict_flagged cfg v then RED
  else if get_default (v_truth_score v) 100 <? 90 then YELLOW
  else GREEN.

(** The classification by score alone: red below the threshold, yellow
    from the threshold up to 90, green from 90 on. *)
Definition tier_by_score (thr score : Z) : pystr :=
  if score <? thr then RED
  else if score <? 90 then YELLOW
  else GREEN.

(** The annotation printed for a flagged file. *)
Definition warning_line (filepath : pystr) (v : verdict) : pystr :=
  lit "::warning file=" ++ filepath ++ lit "::" ++
  lit "BiasClear: score " ++ str_of_Z (get_default (v_truth_score v) 100) ++
  lit "/100, " ++ str_of_nat (List.length (get_default (v_flags v) [])) ++
  lit " pattern(s) detected: " ++
  join (lit ", ")
       (List.map (fun f => get_default (flag_name f) [])
                 (firstn 3 (get_default (v_flags v) []))).

(** What the loop body adds to the state, read off the four cases. *)
Definition file_effect (cfg : config) (w : world) (filepath : pystr) : state :=
  match classify_file cfg w filepath with
  | ReadError msg =>
      mkState [Failed filepath msg] [] 0
              [Read filepath; Print (failed_line filepath msg)]
  | BlankFile text =>
      mkState [] [] 0 [Read filepath; Print (skip_line filepath)]
  | ScanError text msg =>
      mkState [Failed filepath msg] [] 0
              [Read filepath; Analyze text (domain cfg);
               Print (failed_line filepath msg)]
  | Scored text v =>
      let r := scanned_entry filepath v in
      mkState [r] (if verdict_flagged cfg v then [r] else [])
              (get_default (v_truth_score v) 100)
              ([Read filepath; Analyze text (domain cfg)] ++
               (if verdict_flagged cfg v then [Print (warning_line filepath v)] else []) ++
               [Print (progress_line (status_of cfg v) filepath
                         (get_default (v_truth_score v) 100)
                         (List.length (get_default (v_flags v) [])))])
  end.

(** The lines [main] prints before the loop, between the loop and the
    outputs, and at the very end. *)
Definition announce_events (cfg : config) (files : list pystr) : list event :=
  [Print (MAGNIFIER ++ lit " BiasClear scanning " ++ str_of_nat (List.length files) ++
          lit " file(s) in domain '" ++ domain cfg ++ lit "'");
   Print (lit "   Threshold: " ++ str_of_Z (threshold cfg) ++
          lit " | Fail on bias: " ++ str_of_bool (fail_on_bias cfg));
   Print (lit "   Pattern: " ++ paths_pattern cfg);
   Print []].

Definition tally_events (scanned fl : list file_result) (avg_score : avg) : list event :=
  [Print [];
   Print (repeat_str BAR 60);
   Print (CHART ++ lit " BiasClear Results: " ++ str_of_nat (List.length scanned) ++
          lit " scanned, " ++ str_of_nat (List.length fl) ++
          lit " flagged, avg score " ++ str_of_avg avg_score);
   Print (repeat_str BAR 60)].

Definition below_line (cfg : config) (below : list file_result) : pystr :=
  [NEWLINE] ++ CROSS ++ lit " " ++ str_of_nat (List.length below) ++
  lit " file(s) scored below threshold (" ++ str_of_Z (threshold cfg) ++ lit ")".

Definition passed_line : pystr :=
  [NEWLINE] ++ CHECK_MARK ++ lit " All files passed BiasClear scan".

Definition notice_line (cfg : config) : pystr :=
  lit "::notice::No files matched pattern '" ++ paths_pattern cfg ++ lit "'".

(** The four step outputs, in the order [main] sets them. *)
Definition outputs_events (w : world) (total_files flagged_files avg_score report : pystr)
  : list event :=
  output_events w (lit "total_files") total_files ++
  output_events w (lit "flagged_files") flagged_files ++
  output_events w (lit "avg_score") avg_score ++
  output_events w (lit "report") report.

(** The run of the whole script. *)
Definition run (cfg : config) (w : world) : result unit * state :=
  main cfg w initial.

(* ===================================================================== *)
(** ** Further vocabulary: calls, annotations, printable text *)
(* ===================================================================== *)

(** The calls to the analyzer, text and domain, in order. *)
Definition analyze_calls (tr : list event) : list (pystr * pystr) :=
  flat_map (fun e => match e with
                     | Analyze text dom => [(text, dom)]
                     | _ => []
                     end) tr.

(** The texts of the files that can be read and are not blank. *)
Definition texts_to_analyze (w : world) (files : list pystr) : list pystr :=
  flat_map (fun f => match read_file w f with
                     | Returns text => if str_truthy (strip text) then [text] else []
                     | Raises _ => []
                     end) files.

(** [line.startswith(prefix)] *)
Definition starts_with (prefix line : pystr) : bool :=
  match expect prefix line with
  | Some _ => true
  | None => false
  end.

(** The lines the host reads as file annotations. *)
Definition is_annotation (line : pystr) : bool :=
  starts_with (lit "::warning file=") line.

Definition annotations_of (tr : list event) : list pystr :=
  filter is_annotation (printed_of tr).

(** [r.get("flag_count", 0)] *)
Definition get_flag_count (r : file_result) : nat :=
  match r with
  | Scanned _ _ _ flag_count _ => flag_count
  | Failed _ _ => O
  end.

(** The annotation of a flagged file, read off its record. *)
Definition annotation_line (r : file_result) : pystr :=
  lit "::warning file=" ++ get_file r ++ lit "::" ++
  lit "BiasClear: score " ++ str_of_Z (get_default (get_truth_score r) 100) ++
  lit "/100, " ++ str_of_nat (get_flag_count r) ++
  lit " pattern(s) detected: " ++
  join (lit ", ") (List.map fst (firstn 3 (get_default (get_flags r) []))).

(** Text made of printable ASCII only: no line break, no control
    character. *)
Definition printable (s : pystr) : bool :=
  forallb (fun c => (32 <=? c) && (c <=? 126))%N s.

(* ===================================================================== *)
(** ** Vocabulary for reading the report back *)
(* ===================================================================== *)

(** What follows an escape never reads as the low half of a pair, unless
    the string itself has a low surrogate there. *)
Definition no_low_escape (rest : pystr) : Prop :=
  forall r', rest = 92%N :: 117%N :: r' ->
  exists m r'', parse_hex4 r' = Some (m, r'') /\ is_low_surrogate m = false.

(** The characters a serialised value can start with. *)
Definition value_head (c : N) : Prop :=
  c = 34%N \/ c = 123%N \/ c = 91%N \/ c = 110%N \/ c = 116%N \/ c = 102%N \/
  c = 45%N \/ (48 <= c /\ c <= 57)%N.

(** One [key: value] of a dictionary, as [json_dumps] writes it. *)
Definition dump_pair (kv : pystr * pyval) : pystr :=
  match kv with
  | (k, x) => encode_string k ++ lit ": " ++ json_dumps x
  end.

(* ===================================================================== *)
(** ** Changing one setting *)
(* ===================================================================== *)

(** The same configuration with another threshold, or another
    [fail_on_bias]. *)
Definition with_threshold (cfg : config) (thr : Z) : config :=
  mkConfig (paths_pattern cfg) thr (domain cfg) (fail_on_bias cfg).

Definition with_fail_on_bias (cfg : config) (b : bool) : config :=
  mkConfig (paths_pattern cfg) (threshold cfg) (domain cfg) b.

(** An event that writes to a file. *)
Definition is_append (e : event) : bool :=
  match e with
  | Append _ _ => true
  | _ => false
  end.

(* ===================================================================== *)
(** ** What reaches the sinks *)
(* ===================================================================== *)

(** The four outputs of [main] as they leave the script: four lines
    appended to the output file when there is one, four lines printed
    otherwise, the values cut to 100 code points. *)
Definition written_outputs (w : world)
    (total_files flagged_files avg_score report : pystr) : list event :=
  let out := get_default (GITHUB_OUTPUT w) [] in
  if str_truthy out then
    [Append out (lit "total_files=" ++ total_files ++ [NEWLINE]);
     Append out (lit "flagged_files=" ++ flagged_files ++ [NEWLINE]);
     Append out (lit "avg_score=" ++ avg_score ++ [NEWLINE]);
     Append out (lit "report=" ++ report ++ [NEWLINE])]
  else
    [Print (lit "  [output] total_files=" ++ abbreviated total_files);
     Print (lit "  [output] flagged_files=" ++ abbreviated flagged_files);
     Print (lit "  [output] avg_score=" ++ abbreviated avg_score);
     Print (lit "  [output] report=" ++ abbreviated report)].

(** The summary as it leaves the script: appended to the summary file
    with a line break after it, or printed with a line break before it. *)
Definition written_summary (w : world) (summary : pystr) : list event :=
  let summary_file := get_default (GITHUB_STEP_SUMMARY w) [] in
  if str_truthy summary_file then [Append summary_file (summary ++ [NEWLINE])]
  else [Print ([NEWLINE] ++ summary)].

(** The line that carries [avg_score] as it leaves the script. *)
Definition avg_output (w : world) (text : pystr) : event :=
  let out := get_default (GITHUB_OUTPUT w) [] in
  if str_truthy out then Append out (lit "avg_score=" ++ text ++ [NEWLINE])
  else Print (lit "  [output] avg_score=" ++ abbreviated text).

(* ===================================================================== *)
(** ** The average as the specification words it *)
(* ===================================================================== *)

(** The mean of the scores of the scanned records, rounded to one decimal
    place (on a tie to the even tenth, the rule [round] documents), and
    [100] when there is none. *)
Definition mean_rounded (scanned : list file_result) : avg :=
  match scanned with
  | [] => AvgInt 100
  | _ :: _ =>
      AvgFloat (round1 (sum_scores scanned # Pos.of_nat (List.length scanned)))
  end.


(* ===================================================================== *)
(** ** Reading a report back *)
(* ===================================================================== *)

(** The line that carries [report] as it leaves the script. *)
Definition report_output (w : world) (text : pystr) : event :=
  let out := get_default (GITHUB_OUTPUT w) [] in
  if str_truthy out then Append out (lit "report=" ++ text ++ [NEWLINE])
  else Print (lit "  [output] report=" ++ abbreviated text).

(** The fields of a parsed dictionary, by type. *)
Definition str_field (v : pyval) (k : string) : option pystr :=
  match py_get v (lit k) with
  | Some (PStr s) => Some s
  | _ => None
  end.

Definition int_field (v : pyval) (k : string) : option Z :=
  match py_get v (lit k) with
  | Some (PInt z) => Some z
  | _ => None
  end.

Definition bool_field (v : pyval) (k : string) : option bool :=
  match py_get v (lit k) with
  | Some (PBool b) => Some b
  | _ => None
  end.

Definition list_field (v : pyval) (k : string) : option (list pyval) :=
  match py_get v (lit k) with
  | Some (PList l) => Some l
  | _ => None
  end.

(** [f] on every item, if it succeeds on all of them. *)
Fixpoint all_some {A B : Type} (f : A -> option B) (l : list A) : option (list B) :=
  match l with
  | [] => Some []
  | a :: r =>
      match f a, all_some f r with
      | Some b, Some bs => Some (b :: bs)
      | _, _ => None
      end
  end.

(** A flag of a record, from its parsed dictionary. *)
Definition flag_of_py (v : pyval) : option (pystr * pystr) :=
  match str_field v "name", str_field v "severity" with
  | Some name, Some severity => Some (name, severity)
  | _, _ => None
  end.

(** A record, from its parsed dictionary: a failed file when [skipped]
    is set, a scanned one otherwise. *)
Definition of_py (v : pyval) : option file_result :=
  match bool_field v "skipped" with
  | Some true =>
      match str_field v "file", str_field v "error" with
      | Some file, Some error => Some (Failed file error)
      | _, _ => None
      end
  | _ =>
      match str_field v "file", int_field v "truth_score",
            bool_field v "bias_detected", int_field v "flag_count",
            list_field v "flags" with
      | Some file, Some truth_score, Some bias_detected, Some flag_count, Some l =>
          match all_some flag_of_py l with
          | Some flags =>
              Some (Scanned file truth_score bias_detected (Z.to_nat flag_count) flags)
          | None => None
          end
      | _, _, _, _, _ => None
      end
  end.

(** The records of a report: [json.loads] and then every dictionary read
    as a record. *)
Definition read_report (text : pystr) : option (list file_result) :=
  match json_loads text with
  | Some (PList l) => all_some of_py l
  | _ => None
  end.
(* ===================================================================== *)
(** ** Sample runs *)
(* ===================================================================== *)

Definition sample_cfg : config := mkConfig (lit "**/*.md") 70 (lit "general") true.

Definition sample_read (f : pystr) : outcome pystr :=
  if pystr_eqb f (lit "a.md") then Returns (lit "alpha")
  else if pystr_eqb f (lit "b.md") then Returns (lit "beta")
  else if pystr_eqb f (lit "c.md") then Returns (lit "gamma")
  else if pystr_eqb f (lit "d.md") then Returns (lit "delta")
  else if pystr_eqb f (lit "low.md") then Returns (lit "lambda")
  else if pystr_eqb f (lit "blank.md") then Returns (lit "  ")
  else Raises (lit "[Errno 2] No such file or directory").

Definition sample_scan (text dom : pystr) : outcome verdict :=
  if pystr_eqb text (lit "alpha") then
    Returns (mkVerdict (Some 100) (Some []) (Some false))
  else if pystr_eqb text (lit "beta") then Raises (lit "boom")
  else if pystr_eqb text (lit "gamma") then
    Returns (mkVerdict (Some 80)
               (Some [mkFlag (Some (lit "loaded")) (Some (lit "high"))])
               (Some true))
  else if pystr_eqb text (lit "delta") then
    Returns (mkVerdict (Some 95) None (Some true))
  else if pystr_eqb text (lit "lambda") then
    Returns (mkVerdict (Some 50)
               (Some [mkFlag (Some (lit "framing")) None])
               (Some true))
  else Returns (mkVerdict None None None).

Definition world_of (files : list pystr) : world :=
  mkWorld (Some (lit "/tmp/out")) (Some (lit "/tmp/summary"))
          (fun _ => files) sample_read sample_scan (lit "0123abcd").

(** Three files; the analyzer fails on the second one. *)
Definition sample_world : world := world_of [lit "a.md"; lit "b.md"; lit "c.md"].

(** A file below the threshold, after a blank one. *)
Definition failing_world : world := world_of [lit "blank.md"; lit "low.md"; lit "a.md"].

(** A high score with [bias_detected] set. *)
Definition biased_world : world := world_of [lit "d.md"].

(** Nothing matches. *)
Definition empty_world : world := world_of [].

(** No sink configured: the local fallback. *)
Definition local_world : world :=
  mkWorld None None (fun _ => []) sample_read sample_scan (lit "0123abcd").

(** Twenty files: seven score 86 and thirteen score 85, 1707 in all. *)
Definition twenty_read (f : pystr) : outcome pystr :=
  if starts_with (lit "h") f then Returns (lit "high") else Returns (lit "low").

Definition twenty_scan (text dom : pystr) : outcome verdict :=
  if pystr_eqb text (lit "high") then Returns (mkVerdict (Some 86) None None)
  else Returns (mkVerdict (Some 85) None None).

Definition twenty_files : list pystr :=
  [lit "h1.md"; lit "h2.md"; lit "h3.md"; lit "h4.md"; lit "h5.md"; lit "h6.md";
   lit "h7.md"; lit "l01.md"; lit "l02.md"; lit "l03.md"; lit "l04.md"; lit "l05.md";
   lit "l06.md"; lit "l07.md"; lit "l08.md"; lit "l09.md"; lit "l10.md"; lit "l11.md";
   lit "l12.md"; lit "l13.md"].

Definition twenty_world : world :=
  mkWorld (Some (lit "/tmp/out")) (Some (lit "/tmp/summary"))
          (fun _ => twenty_files) twenty_read twenty_scan (lit "0123abcd").

(** No sink configured, three files to scan. *)
Definition local_files_world : world :=
  mkWorld None (Some [])
          (fun _ => [lit "blank.md"; lit "low.md"; lit "a.md"])
          sample_read sample_scan (lit "0123abcd").




(** A clean file whose one flag is named by a high and a low surrogate. *)
Definition surrogate_world : world :=
  mkWorld (Some (lit "/tmp/out")) (Some (lit "/tmp/summary"))
          (fun _ => [lit "a.md"])
          (fun _ => Returns (lit "some text"))
          (fun _ _ => Returns (mkVerdict (Some 95)
                                 (Some [mkFlag (Some [0xD83D; 0xDE00]%N) (Some (lit "low"))])
                                 (Some false)))
          (lit "0123abcd").
(* ===================================================================== *)
(** ** Properties of the loop *)
(* ===================================================================== *)

Ltac unfold_py :=
  unfold scan_file, try_except, bind, open_read, await_scan_local, lift,
    append_to, print, emit, raise, ret, sys_exit, get, results_append,
    flagged_append, total_score_add.

Section LoopFacts.

Variable cfg : config.
Variable w : world.

Lemma combine_initial_r st : combine st initial = st.
Proof.
  destruct st; unfold combine; simpl.
  now rewrite !List.app_nil_r, Z.add_0_r.
Qed.

Lemma combine_initial_l st : combine initial st = st.
Proof. now destruct st. Qed.

Lemma combine_assoc a b c : combine (combine a b) c = combine a (combine b c).
Proof.
  unfold combine; simpl. now rewrite !List.app_assoc, Z.add_assoc.
Qed.

(** The loop body never raises past its handler, and what it does to the
    state does not depend on the state it starts from. *)
Lemma scan_file_frame filepath st :
  scan_file cfg w filepath st = (Val tt, combine st (delta cfg w filepath)).
Proof.
  unfold delta. unfold_py. unfold combine. simpl.
  destruct (read_file w filepath) as [text|msg]; simpl.
  - destruct (str_truthy (strip text)); simpl.
    + destruct (scan_local w text (domain cfg)) as [v|msg]; simpl.
      * destruct (get_default (v_bias_detected v) false
                  || (get_default (v_truth_score v) 100 <? threshold cfg)); simpl.
        -- now rewrite <- !List.app_assoc.
        -- destruct (get_default (v_truth_score v) 100 <? 90); simpl;
             now rewrite <- !List.app_assoc, ?List.app_nil_r.
      * now rewrite <- !List.app_assoc, ?List.app_nil_r, ?Z.add_0_r.
    + now rewrite <- !List.app_assoc, ?List.app_nil_r, ?Z.add_0_r.
  - now rewrite <- !List.app_assoc, ?List.app_nil_r, ?Z.add_0_r.
Qed.

(** What the body adds, case by case. *)
Lemma delta_cases filepath : delta cfg w filepath = file_effect cfg w filepath.
Proof.
  unfold delta, file_effect, classify_file, status_of, verdict_flagged.
  unfold_py. simpl.
  destruct (read_file w filepath) as [text|msg]; simpl; [|reflexivity].
  destruct (str_truthy (strip text)); simpl; [|reflexivity].
  destruct (scan_local w text (domain cfg)) as [v|msg]; simpl; [|reflexivity].
  destruct (get_default (v_bias_detected v) false
            || (get_default (v_truth_score v) 100 <? threshold cfg)); simpl;
    [reflexivity|].
  now destruct (get_default (v_truth_score v) 100 <? 90).
Qed.

Lemma scan_file_run filepath st :
  scan_file cfg w filepath st = (Val tt, combine st (file_effect cfg w filepath)).
Proof. now rewrite scan_file_frame, delta_cases. Qed.

(** The whole loop: it always runs to the end, and its effect is the
    effects of the files laid end to end. *)
Lemma for_each_scan files st :
  for_each (scan_file cfg w) files st = (Val tt, combine st (loop_state cfg w files)).
Proof.
  unfold loop_state. revert st.
  induction files as [|f files IH]; intro st; simpl.
  - unfold ret; simpl. now rewrite combine_initial_r.
  - unfold bind. rewrite !scan_file_run.
    rewrite (IH (combine st _)), (IH (combine initial _)). simpl.
    now rewrite combine_initial_l, combine_assoc.
Qed.

Lemma loop_state_nil : loop_state cfg w [] = initial.
Proof. reflexivity. Qed.

Lemma loop_state_cons f files :
  loop_state cfg w (f :: files) =
  combine (file_effect cfg w f) (loop_state cfg w files).
Proof.
  unfold loop_state at 1. simpl. unfold bind.
  rewrite scan_file_run, for_each_scan. simpl.
  now rewrite combine_initial_l.
Qed.

Lemma loop_state_app pre post :
  loop_state cfg w (pre ++ post) =
  combine (loop_state cfg w pre) (loop_state cfg w post).
Proof.
  induction pre as [|f pre IH]; simpl.
  - now rewrite loop_state_nil, combine_initial_l.
  - now rewrite !loop_state_cons, IH, combine_assoc.
Qed.

Lemma results_loop files :
  results (loop_state cfg w files) =
  flat_map (fun f => results (file_effect cfg w f)) files.
Proof.
  induction files as [|f files IH]; [reflexivity|].
  rewrite loop_state_cons. simpl. now rewrite IH.
Qed.

Lemma trace_loop files :
  trace (loop_state cfg w files) =
  flat_map (fun f => trace (file_effect cfg w f)) files.
Proof.
  induction files as [|f files IH]; [reflexivity|].
  rewrite loop_state_cons. simpl. now rewrite IH.
Qed.

Lemma flagged_effect f :
  flagged (file_effect cfg w f) =
  filter (entry_flagged cfg) (results (file_effect cfg w f)).
Proof.
  unfold file_effect. now destruct (classify_file cfg w f).
Qed.

(** [flagged] is [results] filtered by the flagging test. *)
Lemma flagged_loop files :
  flagged (loop_state cfg w files) =
  filter (entry_flagged cfg) (results (loop_state cfg w files)).
Proof.
  induction files as [|f files IH]; [reflexivity|].
  rewrite loop_state_cons. simpl.
  now rewrite List.filter_app, IH, flagged_effect.
Qed.




Lemma files_of_effect f :
  List.map get_file (results (file_effect cfg w f)) =
  if is_blank w f then [] else [f].
Proof.
  unfold file_effect, classify_file, is_blank.
  destruct (read_file w f) as [text|msg]; simpl; [|reflexivity].
  destruct (str_truthy (strip text)); simpl; [|reflexivity].
  now destruct (scan_local w text (domain cfg)).
Qed.

Lemma files_of_loop files :
  List.map get_file (results (loop_state cfg w files)) =
  filter (fun f => negb (is_blank w f)) files.
Proof.
  induction files as [|f files IH]; [reflexivity|].
  rewrite loop_state_cons. simpl.
  rewrite List.map_app, IH, files_of_effect.
  now destruct (is_blank w f).
Qed.

Lemma reads_of_app a b : reads_of (a ++ b) = reads_of a ++ reads_of b.
Proof. apply List.flat_map_app. Qed.

Lemma analyzed_of_app a b : analyzed_of (a ++ b) = analyzed_of a ++ analyzed_of b.
Proof. apply List.flat_map_app. Qed.

Lemma reads_of_effect f : reads_of (trace (file_effect cfg w f)) = [f].
Proof.
  unfold file_effect. destruct (classify_file cfg w f); simpl; try reflexivity.
  now destruct (verdict_flagged cfg v).
Qed.

Lemma reads_of_loop files : reads_of (trace (loop_state cfg w files)) = files.
Proof.
  induction files as [|f files IH]; [reflexivity|].
  rewrite loop_state_cons. simpl.
  now rewrite reads_of_app, IH, reads_of_effect.
Qed.

(** Membership in the results of the loop comes from one of the files. *)
Lemma in_results_loop r files :
  In r (results (loop_state cfg w files)) <->
  exists f, In f files /\ In r (results (file_effect cfg w f)).
Proof.
  rewrite results_loop, List.in_flat_map. reflexivity.
Qed.

(** *** The helpers that only write *)

Lemma print_run line st : print line st = (Val tt, add_trace st [Print line]).
Proof. reflexivity. Qed.

Lemma set_output_run name value st :
  _set_output w name value st = (Val tt, add_trace st (output_events w name value)).
Proof.
  unfold output_events, _set_output. unfold_py.
  destruct (str_truthy _); [destruct (contains_char _ _)|]; reflexivity.
Qed.

Lemma write_summary_run summary st :
  _write_summary w summary st = (Val tt, add_trace st (summary_events w summary)).
Proof.
  unfold summary_events, _write_summary. unfold_py.
  destruct (str_truthy _); reflexivity.
Qed.

Lemma add_trace_add st a b : add_trace (add_trace st a) b = add_trace st (a ++ b).
Proof. unfold add_trace; simpl. now rewrite <- List.app_assoc. Qed.

End LoopFacts.

(* ===================================================================== *)
(** ** Properties of [_build_summary] and [main] *)
(* ===================================================================== *)

Section MainFacts.

Variable cfg : config.
Variable w : world.

Lemma summary_rows_scanned fl :
  Forall (fun r => is_scanned r = true) fl ->
  exists rows, summary_rows fl = Returns rows /\ List.length rows = List.length fl.
Proof.
  induction 1 as [|r fl Hr _ [rows [IH Hlen]]]; simpl.
  - now exists [].
  - destruct r; [|discriminate]. unfold summary_row. simpl. rewrite IH.
    eexists; split; [reflexivity|]. simpl. now rewrite Hlen.
Qed.

(** [_build_summary] returns whenever every flagged record has a score. *)
Lemma build_summary_returns scanned fl a thr dom :
  Forall (fun r => is_scanned r = true) fl ->
  exists summary, _build_summary scanned fl a thr dom = Returns summary.
Proof.
  intro H. unfold _build_summary.
  destruct fl as [|r fl]; [eexists; reflexivity|].
  destruct (summary_rows_scanned _ H) as [rows [-> _]].
  eexists; reflexivity.
Qed.

Lemma flagged_loop_scanned files :
  Forall (fun r => is_scanned r = true) (flagged (loop_state cfg w files)).
Proof.
  rewrite flagged_loop. apply Forall_forall. intros r Hr.
  apply filter_In in Hr. destruct Hr as [_ Hr]. now destruct r.
Qed.

Lemma main_no_files :
  glob w (paths_pattern cfg) = [] ->
  run cfg w =
  (Val tt,
   mkState [] [] 0
     (Print (notice_line cfg) ::
      outputs_events w (lit "0") (lit "0") (lit "100") (lit "[]"))).
Proof.
  intro E. unfold run, main. rewrite E. cbn [nonempty negb].
  unfold bind. rewrite print_run.
  repeat (rewrite set_output_run; cbv beta iota).
  unfold ret, add_trace, outputs_events. simpl. 
  now rewrite <- !List.app_assoc.
Qed.

Lemma main_files summary :
  let files := glob w (paths_pattern cfg) in
  let L := loop_state cfg w files in
  let scanned := scanned_of (results L) in
  let a := avg_score_of (total_score L) scanned in
  let below := below_of (threshold cfg) (flagged L) in
  let common :=
    announce_events cfg files ++ trace L ++ tally_events scanned (flagged L) a ++
    outputs_events w (str_of_nat (List.length scanned))
                     (str_of_nat (List.length (flagged L)))
                     (str_of_avg a) (dump_report (results L)) ++
    summary_events w summary in
  files <> [] ->
  _build_summary scanned (flagged L) a (threshold cfg) (domain cfg) = Returns summary ->
  run cfg w =
  if fail_on_bias cfg && nonempty below
  then (SysExit 1,
        mkState (results L) (flagged L) (total_score L)
                (common ++ [Print (below_line cfg below)]))
  else (Val tt,
        mkState (results L) (flagged L) (total_score L)
                (common ++ [Print passed_line])).
Proof.
  intros files L scanned a below common Hne Hsum.
  unfold run, main. fold files.
  assert (Hn : nonempty files = true) by (destruct files; [congruence|reflexivity]).
  rewrite Hn. cbn [negb].
  unfold bind.
  repeat (rewrite print_run; cbv beta iota).
  rewrite for_each_scan. cbv beta iota.
  change (loop_state cfg w files) with L.
  match goal with
  | |- context [combine ?X L] =>
      change (combine X L)
        with (mkState (results L) (flagged L) (total_score L)
                      (announce_events cfg files ++ trace L))
  end.
  unfold get. cbv beta iota.
  repeat (rewrite print_run; cbv beta iota).
  repeat (rewrite set_output_run; cbv beta iota).
  cbn [results flagged total_score add_trace].
  fold scanned. fold a. unfold lift. rewrite Hsum. unfold ret at 1. cbv beta iota.
  rewrite write_summary_run.
  rewrite !add_trace_add. fold below.
  assert (Hb : nonempty below = true -> nonempty (flagged L) = true).
  { unfold below, below_of. destruct (flagged L); [discriminate|reflexivity]. }
  unfold add_trace, common, tally_events, outputs_events, below_line, passed_line.
  cbn [results flagged total_score trace].
  destruct (nonempty below) eqn:Eb; [rewrite (Hb eq_refl)|];
    destruct (fail_on_bias cfg); try destruct (nonempty (flagged L));
    cbn [andb]; unfold ret, sys_exit; cbv beta iota; rewrite ?print_run;
    unfold add_trace; cbn [results flagged total_score trace];
    apply (f_equal (pair _)); apply (f_equal (mkState _ _ _));
    repeat rewrite <- List.app_assoc; reflexivity.
Qed.


(** The events of [_set_output] and [_write_summary], spelled out. *)
Lemma output_events_cases name value :
  output_events w name value =
  if str_truthy (get_default (GITHUB_OUTPUT w) []) then
    if contains_char NEWLINE value then
      [Append (get_default (GITHUB_OUTPUT w) [])
              (name ++ lit "<<" ++ uuid4_hex w ++ [NEWLINE] ++ value ++ [NEWLINE] ++
               uuid4_hex w ++ [NEWLINE])]
    else [Append (get_default (GITHUB_OUTPUT w) []) (name ++ lit "=" ++ value ++ [NEWLINE])]
  else [Print (lit "  [output] " ++ name ++ lit "=" ++ abbreviated value)].
Proof.
  unfold output_events, _set_output. unfold_py.
  destruct (str_truthy _); [destruct (contains_char _ _)|]; reflexivity.
Qed.

Lemma summary_events_cases summary :
  summary_events w summary =
  if str_truthy (get_default (GITHUB_STEP_SUMMARY w) []) then
    [Append (get_default (GITHUB_STEP_SUMMARY w) []) (summary ++ [NEWLINE])]
  else [Print ([NEWLINE] ++ summary)].
Proof.
  unfold summary_events, _write_summary. unfold_py.
  destruct (str_truthy _); reflexivity.
Qed.

Lemma reads_of_output name value : reads_of (output_events w name value) = [].
Proof.
  rewrite output_events_cases.
  destruct (str_truthy _); [destruct (contains_char _ _)|]; reflexivity.
Qed.

Lemma analyzed_of_output name value : analyzed_of (output_events w name value) = [].
Proof.
  rewrite output_events_cases.
  destruct (str_truthy _); [destruct (contains_char _ _)|]; reflexivity.
Qed.

Lemma reads_of_summary summary : reads_of (summary_events w summary) = [].
Proof. rewrite summary_events_cases. now destruct (str_truthy _). Qed.

Lemma analyzed_of_summary summary : analyzed_of (summary_events w summary) = [].
Proof. rewrite summary_events_cases. now destruct (str_truthy _). Qed.

(** [main] in one equation: the loop state, then the tally, the four
    outputs, the summary, and only then the verdict on the run. *)
Lemma main_with_files :
  let files := glob w (paths_pattern cfg) in
  let L := loop_state cfg w files in
  let scanned := scanned_of (results L) in
  let a := avg_score_of (total_score L) scanned in
  let below := below_of (threshold cfg) (flagged L) in
  files <> [] ->
  exists summary,
    _build_summary scanned (flagged L) a (threshold cfg) (domain cfg) = Returns summary /\
    run cfg w =
    (if fail_on_bias cfg && nonempty below then SysExit 1 else Val tt,
     mkState (results L) (flagged L) (total_score L)
       (announce_events cfg files ++ trace L ++ tally_events scanned (flagged L) a ++
        outputs_events w (str_of_nat (List.length scanned))
                         (str_of_nat (List.length (flagged L)))
                         (str_of_avg a) (dump_report (results L)) ++
        summary_events w summary ++
        [Print (if fail_on_bias cfg && nonempty below
                then below_line cfg below else passed_line)])).
Proof.
  intros files L scanned a below Hne.
  destruct (build_summary_returns scanned (flagged L) a (threshold cfg) (domain cfg)
              (flagged_loop_scanned files)) as [summary Hs].
  exists summary. split; [exact Hs|].
  rewrite (main_files summary Hne Hs). fold files L scanned a below.
  destruct (fail_on_bias cfg && nonempty below);
    now rewrite <- !List.app_assoc.
Qed.

(** The locals at the end of [main] are those the loop left. *)
Lemma run_locals :
  let L := loop_state cfg w (glob w (paths_pattern cfg)) in
  let st := snd (run cfg w) in
  results st = results L /\ flagged st = flagged L /\ total_score st = total_score L.
Proof.
  cbv zeta.
  destruct (glob w (paths_pattern cfg)) as [|f0 fs] eqn:E.
  - now rewrite (main_no_files E).
  - pose proof main_with_files as H. cbv zeta in H. rewrite E in H.
    destruct (H ltac:(discriminate)) as [summary [_ ->]]. now simpl.
Qed.

Lemma run_reads :
  reads_of (trace (snd (run cfg w))) = glob w (paths_pattern cfg).
Proof.
  destruct (glob w (paths_pattern cfg)) as [|f0 fs] eqn:E.
  - rewrite (main_no_files E). unfold outputs_events. cbn [snd trace].
    change (Print ?a :: ?l) with ([Print a] ++ l).
    now rewrite !reads_of_app, !reads_of_output.
  - pose proof main_with_files as H. cbv zeta in H. rewrite E in H.
    destruct (H ltac:(discriminate)) as [summary [_ ->]]. cbn [snd trace].
    unfold outputs_events.
    rewrite !reads_of_app, !reads_of_output, reads_of_summary, reads_of_loop.
    simpl. now rewrite List.app_nil_r.
Qed.

End MainFacts.

(* ===================================================================== *)
(** ** The run, claim by claim *)
(* ===================================================================== *)

Lemma classify_raises {cfg w f msg} :
  raises_on cfg w f msg ->
  classify_file cfg w f = ReadError msg \/
  exists text, classify_file cfg w f = ScanError text msg.
Proof.
  unfold raises_on, classify_file.
  intros [-> | [text [-> [-> ->]]]]; [now left | right; now exists text].
Qed.

Lemma classify_scans {cfg w f v} :
  scans_to cfg w f v -> exists text, classify_file cfg w f = Scored text v.
Proof.
  unfold scans_to, classify_file. intros [text [-> [-> ->]]]. now exists text.
Qed.

Lemma effect_raises {cfg w f msg} :
  raises_on cfg w f msg -> results (file_effect cfg w f) = [Failed f msg].
Proof.
  intro H. unfold file_effect.
  destruct (classify_raises H) as [-> | [text ->]]; reflexivity.
Qed.

Lemma effect_scans {cfg w f v} :
  scans_to cfg w f v -> results (file_effect cfg w f) = [scanned_entry f v].
Proof.
  intro H. unfold file_effect. destruct (classify_scans H) as [text ->]. reflexivity.
Qed.

(** C1 (per-file failure isolation).  Whatever the files do, the loop of
    [main] returns normally from any state, and in the whole run every
    matched file is opened, in discovery order.  The names of the records
    in [results] are exactly the matched files that are not blank, in that
    order, one record each.  A file on which reading or the analyzer raises
    [msg] has the record [Failed file msg]; a file that is read and
    analysed has its [Scanned] record. *)
Theorem failure_isolation (cfg : config) (w : world) :
  let files := glob w (paths_pattern cfg) in
  let st := snd (run cfg w) in
  (forall st0, fst (for_each (scan_file cfg w) files st0) = Val tt) /\
  reads_of (trace st) = files /\
  List.map get_file (results st) = filter (fun f => negb (is_blank w f)) files /\
  (forall f msg, In f files -> raises_on cfg w f msg ->
                 In (Failed f msg) (results st)) /\
  (forall f v, In f files -> scans_to cfg w f v ->
               In (scanned_entry f v) (results st)).
Proof.
  intros files st.
  destruct (run_locals cfg w) as [Hr _]. fold files st in Hr.
  split; [intro st0; now rewrite for_each_scan|].
  split; [apply run_reads|].
  rewrite Hr. split; [apply files_of_loop|].
  split.
  - intros f msg Hin H. apply in_results_loop. exists f. split; [exact Hin|].
    rewrite (effect_raises H). now left.
  - intros f v Hin H. apply in_results_loop. exists f. split; [exact Hin|].
    rewrite (effect_scans H). now left.
Qed.

(** Three files, the second of which makes the analyzer raise: three
    records, two [Scanned] around one [Failed]. *)
Example three_files_one_failure :
  results (snd (run sample_cfg sample_world)) =
  [Scanned (lit "a.md") 100 false 0 [];
   Failed (lit "b.md") (lit "boom");
   Scanned (lit "c.md") 80 true 1 [(lit "loaded", lit "high")]].
Proof. vm_compute. reflexivity. Qed.

Lemma failure_isolation_witness :
  In (Failed (lit "b.md") (lit "boom")) (results (snd (run sample_cfg sample_world))) /\
  In (scanned_entry (lit "a.md") (mkVerdict (Some 100) (Some []) (Some false)))
     (results (snd (run sample_cfg sample_world))).
Proof.
  destruct (failure_isolation sample_cfg sample_world) as (_ & _ & _ & Hf & Hs).
  split.
  - apply Hf.
    + simpl. right. left. reflexivity.
    + right. exists (lit "beta"). repeat split; reflexivity.
  - apply Hs.
    + simpl. left. reflexivity.
    + exists (lit "alpha"). repeat split; reflexivity.
Defined.

Lemma verdict_flagged_iff cfg v :
  verdict_flagged cfg v = true <->
  get_default (v_bias_detected v) false = true \/
  get_default (v_truth_score v) 100 < threshold cfg.
Proof.
  unfold verdict_flagged. rewrite orb_true_iff, Z.ltb_lt. reflexivity.
Qed.

Lemma entry_flagged_scanned cfg f v :
  entry_flagged cfg (scanned_entry f v) = verdict_flagged cfg v.
Proof. reflexivity. Qed.

(** C3 (flagged characterisation).  When a file is read and analysed
    with verdict [v], the loop body appends its record to [flagged] if
    [bias_detected] is true or the score is below the threshold, and
    leaves [flagged] alone otherwise.  At the end of the run [flagged] is
    [results] filtered by that test, so the record of a scanned file is
    in [flagged] exactly when the test holds. *)
Theorem flagged_characterization (cfg : config) (w : world) :
  let files := glob w (paths_pattern cfg) in
  let st := snd (run cfg w) in
  (forall f v st0, scans_to cfg w f v ->
     flagged (snd (scan_file cfg w f st0)) =
     if verdict_flagged cfg v then flagged st0 ++ [scanned_entry f v]
     else flagged st0) /\
  flagged st = filter (entry_flagged cfg) (results st) /\
  (forall f v, In f files -> scans_to cfg w f v ->
     (In (scanned_entry f v) (flagged st) <->
      get_default (v_bias_detected v) false = true \/
      get_default (v_truth_score v) 100 < threshold cfg)).
Proof.
  intros files st.
  destruct (run_locals cfg w) as (Hr & Hf & _). fold files st in Hr, Hf.
  assert (Hfl : flagged st = filter (entry_flagged cfg) (results st)).
  { rewrite Hr, Hf. apply flagged_loop. }
  split; [|split; [exact Hfl|]].
  - intros f v st0 H. rewrite scan_file_run. simpl.
    unfold file_effect. destruct (classify_scans H) as [text ->]. simpl.
    destruct (verdict_flagged cfg v); [reflexivity | apply List.app_nil_r].
  - intros f v Hin H. rewrite Hfl, filter_In, entry_flagged_scanned,
      verdict_flagged_iff.
    split; [tauto|]. intro Hc. split; [|exact Hc].
    rewrite Hr. apply in_results_loop. exists f. split; [exact Hin|].
    rewrite (effect_scans H). now left.
Qed.

Lemma flagged_characterization_witness :
  In (scanned_entry (lit "c.md")
        (mkVerdict (Some 80)
           (Some [mkFlag (Some (lit "loaded")) (Some (lit "high"))]) (Some true)))
     (flagged (snd (run sample_cfg sample_world))).
Proof.
  destruct (flagged_characterization sample_cfg sample_world) as (_ & _ & H).
  apply H.
  - simpl. right. right. left. reflexivity.
  - exists (lit "gamma"). repeat split; reflexivity.
  - left. reflexivity.
Defined.

(** A record flagged on [bias_detected] alone: score 95 against a
    threshold of 70. *)
Example flagged_on_bias_alone :
  flagged (snd (run sample_cfg biased_world)) = [Scanned (lit "d.md") 95 true 0 []] /\
  fst (run sample_cfg biased_world) = Val tt.
Proof. vm_compute. split; reflexivity. Qed.

Lemma blank_effect cfg {w f} :
  is_blank w f = true ->
  file_effect cfg w f = mkState [] [] 0 [Read f; Print (skip_line f)].
Proof.
  unfold is_blank, file_effect, classify_file.
  destruct (read_file w f) as [text|msg]; [|discriminate].
  now destruct (str_truthy (strip text)).
Qed.

Lemma loop_without_blanks cfg w files :
  let kept := filter (fun f => negb (is_blank w f)) files in
  results (loop_state cfg w files) = results (loop_state cfg w kept) /\
  flagged (loop_state cfg w files) = flagged (loop_state cfg w kept) /\
  total_score (loop_state cfg w files) = total_score (loop_state cfg w kept).
Proof.
  cbv zeta. induction files as [|f files (IHr & IHf & IHt)]; [now simpl|].
  simpl filter. destruct (is_blank w f) eqn:B; simpl negb; cbv iota.
  - rewrite loop_state_cons, (blank_effect cfg B). simpl. auto.
  - rewrite !loop_state_cons. simpl. now rewrite IHr, IHf, IHt.
Qed.

(** C5 (empty-file exclusion).  On a matched file whose text is empty
    once stripped, the loop body opens the file, prints the skip notice
    and does nothing else: no call to the analyzer, no record in
    [results] or [flagged], [total_score] unchanged.  Dropping the blank
    files from the list of matches leaves [results], [flagged] and
    [total_score] at the end of the loop as they are, hence also the
    count of scanned files and the average. *)
Theorem empty_file_excluded (cfg : config) (w : world) :
  (forall f st0, is_blank w f = true ->
     scan_file cfg w f st0 = (Val tt, add_trace st0 [Read f; Print (skip_line f)])) /\
  (forall f, is_blank w f = true ->
     analyzed_of (trace (snd (scan_file cfg w f initial))) = []) /\
  (forall files,
     let L := loop_state cfg w files in
     let L' := loop_state cfg w (filter (fun f => negb (is_blank w f)) files) in
     results L = results L' /\ flagged L = flagged L' /\
     total_score L = total_score L' /\
     List.length (scanned_of (results L)) = List.length (scanned_of (results L')) /\
     avg_score_of (total_score L) (scanned_of (results L)) =
     avg_score_of (total_score L') (scanned_of (results L'))).
Proof.
  split; [|split].
  - intros f st0 B. rewrite scan_file_run, (blank_effect cfg B).
    unfold combine, add_trace. simpl.
    now rewrite !List.app_nil_r, Z.add_0_r.
  - intros f B. now rewrite scan_file_run, (blank_effect cfg B).
  - intros files L L'.
    destruct (loop_without_blanks cfg w files) as (Hr & Hf & Ht).
    fold L L' in Hr, Hf, Ht. now rewrite Hr, Hf, Ht.
Qed.

Lemma empty_file_excluded_witness :
  scan_file sample_cfg failing_world (lit "blank.md") initial =
  (Val tt, add_trace initial [Read (lit "blank.md"); Print (skip_line (lit "blank.md"))]).
Proof.
  apply (proj1 (empty_file_excluded sample_cfg failing_world)). reflexivity.
Defined.

Lemma glyphs_distinct : RED <> YELLOW /\ RED <> GREEN /\ YELLOW <> GREEN.
Proof. repeat split; discriminate. Qed.

Lemma status_of_cases cfg v :
  let score := get_default (v_truth_score v) 100 in
  let bias := get_default (v_bias_detected v) false in
  (status_of cfg v = RED <-> bias = true \/ score < threshold cfg) /\
  (status_of cfg v = YELLOW <-> bias = false /\ threshold cfg <= score /\ score < 90) /\
  (status_of cfg v = GREEN <-> bias = false /\ threshold cfg <= score /\ 90 <= score).
Proof.
  cbv zeta. unfold status_of, verdict_flagged.
  destruct glyphs_distinct as (RY & RG & YG).
  destruct (get_default (v_bias_detected v) false);
    destruct (Z.ltb_spec (get_default (v_truth_score v) 100) (threshold cfg));
    destruct (Z.ltb_spec (get_default (v_truth_score v) 100) 90);
    simpl; repeat split; intros; try tauto; try lia; try congruence;
    try (exfalso; intuition (congruence || lia)).
Qed.

(** The tier of the progress line does depend on [bias_detected]: with a
    score of 95 and a threshold of 70 the line carries the red glyph,
    where the classification by score alone gives the green one. *)
Lemma tier_by_score_counterexample :
  let tr := trace (snd (scan_file sample_cfg biased_world (lit "d.md") initial)) in
  tier_by_score 70 95 = GREEN /\
  In (Print (progress_line RED (lit "d.md") 95 0)) tr /\
  ~ In (Print (progress_line (tier_by_score 70 95) (lit "d.md") 95 0)) tr.
Proof.
  vm_compute. split; [reflexivity|]. split.
  - right. right. right. left. reflexivity.
  - intros [H|[H|[H|[H|[]]]]]; discriminate H.
Qed.

(** C7, amended (tier of the progress notice).  For a file that is read
    and analysed, the last thing the loop body prints is the progress
    line, and its glyph is red when [bias_detected] is true or the score
    is below the threshold, yellow when neither holds and the score is
    below 90, green when neither holds and the score is 90 or more. *)
Theorem progress_tier (cfg : config) (w : world) (f : pystr) (v : verdict) (st0 : state) :
  scans_to cfg w f v ->
  let score := get_default (v_truth_score v) 100 in
  let bias := get_default (v_bias_detected v) false in
  let flag_count := List.length (get_default (v_flags v) []) in
  (exists pre,
     trace (snd (scan_file cfg w f st0)) =
     pre ++ [Print (progress_line (status_of cfg v) f score flag_count)]) /\
  (status_of cfg v = RED <-> bias = true \/ score < threshold cfg) /\
  (status_of cfg v = YELLOW <-> bias = false /\ threshold cfg <= score /\ score < 90) /\
  (status_of cfg v = GREEN <-> bias = false /\ threshold cfg <= score /\ 90 <= score).
Proof.
  intros H score bias flag_count. split; [|apply status_of_cases].
  rewrite scan_file_run. unfold file_effect.
  destruct (classify_scans H) as [text ->].
  exists (trace st0 ++ [Read f; Analyze text (domain cfg)] ++
          (if verdict_flagged cfg v then [Print (warning_line f v)] else [])).
  cbn [snd trace combine]. now rewrite <- !List.app_assoc.
Qed.

Lemma progress_tier_witness :
  status_of sample_cfg (mkVerdict (Some 95) None (Some true)) = RED <->
  true = true \/ 95 < 70.
Proof.
  refine (proj1 (proj2 (progress_tier sample_cfg biased_world (lit "d.md")
                          (mkVerdict (Some 95) None (Some true)) initial _))).
  exists (lit "delta"). repeat split; reflexivity.
Defined.

Lemma length_filter_le {A : Type} (p q : A -> bool) (l : list A) :
  (forall x, p x = true -> q x = true) ->
  (List.length (filter p l) <= List.length (filter q l))%nat.
Proof.
  intro H. induction l as [|x l IH]; simpl; [lia|].
  destruct (p x) eqn:P.
  - rewrite (H x P). simpl. lia.
  - destruct (q x); simpl; lia.
Qed.

Lemma for_each_app cfg w pre post st0 :
  for_each (scan_file cfg w) (pre ++ post) st0 =
  for_each (scan_file cfg w) post (combine st0 (loop_state cfg w pre)).
Proof.
  now rewrite !for_each_scan, loop_state_app, combine_assoc.
Qed.

(** The invariant of the loop on [flagged]. *)
Lemma loop_invariant cfg w files :
  let st := loop_state cfg w files in
  Forall (fun r => is_scanned r = true) (flagged st) /\
  (forall r, In r (flagged st) -> In r (results st)) /\
  (List.length (flagged st) <= List.length (scanned_of (results st)))%nat /\
  (exists rows, summary_rows (flagged st) = Returns rows /\
                List.length rows = List.length (flagged st)).
Proof.
  intro st. subst st.
  split; [apply flagged_loop_scanned|].
  split; [|split].
  - intro r. rewrite flagged_loop, filter_In. tauto.
  - rewrite flagged_loop. apply length_filter_le. now intros [].
  - apply summary_rows_scanned, flagged_loop_scanned.
Qed.

(** C10 (invariant on [flagged]).  The loop over [pre ++ post] passes
    through the state reached after [pre]; in every such state, and at the
    end of the run, [flagged] holds only [Scanned] records, each of them is
    in [results], there are no more of them than there are scanned
    records, and the rows of the flagged table are all built: no record
    lacks its [truth_score].  The run itself never ends on an uncaught
    exception. *)
Theorem flagged_invariant (cfg : config) (w : world) :
  (forall pre post st0,
     for_each (scan_file cfg w) (pre ++ post) st0 =
     for_each (scan_file cfg w) post (combine st0 (loop_state cfg w pre)) /\
     let st := loop_state cfg w pre in
     Forall (fun r => is_scanned r = true) (flagged st) /\
     (forall r, In r (flagged st) -> In r (results st)) /\
     (List.length (flagged st) <= List.length (scanned_of (results st)))%nat /\
     (exists rows, summary_rows (flagged st) = Returns rows /\
                   List.length rows = List.length (flagged st))) /\
  (let st := snd (run cfg w) in
   Forall (fun r => is_scanned r = true) (flagged st) /\
   (forall r, In r (flagged st) -> In r (results st)) /\
   (List.length (flagged st) <= List.length (scanned_of (results st)))%nat /\
   (exists rows, summary_rows (flagged st) = Returns rows /\
                 List.length rows = List.length (flagged st)) /\
   (exists summary a,
      _build_summary (scanned_of (results st)) (flagged st) a
                     (threshold cfg) (domain cfg) = Returns summary) /\
   (forall msg, fst (run cfg w) <> Exc msg)).
Proof.
  split.
  - intros pre post st0. split; [apply for_each_app | apply loop_invariant].
  - cbv zeta. destruct (run_locals cfg w) as (Hr & Hf & _).
    rewrite Hr, Hf.
    destruct (loop_invariant cfg w (glob w (paths_pattern cfg))) as (H1 & H2 & H3 & H4).
    repeat (split; [assumption|]).
    split.
    + destruct (build_summary_returns
                  (scanned_of (results (loop_state cfg w (glob w (paths_pattern cfg)))))
                  (flagged (loop_state cfg w (glob w (paths_pattern cfg))))
                  (AvgInt 100) (threshold cfg) (domain cfg) H1) as [summary Hs].
      now exists summary, (AvgInt 100).
    + intro msg.
      destruct (glob w (paths_pattern cfg)) as [|f0 fs] eqn:E.
      * rewrite (main_no_files cfg w E). discriminate.
      * pose proof (main_with_files cfg w) as H. cbv zeta in H. rewrite E in H.
        destruct (H ltac:(discriminate)) as [summary [_ ->]]. simpl.
        now destruct (_ && _).
Qed.

Lemma flagged_invariant_witness :
  In (Scanned (lit "c.md") 80 true 1 [(lit "loaded", lit "high")])
     (results (snd (run sample_cfg sample_world))).
Proof.
  destruct (flagged_invariant sample_cfg sample_world) as (_ & _ & H & _).
  apply H. vm_compute. left. reflexivity.
Defined.

(** The table does need the invariant: a record without [truth_score]
    among the flagged ones makes [_build_summary] raise [KeyError]. *)
Example build_summary_key_error :
  _build_summary [] [Failed (lit "x.md") (lit "boom")] (AvgInt 100) 70 (lit "general") =
  Raises (lit "'truth_score'").
Proof. reflexivity. Qed.

Lemma nonempty_below cfg {fl} :
  Forall (fun r => is_scanned r = true) fl ->
  (nonempty (below_of (threshold cfg) fl) = true <->
   exists x s, In x fl /\ get_truth_score x = Some s /\ s < threshold cfg).
Proof.
  intro Hs. unfold below_of. split.
  - destruct (filter _ fl) as [|x l] eqn:E; [discriminate|]. intros _.
    assert (Hx : In x (filter (fun f => get_default (get_truth_score f) 100
                                        <? threshold cfg) fl))
      by (rewrite E; now left).
    apply filter_In in Hx. destruct Hx as [Hin Hlt].
    rewrite Forall_forall in Hs. specialize (Hs x Hin).
    destruct x as [file s b n fls|]; [|discriminate].
    exists (Scanned file s b n fls), s. simpl in Hlt. apply Z.ltb_lt in Hlt.
    now repeat split.
  - intros (x & s & Hin & Hg & Hlt).
    assert (Hx : In x (filter (fun f => get_default (get_truth_score f) 100
                                        <? threshold cfg) fl)).
    { apply filter_In. split; [exact Hin|]. rewrite Hg. simpl. now apply Z.ltb_lt. }
    now destruct (filter _ fl).
Qed.

(** C2 (exit status).  The run ends with status 1 exactly when
    [fail_on_bias] is set and some flagged record has a score below the
    threshold; it does so through [sys.exit(1)], and otherwise the status
    is 0.  In particular, when every scanned record has a score at or
    above the threshold the status is 0, whatever [bias_detected] says. *)
Theorem exit_status_rule (cfg : config) (w : world) :
  let r := fst (run cfg w) in
  let st := snd (run cfg w) in
  (exit_status r = 1 <->
   fail_on_bias cfg = true /\
   exists x s, In x (flagged st) /\ get_truth_score x = Some s /\ s < threshold cfg) /\
  (exit_status r = 1 -> r = SysExit 1) /\
  (exit_status r <> 1 -> r = Val tt /\ exit_status r = 0) /\
  ((forall x s, In x (results st) -> get_truth_score x = Some s -> threshold cfg <= s) ->
   exit_status r = 0).
Proof.
  cbv zeta.
  assert (Hinc : forall x, In x (flagged (snd (run cfg w))) ->
                           In x (results (snd (run cfg w)))).
  { destruct (run_locals cfg w) as (Hr & Hf & _). rewrite Hr, Hf.
    apply (loop_invariant cfg w). }
  revert Hinc.
  destruct (glob w (paths_pattern cfg)) as [|f0 fs] eqn:E.
  - rewrite (main_no_files cfg w E). simpl. intros _.
    repeat split; try discriminate; try tauto.
    intros (_ & x & s & [] & _).
  - pose proof (main_with_files cfg w) as H. cbv zeta in H. rewrite E in H.
    destruct (H ltac:(discriminate)) as [summary [_ ->]]. clear H.
    cbn [fst snd flagged results].
    pose proof (nonempty_below cfg (flagged_loop_scanned cfg w (f0 :: fs))) as Hb.
    intro Hinc.
    destruct (fail_on_bias cfg); simpl andb.
    + destruct (nonempty (below_of (threshold cfg) (flagged (loop_state cfg w (f0 :: fs)))));
        cbn [exit_status].
      * split; [|split; [|split]].
        -- split; [intros _; split; [reflexivity | now apply Hb] | reflexivity].
        -- reflexivity.
        -- intro C. now contradiction C.
        -- intro Hall. destruct (proj1 Hb eq_refl) as (x & s & Hin & Hg & Hlt).
           specialize (Hall x s (Hinc x Hin) Hg). lia.
      * split; [|split; [|split]].
        -- split; [discriminate|]. intros (_ & Hex). apply Hb in Hex. discriminate.
        -- discriminate.
        -- now split.
        -- reflexivity.
    + cbn [exit_status]. split; [|split; [|split]].
      * split; [discriminate|]. intros (Hf & _). discriminate.
      * discriminate.
      * now split.
      * reflexivity.
Qed.

Lemma exit_status_rule_witness :
  fst (run sample_cfg failing_world) = SysExit 1.
Proof.
  apply (proj1 (proj2 (exit_status_rule sample_cfg failing_world))).
  vm_compute. reflexivity.
Defined.

(** C6 (no match).  When the pattern matches no file the run is the
    notice followed by the four outputs [total_files=0],
    [flagged_files=0], [avg_score=100] and [report=[]], written to the
    output file or, without one, printed; it returns normally, so the exit
    status is 0.  Nothing is read, nothing is analysed and no summary is
    written. *)
Theorem no_match_short_circuit (cfg : config) (w : world) :
  glob w (paths_pattern cfg) = [] ->
  let out := get_default (GITHUB_OUTPUT w) [] in
  run cfg w =
  (Val tt,
   mkState [] [] 0
     (Print (notice_line cfg) ::
      if str_truthy out then
        [Append out (lit "total_files=0" ++ [NEWLINE]);
         Append out (lit "flagged_files=0" ++ [NEWLINE]);
         Append out (lit "avg_score=100" ++ [NEWLINE]);
         Append out (lit "report=[]" ++ [NEWLINE])]
      else
        [Print (lit "  [output] total_files=0");
         Print (lit "  [output] flagged_files=0");
         Print (lit "  [output] avg_score=100");
         Print (lit "  [output] report=[]")])) /\
  exit_status (fst (run cfg w)) = 0 /\
  reads_of (trace (snd (run cfg w))) = [] /\
  analyzed_of (trace (snd (run cfg w))) = [].
Proof.
  intros E out. rewrite (main_no_files cfg w E).
  unfold outputs_events. rewrite !output_events_cases. fold out.
  destruct (str_truthy out); simpl; repeat split; reflexivity.
Qed.

Lemma no_match_short_circuit_witness :
  exit_status (fst (run sample_cfg empty_world)) = 0 /\
  exit_status (fst (run sample_cfg local_world)) = 0.
Proof.
  split.
  - apply (no_match_short_circuit sample_cfg empty_world). reflexivity.
  - apply (no_match_short_circuit sample_cfg local_world). reflexivity.
Defined.

(** The failing sample: what reaches the output file, and in what order
    relative to the summary. *)
Example failing_run_outputs :
  appended_to (lit "/tmp/out") (trace (snd (run sample_cfg failing_world))) =
  lit "total_files=2" ++ [NEWLINE] ++ lit "flagged_files=1" ++ [NEWLINE] ++
  lit "avg_score=75.0" ++ [NEWLINE] ++
  lit "report=" ++ dump_report (results (snd (run sample_cfg failing_world))) ++ [NEWLINE].
Proof. vm_compute. reflexivity. Qed.

(* ===================================================================== *)
(** ** The average *)
(* ===================================================================== *)

(** [round1] returns a nearest tenth, the even one on a tie. *)
Lemma round1_tenths (q : Q) :
  let a := Z.abs (Qnum q) in
  let d := Zpos (Qden q) in
  let t := Z.of_N (d_tenths (round1 q)) in
  Z.abs (2 * d * t - 20 * a) <= d /\
  (Z.abs (2 * d * t - 20 * a) = d -> Z.even t = true).
Proof.
  cbv zeta. unfold round1. cbn [d_tenths].
  set (a := Z.abs (Qnum q)). set (d := Zpos (Qden q)).
  assert (Ha : 0 <= a) by apply Z.abs_nonneg.
  assert (Hd : 0 < d) by reflexivity.
  pose proof (Z.div_mod (10 * a) d ltac:(lia)) as Hdm.
  pose proof (Z.mod_pos_bound (10 * a) d Hd) as Hr.
  assert (Ht : 0 <= 10 * a / d) by (apply Z.div_pos; lia).
  set (t := 10 * a / d) in *. set (r := (10 * a) mod d) in *.
  destruct (Z.ltb_spec (2 * r) d).
  - rewrite Z2N.id by lia. split; [|intro]; lia.
  - destruct (Z.ltb_spec d (2 * r)).
    + rewrite Z2N.id by lia. split; [|intro]; lia.
    + destruct (Z.even t) eqn:Ev.
      * rewrite Z2N.id by lia. split; [lia|]. now intros _.
      * rewrite Z2N.id by lia. split; [lia|]. intros _.
        rewrite Z.even_add, Ev. reflexivity.
Qed.

Lemma round1_nearest (q : Q) : (Qabs (dec1_Q (round1 q) - q) <= 1 # 20)%Q.
Proof.
  pose proof (round1_tenths q) as [H _]. cbv zeta in H.
  unfold dec1_Q. 
  assert (Hs : d_neg (round1 q) = (Qnum q <? 0)) by reflexivity. rewrite Hs.
  destruct q as [n d]. cbn [Qnum Qden] in *.
  set (t := Z.of_N (d_tenths (round1 (n # d)))) in *.
  unfold Qle, Qabs, Qminus, Qplus, Qopp. cbn [Qnum Qden].
  destruct (Z.ltb_spec n 0); rewrite ?Pos2Z.inj_mul; lia.
Qed.

(** *** The double nearest to a quotient *)










Lemma scanned_of_is_scanned rs : scanned_of rs = filter is_scanned rs.
Proof.
  unfold scanned_of. apply List.filter_ext. now intros [].
Qed.




(* ===================================================================== *)
(** ** Further properties of the loop *)
(* ===================================================================== *)

Lemma analyze_calls_app a b : analyze_calls (a ++ b) = analyze_calls a ++ analyze_calls b.
Proof. apply List.flat_map_app. Qed.

Lemma analyze_calls_effect cfg w f :
  analyze_calls (trace (file_effect cfg w f)) =
  List.map (fun t => (t, domain cfg)) (texts_to_analyze w [f]).
Proof.
  unfold file_effect, classify_file, texts_to_analyze. simpl.
  destruct (read_file w f) as [text|msg]; simpl; [|reflexivity].
  destruct (str_truthy (strip text)); simpl; [|reflexivity].
  destruct (scan_local w text (domain cfg)) as [v|msg]; simpl; [|reflexivity].
  now destruct (verdict_flagged cfg v).
Qed.

Lemma texts_to_analyze_cons w f files :
  texts_to_analyze w (f :: files) = texts_to_analyze w [f] ++ texts_to_analyze w files.
Proof. unfold texts_to_analyze. simpl. now rewrite List.app_nil_r. Qed.

Lemma analyze_calls_loop cfg w files :
  analyze_calls (trace (loop_state cfg w files)) =
  List.map (fun t => (t, domain cfg)) (texts_to_analyze w files).
Proof.
  induction files as [|f files IH]; [reflexivity|].
  rewrite loop_state_cons, texts_to_analyze_cons, List.map_app. simpl trace.
  now rewrite analyze_calls_app, IH, analyze_calls_effect.
Qed.

Lemma analyze_calls_output w name value : analyze_calls (output_events w name value) = [].
Proof.
  rewrite output_events_cases.
  destruct (str_truthy _); [destruct (contains_char _ _)|]; reflexivity.
Qed.

Lemma analyze_calls_summary w summary : analyze_calls (summary_events w summary) = [].
Proof. rewrite summary_events_cases. now destruct (str_truthy _). Qed.

(** X1 (one analyzer call per readable, non-blank file).  In every run
    the analyzer is called exactly on the texts of the matched files that
    could be read and are not blank, once each, in discovery order, and
    always with the configured domain: no file is analysed twice and no
    failed call is retried. *)
Theorem analyzer_called_once_per_file (cfg : config) (w : world) :
  analyze_calls (trace (snd (run cfg w))) =
  List.map (fun t => (t, domain cfg))
           (texts_to_analyze w (glob w (paths_pattern cfg))).
Proof.
  destruct (glob w (paths_pattern cfg)) as [|f0 fs] eqn:E.
  - rewrite (main_no_files cfg w E). cbn [snd trace]. unfold outputs_events.
    change (Print ?a :: ?l) with ([Print a] ++ l).
    now rewrite !analyze_calls_app, !analyze_calls_output.
  - pose proof (main_with_files cfg w) as H. cbv zeta in H. rewrite E in H.
    destruct (H ltac:(discriminate)) as [summary [_ ->]]. cbn [snd trace].
    unfold outputs_events.
    rewrite !analyze_calls_app, !analyze_calls_output, analyze_calls_summary,
      analyze_calls_loop.
    simpl. now rewrite List.app_nil_r.
Qed.

(** The sample run: the analyzer sees the three texts, also the one it
    fails on, each once. *)
Example analyzer_calls_sample :
  analyze_calls (trace (snd (run sample_cfg sample_world))) =
  [(lit "alpha", lit "general"); (lit "beta", lit "general"); (lit "gamma", lit "general")].
Proof. vm_compute. reflexivity. Qed.

(** *** Annotations *)

Lemma firstn_map_firstn {A B : Type} (g : A -> B) (l : list A) :
  firstn 3 (List.map g (firstn 5 l)) = List.map g (firstn 3 l).
Proof.
  rewrite List.firstn_map, List.firstn_firstn. reflexivity.
Qed.

Lemma warning_line_of_record f v :
  warning_line f v = annotation_line (scanned_entry f v).
Proof.
  unfold warning_line, annotation_line, scanned_entry.
  cbn [get_file get_truth_score get_flags get_flag_count get_default].
  rewrite firstn_map_firstn, List.map_map. reflexivity.
Qed.

Lemma annotations_of_app a b :
  annotations_of (a ++ b) = annotations_of a ++ annotations_of b.
Proof.
  unfold annotations_of, printed_of. now rewrite List.flat_map_app, List.filter_app.
Qed.

Lemma annotations_of_effect cfg w f :
  annotations_of (trace (file_effect cfg w f)) =
  List.map annotation_line (flagged (file_effect cfg w f)).
Proof.
  unfold file_effect. destruct (classify_file cfg w f); try reflexivity.
  cbn [trace flagged]. destruct (verdict_flagged cfg v); [|reflexivity].
  rewrite warning_line_of_record. reflexivity.
Qed.

Lemma annotations_of_loop cfg w files :
  annotations_of (trace (loop_state cfg w files)) =
  List.map annotation_line (flagged (loop_state cfg w files)).
Proof.
  induction files as [|f files IH]; [reflexivity|].
  rewrite loop_state_cons. cbn [combine trace flagged].
  now rewrite annotations_of_app, List.map_app, IH, annotations_of_effect.
Qed.

Lemma annotations_of_output w name value :
  annotations_of (output_events w name value) = [] \/
  exists line, output_events w name value = [Print line] /\ is_annotation line = false.
Proof.
  rewrite output_events_cases.
  destruct (str_truthy _); [destruct (contains_char _ _)|]; [now left | now left|].
  right. eexists. split; reflexivity.
Qed.

Lemma annotations_of_output_nil w name value :
  annotations_of (output_events w name value) = [].
Proof.
  destruct (annotations_of_output w name value) as [H | (line & -> & H)]; [exact H|].
  unfold annotations_of. simpl. now rewrite H.
Qed.

Lemma annotations_of_summary w summary : annotations_of (summary_events w summary) = [].
Proof. rewrite summary_events_cases. now destruct (str_truthy _). Qed.

Lemma annotations_of_announce cfg files :
  annotations_of (announce_events cfg files) = [].
Proof. reflexivity. Qed.

Lemma annotations_of_tally sc fl a : annotations_of (tally_events sc fl a) = [].
Proof. reflexivity. Qed.

Lemma annotations_of_last cfg below (b : bool) :
  annotations_of [Print (if b then below_line cfg below else passed_line)] = [].
Proof. now destruct b. Qed.

(** X2 (annotations).  The [::warning file=...] lines a run prints are
    exactly the annotations of the flagged records, one per record and in
    the same order; each carries the file, the score, the full number of
    flags and the names of the first three flags.  No other line of the
    run starts like an annotation, so the host sees as many annotations as
    [flagged_files] says. *)
Theorem annotations_match_flagged (cfg : config) (w : world) :
  let st := snd (run cfg w) in
  annotations_of (trace st) = List.map annotation_line (flagged st) /\
  List.length (annotations_of (trace st)) = List.length (flagged st).
Proof.
  cbv zeta.
  assert (H : annotations_of (trace (snd (run cfg w))) =
              List.map annotation_line (flagged (snd (run cfg w)))).
  { destruct (glob w (paths_pattern cfg)) as [|f0 fs] eqn:E.
    - rewrite (main_no_files cfg w E). cbn [snd trace flagged]. unfold outputs_events.
      change (Print ?a :: ?l) with ([Print a] ++ l).
      now rewrite !annotations_of_app, !annotations_of_output_nil.
    - pose proof (main_with_files cfg w) as H. cbv zeta in H. rewrite E in H.
      destruct (H ltac:(discriminate)) as [summary [_ ->]]. cbn [snd trace flagged].
      unfold outputs_events.
      rewrite !annotations_of_app, !annotations_of_output_nil, annotations_of_summary,
        annotations_of_loop.
      rewrite annotations_of_announce, annotations_of_tally, annotations_of_last.
      simpl. now rewrite List.app_nil_r. }
  split; [exact H|]. now rewrite H, List.length_map.
Qed.

(** *** Records *)


Example seven_flags_five_kept :
  let f := mkFlag (Some (lit "x")) None in
  scanned_entry (lit "a.md") (mkVerdict None (Some [f; f; f; f; f; f; f]) None) =
  Scanned (lit "a.md") 100 false 7
          [(lit "x", []); (lit "x", []); (lit "x", []); (lit "x", []); (lit "x", [])].
Proof. reflexivity. Qed.

(** *** Runs in which nothing is scanned *)

Lemma effect_unscanned cfg w f :
  is_blank w f = true \/ (exists msg, raises_on cfg w f msg) ->
  Forall (fun r => is_scanned r = false) (results (file_effect cfg w f)).
Proof.
  intros [B | [msg H]].
  - rewrite (blank_effect cfg B). constructor.
  - rewrite (effect_raises H). now repeat constructor.
Qed.

Lemma loop_unscanned cfg w files :
  (forall f, In f files ->
     is_blank w f = true \/ exists msg, raises_on cfg w f msg) ->
  Forall (fun r => is_scanned r = false) (results (loop_state cfg w files)).
Proof.
  induction files as [|f files IH]; intro H; [constructor|].
  rewrite loop_state_cons. cbn [combine results]. apply Forall_app. split.
  - apply effect_unscanned, H. now left.
  - apply IH. intros g Hg. apply H. now right.
Qed.

Lemma unscanned_nothing cfg rs :
  Forall (fun r => is_scanned r = false) rs ->
  scanned_of rs = [] /\ filter (entry_flagged cfg) rs = [].
Proof.
  induction 1 as [|r rs Hr _ [IH1 IH2]]; [now split|].
  destruct r; [discriminate|]. simpl. now split.
Qed.



(** *** The summary table and its keys *)

Lemma summary_rows_raises fl :
  forallb is_scanned fl = false -> summary_rows fl = Raises (lit "'truth_score'").
Proof.
  induction fl as [|r fl IH]; [discriminate|].
  simpl. destruct r as [file s b n fls | file e]; simpl.
  - intro H. unfold summary_row. simpl. now rewrite (IH H).
  - intros _. reflexivity.
Qed.

(** X5 ([_build_summary] and the missing key).  [_build_summary]
    returns a summary when every record of its [flagged] argument has a
    [truth_score], and raises [KeyError('truth_score')] as soon as one
    record has none, whatever the other arguments are: the table cannot
    be built from a record of a failed file. *)
Theorem build_summary_needs_scores
    (scanned fl : list file_result) (a : avg) (thr : Z) (dom : pystr) :
  if forallb is_scanned fl
  then exists summary, _build_summary scanned fl a thr dom = Returns summary
  else _build_summary scanned fl a thr dom = Raises (lit "'truth_score'").
Proof.
  destruct (forallb is_scanned fl) eqn:H.
  - apply build_summary_returns. apply Forall_forall. intros r Hr.
    rewrite forallb_forall in H. now apply H.
  - unfold _build_summary. destruct fl as [|r fl]; [discriminate|].
    now rewrite (summary_rows_raises _ H).
Qed.

(** *** Accounting for the matched files *)

Lemma filter_partition_length {A : Type} (p : A -> bool) (l : list A) :
  List.length l =
  (List.length (filter p l) + List.length (filter (fun x => negb (p x)) l))%nat.
Proof.
  induction l as [|x l IH]; [reflexivity|].
  simpl. destruct (p x); simpl; lia.
Qed.

(** X6 (every matched file is accounted for once).  In every run the
    number of matched files is the number of scanned records
    ([total_files]) plus the number of failed records plus the number of
    blank files: each file is scanned, failed or skipped, and never
    more than one of these. *)
Theorem files_accounted_for (cfg : config) (w : world) :
  let files := glob w (paths_pattern cfg) in
  let st := snd (run cfg w) in
  List.length files =
  (List.length (scanned_of (results st)) +
   List.length (filter (fun r => negb (is_scanned r)) (results st)) +
   List.length (filter (is_blank w) files))%nat.
Proof.
  intros files st.
  destruct (run_locals cfg w) as (Hr & _). fold files st in Hr.
  rewrite scanned_of_is_scanned, <- filter_partition_length.
  rewrite <- (List.length_map get_file), Hr, files_of_loop.
  rewrite (filter_partition_length (is_blank w) files). lia.
Qed.

Example files_accounted_for_sample :
  let st := snd (run sample_cfg failing_world) in
  (List.length (scanned_of (results st)) = 2 /\
   List.length (filter (is_blank failing_world) [lit "blank.md"; lit "low.md"; lit "a.md"]) = 1)%nat.
Proof. vm_compute. split; reflexivity. Qed.

(** *** The warn tier and high thresholds *)

(** X7 (no warn tier from a threshold of 90 on).  With a threshold of 90
    or more, the progress line of a scanned file is never yellow: it is
    red when [bias_detected] holds or the score is below the threshold,
    and green otherwise. *)
Theorem no_warn_tier_above_90 (cfg : config) (w : world) (f : pystr) (v : verdict)
    (st0 : state) :
  90 <= threshold cfg ->
  scans_to cfg w f v ->
  let score := get_default (v_truth_score v) 100 in
  let bias := get_default (v_bias_detected v) false in
  exists pre status,
    trace (snd (scan_file cfg w f st0)) =
    pre ++ [Print (progress_line status f score
                     (List.length (get_default (v_flags v) [])))] /\
    status <> YELLOW /\
    (status = RED <-> bias = true \/ score < threshold cfg) /\
    (status = GREEN <-> bias = false /\ threshold cfg <= score).
Proof.
  intros Hthr H score bias.
  rewrite scan_file_run. unfold file_effect.
  destruct (classify_scans H) as [text ->].
  exists (trace st0 ++ [Read f; Analyze text (domain cfg)] ++
          (if verdict_flagged cfg v then [Print (warning_line f v)] else [])),
         (status_of cfg v).
  split; [cbn [snd trace combine]; now rewrite <- !List.app_assoc|].
  destruct (status_of_cases cfg v) as (HR & HY & HG).
  fold score bias in HR, HY, HG.
  split; [|split].
  - intro C. apply HY in C. lia.
  - exact HR.
  - rewrite HG. split; [tauto|]. intros [Hb Hs]. repeat split; [exact Hb | exact Hs | lia].
Qed.

Lemma no_warn_tier_above_90_witness :
  exists pre status,
    trace (snd (scan_file (mkConfig (lit "*.md") 95 (lit "general") true)
                  sample_world (lit "a.md") initial)) =
    pre ++ [Print (progress_line status (lit "a.md") 100 0)] /\
    status <> YELLOW /\
    (status = RED <-> false = true \/ 100 < 95) /\
    (status = GREEN <-> false = false /\ 95 <= 100).
Proof.
  apply (no_warn_tier_above_90 (mkConfig (lit "*.md") 95 (lit "general") true)
           sample_world (lit "a.md")
           (mkVerdict (Some 100) (Some []) (Some false)) initial).
  - simpl. lia.
  - exists (lit "alpha"). repeat split; reflexivity.
Defined.

(* ===================================================================== *)
(** ** The outputs are single lines *)
(* ===================================================================== *)

Lemma printable_app a b : printable (a ++ b) = printable a && printable b.
Proof. apply List.forallb_app. Qed.

Lemma printable_uint u : printable (uint_chars u) = true.
Proof. induction u; simpl; auto. Qed.

Lemma printable_str_of_N n : printable (str_of_N n) = true.
Proof. apply printable_uint. Qed.

Lemma printable_str_of_nat n : printable (str_of_nat n) = true.
Proof. apply printable_uint. Qed.

Lemma printable_str_of_Z z : printable (str_of_Z z) = true.
Proof.
  unfold str_of_Z. destruct (z <? 0); simpl; apply printable_uint.
Qed.

Lemma printable_str_of_avg a : printable (str_of_avg a) = true.
Proof.
  destruct a as [z | d]; simpl; [apply printable_str_of_Z|].
  unfold str_of_dec1.
  rewrite !printable_app, !printable_str_of_N.
  now destruct (d_neg d).
Qed.

Lemma hex_digit_printable d :
  (d < 16)%N -> ((32 <=? hex_digit d) && (hex_digit d <=? 126))%N = true.
Proof.
  intro H. unfold hex_digit.
  destruct (N.ltb_spec d 10); apply andb_true_iff; split; apply N.leb_le; lia.
Qed.

Lemma printable_hex4 n : (n < 65536)%N -> printable (hex4 n) = true.
Proof.
  intro H. unfold hex4, printable. cbn [forallb].
  rewrite !hex_digit_printable; [reflexivity | | | |].
  - apply N.mod_lt. discriminate.
  - apply N.mod_lt. discriminate.
  - apply N.mod_lt. discriminate.
  - apply N.Div0.div_lt_upper_bound. lia.
Qed.

Lemma printable_u_escape n : (n < 65536)%N -> printable (u_escape n) = true.
Proof. intro H. unfold u_escape. simpl. now apply printable_hex4. Qed.

Lemma printable_escape_char c : printable (escape_char c) = true.
Proof.
  unfold escape_char.
  repeat match goal with
         | |- context [N.eqb c ?k] => destruct (N.eqb c k); [reflexivity|]
         end.
  destruct ((32 <=? c) && (c <=? 126))%N eqn:P; [simpl; now rewrite P|].
  destruct (N.ltb_spec c 65536); [now apply printable_u_escape|].
  rewrite printable_app, !printable_u_escape; [reflexivity | |].
  - pose proof (N.mod_lt (c - 65536) 1024 ltac:(discriminate)). lia.
  - pose proof (N.mod_lt ((c - 65536) / 1024) 1024 ltac:(discriminate)). lia.
Qed.

Lemma printable_escaped s : printable (flat_map escape_char s) = true.
Proof.
  induction s as [|c s IH]; [reflexivity|].
  simpl. now rewrite printable_app, printable_escape_char.
Qed.

Lemma printable_encode_string s : printable (encode_string s) = true.
Proof.
  unfold encode_string. simpl. now rewrite printable_app, printable_escaped.
Qed.

Lemma printable_join sep parts :
  printable sep = true ->
  Forall (fun p => printable p = true) parts ->
  printable (join sep parts) = true.
Proof.
  intros Hsep. induction 1 as [|p parts Hp _ IH]; [reflexivity|].
  destruct parts as [|q parts]; [exact Hp|].
  change (join sep (p :: q :: parts)) with (p ++ sep ++ join sep (q :: parts)).
  now rewrite !printable_app, Hp, Hsep, IH.
Qed.

(** Whatever the strings in it, a serialised value is printable ASCII. *)
Lemma printable_json_dumps : forall v, printable (json_dumps v) = true.
Proof.
  fix IH 1. intros [ | b | z | s | l | d]; simpl.
  - reflexivity.
  - now destruct b.
  - apply printable_str_of_Z.
  - apply printable_encode_string.
  - rewrite printable_app. rewrite andb_true_r.
    apply printable_join; [reflexivity|].
    induction l as [|x l IHl]; constructor; [apply IH | exact IHl].
  - rewrite printable_app. rewrite andb_true_r.
    apply printable_join; [reflexivity|].
    induction d as [|[k x] d IHd]; constructor; [|exact IHd].
    change (printable (encode_string k ++ lit ": " ++ json_dumps x) = true).
    now rewrite !printable_app, printable_encode_string, IH.
Qed.

Lemma printable_no_newline s : printable s = true -> contains_char NEWLINE s = false.
Proof.
  induction s as [|c s IH]; [reflexivity|].
  unfold printable, contains_char in *. cbn [forallb existsb].
  intro H. apply andb_true_iff in H. destruct H as [Hc Hs].
  rewrite (IH Hs), orb_false_r.
  apply andb_true_iff in Hc. destruct Hc as [Hc _]. apply N.leb_le in Hc.
  apply N.eqb_neq. unfold NEWLINE. lia.
Qed.

Lemma output_events_printable w name value :
  str_truthy (get_default (GITHUB_OUTPUT w) []) = true ->
  printable value = true ->
  output_events w name value =
  [Append (get_default (GITHUB_OUTPUT w) []) (name ++ lit "=" ++ value ++ [NEWLINE])].
Proof.
  intros Hout Hp. rewrite output_events_cases, Hout.
  now rewrite (printable_no_newline _ Hp).
Qed.

(** *** What reaches the two files *)

Lemma pystr_eqb_eq a b : pystr_eqb a b = true <-> a = b.
Proof.
  unfold pystr_eqb. destruct (list_eq_dec N.eq_dec a b); split; congruence.
Qed.

Lemma pystr_eqb_refl a : pystr_eqb a a = true.
Proof. now apply pystr_eqb_eq. Qed.

Lemma appended_to_app file a b :
  appended_to file (a ++ b) = appended_to file a ++ appended_to file b.
Proof. apply List.flat_map_app. Qed.

Lemma appended_to_effect cfg w file f :
  appended_to file (trace (file_effect cfg w f)) = [].
Proof.
  unfold file_effect. destruct (classify_file cfg w f); try reflexivity.
  cbn [trace]. now destruct (verdict_flagged cfg v).
Qed.

Lemma appended_to_loop cfg w file files :
  appended_to file (trace (loop_state cfg w files)) = [].
Proof.
  induction files as [|f files IH]; [reflexivity|].
  rewrite loop_state_cons. cbn [combine trace].
  now rewrite appended_to_app, IH, appended_to_effect.
Qed.

Lemma appended_to_output_same w name value :
  str_truthy (get_default (GITHUB_OUTPUT w) []) = true ->
  printable value = true ->
  appended_to (get_default (GITHUB_OUTPUT w) []) (output_events w name value) =
  name ++ lit "=" ++ value ++ [NEWLINE].
Proof.
  intros Hout Hp. rewrite (output_events_printable w name value Hout Hp).
  unfold appended_to. cbn [flat_map]. rewrite pystr_eqb_refl.
  now rewrite List.app_nil_r.
Qed.

Lemma appended_to_output_other w file name value :
  pystr_eqb (get_default (GITHUB_OUTPUT w) []) file = false ->
  appended_to file (output_events w name value) = [].
Proof.
  intro Hne. rewrite output_events_cases.
  destruct (str_truthy _); [destruct (contains_char _ _)|];
    unfold appended_to; cbn [flat_map]; rewrite ?Hne; reflexivity.
Qed.

Lemma appended_to_summary_other w file summary :
  pystr_eqb (get_default (GITHUB_STEP_SUMMARY w) []) file = false ->
  appended_to file (summary_events w summary) = [].
Proof.
  intro Hne. rewrite summary_events_cases.
  destruct (str_truthy _); unfold appended_to; cbn [flat_map]; rewrite ?Hne; reflexivity.
Qed.

Lemma appended_to_summary_same w summary :
  str_truthy (get_default (GITHUB_STEP_SUMMARY w) []) = true ->
  appended_to (get_default (GITHUB_STEP_SUMMARY w) []) (summary_events w summary) =
  summary ++ [NEWLINE].
Proof.
  intro Hs. rewrite summary_events_cases, Hs.
  unfold appended_to. cbn [flat_map]. rewrite pystr_eqb_refl.
  now rewrite List.app_nil_r.
Qed.

Lemma appended_to_print file line : appended_to file [Print line] = [].
Proof. reflexivity. Qed.

Lemma appended_to_announce file cfg files :
  appended_to file (announce_events cfg files) = [].
Proof. reflexivity. Qed.

Lemma appended_to_tally file sc fl a : appended_to file (tally_events sc fl a) = [].
Proof. reflexivity. Qed.

Lemma printable_dump_report rs : printable (dump_report rs) = true.
Proof. apply printable_json_dumps. Qed.

(** X8 (the output file gains four lines).  When an output file is
    configured and the summary goes elsewhere, a run appends to it
    exactly [total_files=..], [flagged_files=..], [avg_score=..] and
    [report=..], each ended by one line break.  The four values are
    printable ASCII: the report stays on one line whatever line breaks and
    other characters the file names, flag names and error messages carry,
    so the delimiter form of [_set_output] is never used by [main]. *)
Theorem output_file_content (cfg : config) (w : world) :
  let out := get_default (GITHUB_OUTPUT w) [] in
  let st := snd (run cfg w) in
  let scanned := scanned_of (results st) in
  let a := avg_score_of (total_score st) scanned in
  str_truthy out = true ->
  pystr_eqb (get_default (GITHUB_STEP_SUMMARY w) []) out = false ->
  appended_to out (trace st) =
  (lit "total_files=" ++ str_of_nat (List.length scanned) ++ [NEWLINE]) ++
  (lit "flagged_files=" ++ str_of_nat (List.length (flagged st)) ++ [NEWLINE]) ++
  (lit "avg_score=" ++ str_of_avg a ++ [NEWLINE]) ++
  (lit "report=" ++ dump_report (results st) ++ [NEWLINE]) /\
  contains_char NEWLINE (str_of_nat (List.length scanned)) = false /\
  contains_char NEWLINE (str_of_nat (List.length (flagged st))) = false /\
  contains_char NEWLINE (str_of_avg a) = false /\
  contains_char NEWLINE (dump_report (results st)) = false.
Proof.
  intros out st scanned a Hout Hsum.
  split.
  2: { repeat split; apply printable_no_newline;
       [apply printable_str_of_nat | apply printable_str_of_nat
       | apply printable_str_of_avg | apply printable_dump_report]. }
  subst st scanned a.
  destruct (glob w (paths_pattern cfg)) as [|f0 fs] eqn:E.
  - rewrite (main_no_files cfg w E). cbn [snd trace results flagged total_score].
    unfold outputs_events.
    change (Print ?x :: ?l) with ([Print x] ++ l).
    rewrite !appended_to_app.
    fold out. rewrite !(appended_to_output_same w _ _ Hout) by reflexivity.
    reflexivity.
  - pose proof (main_with_files cfg w) as H. cbv zeta in H. rewrite E in H.
    destruct (H ltac:(discriminate)) as [summary [_ ->]]. clear H.
    cbn [snd trace results flagged total_score]. unfold outputs_events.
    rewrite !appended_to_app, appended_to_loop.
    rewrite (appended_to_summary_other w out summary Hsum).
    rewrite !(appended_to_output_same w _ _ Hout)
      by first [apply printable_str_of_nat | apply printable_str_of_avg
               | apply printable_dump_report].
    rewrite appended_to_announce, appended_to_tally, appended_to_print.
    cbn [app]. now rewrite List.app_nil_r.
Qed.

Lemma output_file_content_witness :
  contains_char NEWLINE (dump_report (results (snd (run sample_cfg sample_world)))) = false.
Proof.
  apply (output_file_content sample_cfg sample_world); reflexivity.
Defined.

(** A file name with a line break in it: the report escapes it. *)
Example report_escapes_line_breaks :
  dump_report [Failed (lit "a" ++ [NEWLINE] ++ lit "b.md") (lit "boom")] =
  lit "[{" ++ [QUOTE] ++ lit "file" ++ [QUOTE] ++ lit ": " ++ [QUOTE] ++ lit "a\nb.md" ++
  [QUOTE] ++ lit ", " ++ [QUOTE] ++ lit "error" ++ [QUOTE] ++ lit ": " ++ [QUOTE] ++
  lit "boom" ++ [QUOTE] ++ lit ", " ++ [QUOTE] ++ lit "skipped" ++ [QUOTE] ++
  lit ": true}]".
Proof. vm_compute. reflexivity. Qed.

(** X9 (the summary file gains the summary, once).  When a summary
    file is configured and the outputs go elsewhere, a run with matched
    files appends to it exactly the text [_build_summary] returns for the
    final lists, followed by one line break, whether the run passes or
    fails; a run without a match appends nothing to it. *)
Theorem summary_file_content (cfg : config) (w : world) :
  let sumf := get_default (GITHUB_STEP_SUMMARY w) [] in
  let st := snd (run cfg w) in
  let scanned := scanned_of (results st) in
  str_truthy sumf = true ->
  pystr_eqb (get_default (GITHUB_OUTPUT w) []) sumf = false ->
  (glob w (paths_pattern cfg) = [] -> appended_to sumf (trace st) = []) /\
  (glob w (paths_pattern cfg) <> [] ->
   exists summary,
     _build_summary scanned (flagged st) (avg_score_of (total_score st) scanned)
                    (threshold cfg) (domain cfg) = Returns summary /\
     appended_to sumf (trace st) = summary ++ [NEWLINE]).
Proof.
  intros sumf st scanned Hs Hout. subst sumf st scanned. split.
  - intro E. rewrite (main_no_files cfg w E). cbn [snd trace]. unfold outputs_events.
    change (Print ?x :: ?l) with ([Print x] ++ l).
    rewrite !appended_to_app, appended_to_print.
    now rewrite !(appended_to_output_other w _ _ _ Hout).
  - intro Hne.
    destruct (main_with_files cfg w Hne) as [summary [Hsum ->]].
    cbn [snd trace results flagged total_score].
    exists summary. split; [exact Hsum|].
    unfold outputs_events.
    rewrite !appended_to_app, appended_to_loop, appended_to_announce,
      appended_to_tally, appended_to_print.
    rewrite !(appended_to_output_other w _ _ _ Hout).
    rewrite (appended_to_summary_same w summary Hs).
    simpl. now rewrite List.app_nil_r.
Qed.

Lemma summary_file_content_witness :
  exists summary,
    _build_summary (scanned_of (results (snd (run sample_cfg failing_world))))
      (flagged (snd (run sample_cfg failing_world)))
      (avg_score_of (total_score (snd (run sample_cfg failing_world)))
         (scanned_of (results (snd (run sample_cfg failing_world)))))
      (threshold sample_cfg) (domain sample_cfg) = Returns summary /\
    appended_to (lit "/tmp/summary") (trace (snd (run sample_cfg failing_world))) =
    summary ++ [NEWLINE].
Proof.
  apply (summary_file_content sample_cfg failing_world); try reflexivity.
  discriminate.
Defined.

(* ===================================================================== *)
(** ** Reading back what [json.dumps] wrote *)
(* ===================================================================== *)

(** *** Hexadecimal escapes *)

Lemma hex_val_hex_digit d : (d < 16)%N -> hex_val (hex_digit d) = Some d.
Proof.
  intro H.
  assert (C : (d = 0 \/ d = 1 \/ d = 2 \/ d = 3 \/ d = 4 \/ d = 5 \/ d = 6 \/ d = 7 \/
               d = 8 \/ d = 9 \/ d = 10 \/ d = 11 \/ d = 12 \/ d = 13 \/ d = 14 \/
               d = 15)%N) by lia.
  repeat (destruct C as [-> | C]; [reflexivity|]). now subst.
Qed.

Lemma hex4_value n :
  (n < 65536)%N ->
  ((((n / 4096) * 16 + (n / 256) mod 16) * 16 + (n / 16) mod 16) * 16 + n mod 16 = n)%N.
Proof.
  intro H.
  pose proof (N.div_mod n 16 ltac:(discriminate)).
  pose proof (N.div_mod (n / 16) 16 ltac:(discriminate)).
  pose proof (N.div_mod (n / 16 / 16) 16 ltac:(discriminate)).
  rewrite !N.Div0.div_div in *.
  change (16 * 16)%N with 256%N in *. change (256 * 16)%N with 4096%N in *.
  assert ((n / 4096) mod 16 = n / 4096)%N.
  { apply N.mod_small. apply N.Div0.div_lt_upper_bound. lia. }
  lia.
Qed.

Lemma parse_hex4_hex4 n rest :
  (n < 65536)%N -> parse_hex4 (hex4 n ++ rest) = Some (n, rest).
Proof.
  intro H. unfold hex4, parse_hex4. cbn [List.app].
  rewrite !hex_val_hex_digit.
  - now rewrite hex4_value.
  - apply N.mod_lt; discriminate.
  - apply N.mod_lt; discriminate.
  - apply N.mod_lt; discriminate.
  - apply N.Div0.div_lt_upper_bound. lia.
Qed.

(** *** Strings *)

Lemma scan_string_end f r : scan_string (S f) (34%N :: r) = Some ([], r).
Proof. reflexivity. Qed.

Lemma scan_string_plain f c r :
  c <> 34%N -> c <> 92%N -> (32 <= c)%N ->
  scan_string (S f) (c :: r) =
  match scan_string f r with
  | Some (str, rest) => Some (c :: str, rest)
  | None => None
  end.
Proof.
  intros H1 H2 H3. cbn [scan_string].
  apply N.eqb_neq in H1, H2. rewrite H1, H2.
  destruct (N.ltb_spec c 32); [lia | reflexivity].
Qed.

Lemma scan_string_short f e c r :
  unescape e = Some c -> e <> 117%N ->
  scan_string (S f) (92%N :: e :: r) =
  match scan_string f r with
  | Some (str, rest) => Some (c :: str, rest)
  | None => None
  end.
Proof.
  intros H1 H2. cbn [scan_string]. apply N.eqb_neq in H2.
  change (92 =? 34)%N with false. change (92 =? 92)%N with true. cbv iota.
  now rewrite H2, H1.
Qed.

Lemma scan_string_unicode f cp r r2 :
  scan_unicode r = Some (cp, r2) ->
  scan_string (S f) (92%N :: 117%N :: r) =
  match scan_string f r2 with
  | Some (str, rest) => Some (cp :: str, rest)
  | None => None
  end.
Proof.
  intros H. cbn [scan_string].
  change (92 =? 34)%N with false. change (92 =? 92)%N with true.
  change (117 =? 117)%N with true. cbv iota.
  now rewrite H.
Qed.

Lemma scan_unicode_single n rest :
  (n < 65536)%N ->
  (is_high_surrogate n = true -> no_low_escape rest) ->
  scan_unicode (hex4 n ++ rest) = Some (n, rest).
Proof.
  intros Hn Hrest. unfold scan_unicode. rewrite (parse_hex4_hex4 n rest Hn).
  destruct (is_high_surrogate n) eqn:Hh; [|reflexivity].
  specialize (Hrest eq_refl).
  destruct rest as [|b [|u r']]; try reflexivity.
  destruct (N.eqb_spec b 92); [|reflexivity].
  destruct (N.eqb_spec u 117); [|reflexivity].
  subst b u. cbn [andb].
  destruct (Hrest r' eq_refl) as (m & r'' & -> & ->). reflexivity.
Qed.

Lemma scan_unicode_pair c rest :
  (65536 <= c)%N -> (c < 1114112)%N ->
  scan_unicode (hex4 (55296 + ((c - 65536) / 1024) mod 1024) ++
                92%N :: 117%N :: hex4 (56320 + (c - 65536) mod 1024) ++ rest) =
  Some (c, rest).
Proof.
  intros H1 H2. unfold scan_unicode.
  assert (Hq : (((c - 65536) / 1024) mod 1024 = (c - 65536) / 1024)%N).
  { apply N.mod_small. apply N.Div0.div_lt_upper_bound. lia. }
  pose proof (N.div_mod (c - 65536) 1024 ltac:(discriminate)) as Hdm.
  pose proof (N.mod_lt (c - 65536) 1024 ltac:(discriminate)) as Hb.
  assert (Ha : ((c - 65536) / 1024 < 1024)%N)
    by (apply N.Div0.div_lt_upper_bound; lia).
  rewrite Hq.
  set (q := ((c - 65536) / 1024)%N) in *. set (r := ((c - 65536) mod 1024)%N) in *.
  rewrite parse_hex4_hex4 by lia.
  assert (Hh : is_high_surrogate (55296 + q) = true).
  { unfold is_high_surrogate. apply andb_true_iff. split; apply N.leb_le; lia. }
  rewrite Hh.
  change (92 =? 92)%N with true. change (117 =? 117)%N with true. cbn [andb].
  rewrite parse_hex4_hex4 by lia.
  assert (Hl : is_low_surrogate (56320 + r) = true).
  { unfold is_low_surrogate. apply andb_true_iff. split; apply N.leb_le; lia. }
  rewrite Hl. f_equal. f_equal. lia.
Qed.

Lemma escape_char_cases c :
  (exists e, escape_char c = [92%N; e] /\ unescape e = Some c /\ e <> 117%N) \/
  (escape_char c = [c] /\ c <> 34%N /\ c <> 92%N /\ (32 <= c)%N) \/
  (escape_char c = u_escape c /\ (c < 65536)%N) \/
  (escape_char c =
     u_escape (55296 + ((c - 65536) / 1024) mod 1024) ++
     u_escape (56320 + (c - 65536) mod 1024) /\ (65536 <= c)%N).
Proof.
  unfold escape_char.
  destruct (N.eqb_spec c 34) as [->|N34]; [left; now exists 34%N|].
  destruct (N.eqb_spec c 92) as [->|N92]; [left; now exists 92%N|].
  destruct (N.eqb_spec c 8) as [->|N8]; [left; now exists 98%N|].
  destruct (N.eqb_spec c 12) as [->|N12]; [left; now exists 102%N|].
  destruct (N.eqb_spec c 10) as [->|N10]; [left; now exists 110%N|].
  destruct (N.eqb_spec c 13) as [->|N13]; [left; now exists 114%N|].
  destruct (N.eqb_spec c 9) as [->|N9]; [left; now exists 116%N|].
  destruct ((32 <=? c) && (c <=? 126))%N eqn:P.
  - right. left. apply andb_true_iff in P. destruct P as [P _].
    apply N.leb_le in P. now repeat split.
  - destruct (N.ltb_spec c 65536); right; right; [left | right]; now split.
Qed.

Lemma escape_char_length c : (1 <= List.length (escape_char c))%nat.
Proof.
  destruct (escape_char_cases c) as [(e & -> & _) | [(-> & _) | [(-> & _) | (-> & _)]]];
    simpl; lia.
Qed.

Lemma escaped_no_low s tail :
  match s with
  | c :: _ => is_low_surrogate c = false
  | [] => True
  end ->
  no_low_escape (flat_map escape_char s ++ 34%N :: tail).
Proof.
  intros H r' E. destruct s as [|c s]; [discriminate E|].
  cbn [flat_map] in E. rewrite <- List.app_assoc in E.
  destruct (escape_char_cases c)
    as [(e & He & _ & Hne) | [(He & _ & N92 & _) | [(He & Hc) | (He & Hc)]]];
    rewrite He in E.
  - injection E as E1 _. congruence.
  - injection E as E1 _. congruence.
  - unfold u_escape in E. injection E as E. subst r'.
    exists c. eexists. split; [apply parse_hex4_hex4; exact Hc | exact H].
  - unfold u_escape in E. cbn [List.app] in E. injection E as E. subst r'.
    pose proof (N.mod_lt ((c - 65536) / 1024) 1024 ltac:(discriminate)) as Ha.
    set (q := (((c - 65536) / 1024) mod 1024)%N) in *.
    exists (55296 + q)%N. eexists. split; [apply parse_hex4_hex4; lia|].
    unfold is_low_surrogate. apply andb_false_iff. left. apply N.leb_gt. lia.
Qed.

Lemma valid_str_cons c s :
  valid_str (c :: s) = true ->
  (c < 1114112)%N /\
  (is_high_surrogate c = true ->
   match s with
   | c' :: _ => is_low_surrogate c' = false
   | [] => True
   end) /\
  valid_str s = true.
Proof.
  cbn [valid_str]. intro H.
  apply andb_true_iff in H. destruct H as [H Hs].
  apply andb_true_iff in H. destruct H as [Hc Hp].
  apply N.ltb_lt in Hc. repeat split; [exact Hc | | exact Hs].
  intro Hh. rewrite Hh in Hp. destruct s as [|c' s]; [exact I|].
  cbn [andb] in Hp. now destruct (is_low_surrogate c').
Qed.

(** Reading an escaped string gives the string back. *)
Lemma scan_string_escaped s :
  forall tail fuel,
    valid_str s = true ->
    (List.length (flat_map escape_char s) < fuel)%nat ->
    scan_string fuel (flat_map escape_char s ++ 34%N :: tail) = Some (s, tail).
Proof.
  induction s as [|c s IH]; intros tail fuel Hv Hf.
  - destruct fuel; [simpl in Hf; lia|]. apply scan_string_end.
  - apply valid_str_cons in Hv. destruct Hv as (Hc & Hnext & Hs).
    cbn [flat_map] in *. rewrite List.length_app in Hf.
    rewrite <- List.app_assoc.
    destruct fuel as [|fuel]; [lia|].
    pose proof (escape_char_length c) as Hlen.
    destruct (escape_char_cases c)
      as [(e & He & Hu & Hne) | [(He & N34 & N92 & H32) | [(He & Hlt) | (He & Hge)]]];
      rewrite He in *.
    + cbn [List.app]. rewrite (scan_string_short fuel e c _ Hu Hne).
      rewrite IH; [reflexivity | exact Hs | simpl in Hf; lia].
    + cbn [List.app]. rewrite (scan_string_plain fuel c _ N34 N92 H32).
      rewrite IH; [reflexivity | exact Hs | simpl in Hf; lia].
    + unfold u_escape. cbn [List.app].
      rewrite (scan_string_unicode fuel c _ (flat_map escape_char s ++ 34%N :: tail)).
      * rewrite IH; [reflexivity | exact Hs | simpl in Hf; lia].
      * apply scan_unicode_single; [exact Hlt|].
        intro Hh. apply escaped_no_low. now apply Hnext.
    + unfold u_escape. cbn [List.app]. rewrite <- List.app_assoc. cbn [List.app].
      rewrite (scan_string_unicode fuel c _ (flat_map escape_char s ++ 34%N :: tail)).
      * rewrite IH; [reflexivity | exact Hs | simpl in Hf; lia].
      * apply scan_unicode_pair; [exact Hge | exact Hc].
Qed.

Lemma scan_encoded_string s tail fuel :
  valid_str s = true ->
  (List.length (encode_string s) <= S fuel)%nat ->
  scan_string fuel (flat_map escape_char s ++ 34%N :: tail) = Some (s, tail).
Proof.
  intros Hv Hf. apply scan_string_escaped; [exact Hv|].
  unfold encode_string in Hf. cbn [List.length] in Hf.
  rewrite List.length_app in Hf. simpl in Hf. lia.
Qed.

(** *** Integers *)

Lemma digit_of_none c :
  ((48 <=? c) && (c <=? 57))%N = false -> digit_of c = None.
Proof.
  intro H. unfold digit_of.
  repeat match goal with
         | |- context [N.eqb c ?k] =>
             destruct (N.eqb_spec c k) as [->|]; [discriminate H|]
         end.
  reflexivity.
Qed.

Lemma ends_number_digit rest :
  ends_number rest = true -> scan_digits rest = (Nil, rest).
Proof.
  destruct rest as [|c r]; [reflexivity|]. cbn [ends_number scan_digits].
  intro H. apply negb_true_iff in H.
  apply orb_false_iff in H. destruct H as [H _].
  apply orb_false_iff in H. destruct H as [H _].
  apply orb_false_iff in H. destruct H as [H _].
  now rewrite (digit_of_none c H).
Qed.

Lemma ends_number_fraction rest :
  ends_number rest = true -> starts_fraction rest = false.
Proof.
  destruct rest as [|c r]; [reflexivity|]. cbn [ends_number starts_fraction].
  intro H. apply negb_true_iff in H.
  apply orb_false_iff in H. destruct H as [H He].
  apply orb_false_iff in H. destruct H as [H He'].
  apply orb_false_iff in H. destruct H as [_ Hp].
  now rewrite Hp, He', He.
Qed.

Lemma scan_digits_uint u rest :
  ends_number rest = true -> scan_digits (uint_chars u ++ rest) = (u, rest).
Proof.
  intro H. induction u; cbn [uint_chars List.app];
    [now apply ends_number_digit | ..];
    cbn [scan_digits]; unfold digit_char; cbn [N.add Pos.add Pos.succ];
    match goal with
    | |- context [digit_of ?k] =>
        let d := eval vm_compute in (digit_of k) in
        change (digit_of k) with d
    end; cbv iota; now rewrite IHu.
Qed.

Lemma to_uint_nonnil n : N.to_uint n <> Nil.
Proof.
  destruct n; [discriminate|]. apply DecimalPos.Unsigned.to_uint_nonnil.
Qed.

Lemma to_uint_normal n : unorm (N.to_uint n) = N.to_uint n.
Proof.
  rewrite <- (DecimalN.Unsigned.of_to n) at 2.
  now rewrite DecimalN.Unsigned.to_of.
Qed.

(** The first character of a number in decimal is a digit. *)
Lemma uint_chars_head u :
  u <> Nil ->
  exists c r, uint_chars u = c :: r /\ (48 <= c)%N /\ (c <= 57)%N.
Proof.
  destruct u; [congruence | ..]; intros _; cbn [uint_chars]; unfold digit_char;
    eexists; eexists; (split; [reflexivity|]); split; lia.
Qed.

Lemma scan_int_unsigned n rest :
  ends_number rest = true ->
  scan_int (str_of_N n ++ rest) = Some (Z.of_N n, rest).
Proof.
  intro H. unfold scan_int, str_of_N.
  destruct (uint_chars_head (N.to_uint n) (to_uint_nonnil n)) as (c & r & E & H1 & H2).
  rewrite E. cbn [List.app].
  destruct (N.eqb_spec c 45); [lia|].
  change (c :: r ++ rest) with ((c :: r) ++ rest).
  rewrite <- E. rewrite (scan_digits_uint _ _ H).
  destruct (uint_beq (N.to_uint n) Nil) eqn:B.
  { apply internal_uint_dec_bl in B. now apply to_uint_nonnil in B. }
  rewrite to_uint_normal, (internal_uint_dec_lb _ _ eq_refl). cbn [negb].
  rewrite (ends_number_fraction _ H).
  now rewrite DecimalN.Unsigned.of_to.
Qed.

Lemma scan_int_str_of_Z z rest :
  ends_number rest = true ->
  scan_int (str_of_Z z ++ rest) = Some (z, rest).
Proof.
  intro H. unfold str_of_Z. destruct (Z.ltb_spec z 0).
  - unfold scan_int, str_of_N. cbn [List.app].
    change (MINUS =? 45)%N with true. cbv iota.
    rewrite (scan_digits_uint _ _ H).
    destruct (uint_beq (N.to_uint (Z.abs_N z)) Nil) eqn:B.
    { apply internal_uint_dec_bl in B. now apply to_uint_nonnil in B. }
    rewrite to_uint_normal, (internal_uint_dec_lb _ _ eq_refl). cbn [negb].
    rewrite (ends_number_fraction _ H), DecimalN.Unsigned.of_to.
    do 2 f_equal. rewrite N2Z.inj_abs_N. lia.
  - rewrite (scan_int_unsigned _ _ H). do 2 f_equal.
    rewrite N2Z.inj_abs_N. lia.
Qed.

Lemma str_of_Z_head z :
  exists c r, str_of_Z z = c :: r /\ (c = 45%N \/ (48 <= c /\ c <= 57)%N).
Proof.
  unfold str_of_Z. destruct (z <? 0).
  - eexists; eexists. split; [reflexivity | now left].
  - destruct (uint_chars_head _ (to_uint_nonnil (Z.abs_N z))) as (c & r & E & H).
    exists c, r. split; [exact E | now right].
Qed.

(** *** Values *)

Lemma value_head_not_ws c : value_head c -> is_json_ws c = false /\ c <> 93%N.
Proof.
  unfold value_head, is_json_ws.
  intros [-> | [-> | [-> | [-> | [-> | [-> | [-> | [H1 H2]]]]]]]];
    try (split; [reflexivity | discriminate]).
  split; [|lia].
  repeat (apply orb_false_iff; split); apply N.eqb_neq; lia.
Qed.

Lemma json_dumps_head v : exists c r, json_dumps v = c :: r /\ value_head c.
Proof.
  unfold value_head. destruct v as [ | b | z | s | l | d]; cbn [json_dumps].
  - eexists; eexists; split; [reflexivity|]. tauto.
  - destruct b; eexists; eexists; (split; [reflexivity|]); tauto.
  - destruct (str_of_Z_head z) as (c & r & E & H). exists c, r. split; [exact E|]. tauto.
  - eexists; eexists; split; [reflexivity|]. tauto.
  - eexists; eexists; split; [reflexivity|]. tauto.
  - eexists; eexists; split; [reflexivity|]. tauto.
Qed.

Lemma skip_ws_stop c r : is_json_ws c = false -> skip_ws (c :: r) = c :: r.
Proof. intro H. cbn [skip_ws]. now rewrite H. Qed.

Lemma skip_ws_value v rest : skip_ws (json_dumps v ++ rest) = json_dumps v ++ rest.
Proof.
  destruct (json_dumps_head v) as (c & r & -> & H).
  apply skip_ws_stop. now apply value_head_not_ws.
Qed.

Lemma join_cons2 sep (p q : pystr) l :
  join sep (p :: q :: l) = p ++ sep ++ join sep (q :: l).
Proof. reflexivity. Qed.

Lemma join_length_in sep p parts :
  In p parts -> (List.length p <= List.length (join sep parts))%nat.
Proof.
  induction parts as [|q parts IH]; [intros []|].
  intros [-> | H].
  - destruct parts; [simpl; lia|]. rewrite join_cons2, List.length_app. lia.
  - destruct parts as [|q' parts]; [destruct H|].
    rewrite join_cons2, !List.length_app. specialize (IH H).
    unfold pystr in *. lia.
Qed.

Lemma join_length_parts sep parts :
  Forall (fun p => (1 <= List.length p)%nat) parts ->
  (List.length parts <= List.length (join sep parts))%nat.
Proof.
  induction 1 as [|p parts Hp _ IH]; [simpl; lia|].
  destruct parts as [|q parts]; [simpl; lia|].
  rewrite join_cons2, !List.length_app. simpl List.length in *. lia.
Qed.

Lemma json_dumps_nonempty v : (1 <= List.length (json_dumps v))%nat.
Proof. destruct (json_dumps_head v) as (c & r & -> & _). simpl. lia. Qed.

(** Items of a list *)
Lemma scan_items_join pv l :
  l <> [] ->
  (forall x, In x l -> forall rest', ends_number rest' = true ->
             pv (json_dumps x ++ rest') = Some (x, rest')) ->
  forall n rest,
    (List.length l <= n)%nat ->
    scan_items pv n (join (lit ", ") (List.map json_dumps l) ++ 93%N :: rest) =
    Some (l, rest).
Proof.
  induction l as [|x l IH]; [congruence|]. intros _ Hpv n rest Hn.
  destruct n as [|n]; [simpl in Hn; lia|].
  destruct l as [|y l].
  - cbn [List.map join scan_items].
    rewrite (Hpv x (or_introl eq_refl) (93%N :: rest) eq_refl).
    reflexivity.
  - cbn [List.map]. rewrite join_cons2, <- !List.app_assoc.
    cbn [scan_items].
    rewrite (Hpv x (or_introl eq_refl)) by reflexivity.
    change (lit ", " ++ ?t) with (44%N :: 32%N :: t).
    change (skip_ws (44%N :: ?t)) with (44%N :: t).
    change (44 =? 44)%N with true. cbv iota.
    change (skip_ws (32%N :: ?t)) with (skip_ws t).
    change (json_dumps y :: List.map json_dumps l) with (List.map json_dumps (y :: l)).
    assert (Hs : forall R, skip_ws (join (lit ", ") (List.map json_dumps (y :: l)) ++ R) =
                           join (lit ", ") (List.map json_dumps (y :: l)) ++ R).
    { intro R. destruct l as [|z l]; cbn [List.map].
      - apply skip_ws_value.
      - rewrite join_cons2, <- List.app_assoc. apply skip_ws_value. }
    rewrite Hs.
    rewrite IH; [reflexivity | discriminate | | simpl in *; lia].
    intros x' Hx'. apply Hpv. now right.
Qed.

Lemma skip_ws_pairs d R :
  d <> [] ->
  skip_ws (join (lit ", ") (List.map dump_pair d) ++ R) =
  join (lit ", ") (List.map dump_pair d) ++ R.
Proof.
  destruct d as [|[k x] d]; [congruence|]. intros _.
  destruct d as [|kv d]; cbn [List.map]; [|rewrite join_cons2]; reflexivity.
Qed.

(** Pairs of a dictionary *)
Lemma scan_pairs_join pv d :
  d <> [] ->
  (forall k x, In (k, x) d ->
     valid_str k = true /\
     forall rest', ends_number rest' = true ->
                   pv (json_dumps x ++ rest') = Some (x, rest')) ->
  forall n rest,
    (List.length d <= n)%nat ->
    scan_pairs pv n (join (lit ", ") (List.map dump_pair d) ++ 125%N :: rest) =
    Some (d, rest).
Proof.
  induction d as [|[k x] d IH]; [congruence|]. intros _ Hpv n rest Hn.
  destruct n as [|n]; [simpl in Hn; lia|].
  destruct (Hpv k x (or_introl eq_refl)) as [Hk Hx].
  assert (Hkey : forall R,
             scan_pairs pv (S n) (dump_pair (k, x) ++ R) =
             match skip_ws R with
             | c2 :: r3 =>
                 if (c2 =? 44)%N then
                   match scan_pairs pv n (skip_ws r3) with
                   | Some (kvs, rest) => Some ((k, x) :: kvs, rest)
                   | None => None
                   end
                 else if (c2 =? 125)%N then Some ([(k, x)], r3)
                 else None
             | [] => None
             end \/ ends_number R = false).
  { intro R. destruct (ends_number R) eqn:ER; [left | now right].
    unfold dump_pair, encode_string.
    change (lit ": " ++ ?t) with (58%N :: 32%N :: t).
    rewrite <- !List.app_assoc. cbn [List.app scan_pairs].
    change (QUOTE =? 34)%N with true. cbv iota.
    rewrite <- !List.app_assoc. cbn [List.app].
    rewrite scan_string_escaped;
      [ | exact Hk | rewrite List.length_app; simpl; lia].
    change (skip_ws (58%N :: ?t)) with (58%N :: t).
    change (58 =? 58)%N with true. cbv iota.
    change (skip_ws (32%N :: ?t)) with (skip_ws t).
    rewrite skip_ws_value, (Hx R ER). reflexivity. }
  destruct d as [|kv d].
  - cbn [List.map join].
    destruct (Hkey (125%N :: rest)) as [-> | C]; [|discriminate C].
    reflexivity.
  - cbn [List.map]. rewrite join_cons2, <- !List.app_assoc.
    change (lit ", " ++ ?t) with (44%N :: 32%N :: t).
    destruct (Hkey (44%N :: 32%N ::
                    join (lit ", ") (dump_pair kv :: List.map dump_pair d) ++
                    125%N :: rest)) as [-> | C]; [|discriminate C].
    change (skip_ws (44%N :: ?t)) with (44%N :: t).
    change (44 =? 44)%N with true. cbv iota.
    change (skip_ws (32%N :: ?t)) with (skip_ws t).
    change (dump_pair kv :: List.map dump_pair d) with (List.map dump_pair (kv :: d)).
    rewrite skip_ws_pairs by discriminate.
    rewrite IH; [reflexivity | discriminate | | simpl in *; lia].
    intros k' x' H'. apply Hpv. now right.
Qed.

Lemma scan_once_number f c r :
  (c = 45%N \/ (48 <= c /\ c <= 57)%N) ->
  scan_once (S f) (c :: r) =
  match scan_int (c :: r) with
  | Some (z, rest) => Some (PInt z, rest)
  | None => None
  end.
Proof.
  intro H. cbn [scan_once].
  repeat match goal with
         | |- context [N.eqb c ?k] => destruct (N.eqb_spec c k); [exfalso; lia|]
         end.
  reflexivity.
Qed.

Lemma valid_val_list l x : valid_val (PList l) = true -> In x l -> valid_val x = true.
Proof.
  cbn [valid_val]. intros H Hin. rewrite forallb_forall in H. now apply H.
Qed.

Lemma valid_val_dict d k x :
  valid_val (PDict d) = true -> In (k, x) d -> valid_str k = true /\ valid_val x = true.
Proof.
  cbn [valid_val]. intros H Hin. rewrite forallb_forall in H.
  specialize (H (k, x) Hin). now apply andb_true_iff in H.
Qed.

Lemma dump_pair_nonempty kv : (1 <= List.length (dump_pair kv))%nat.
Proof. destruct kv as [k x]. unfold dump_pair, encode_string. simpl. lia. Qed.

Lemma dump_pair_length k x :
  (List.length (json_dumps x) <= List.length (dump_pair (k, x)))%nat.
Proof.
  unfold dump_pair. rewrite !List.length_app. lia.
Qed.

(** One value, read back from what [json_dumps] wrote, whatever comes
    after it that cannot continue a number. *)
Lemma scan_once_dumps :
  forall fuel v rest,
    valid_val v = true ->
    (List.length (json_dumps v) <= fuel)%nat ->
    ends_number rest = true ->
    scan_once fuel (json_dumps v ++ rest) = Some (v, rest).
Proof.
  induction fuel as [|fuel IH]; intros v rest Hv Hlen Hrest.
  { pose proof (json_dumps_nonempty v). lia. }
  destruct v as [ | b | z | s | l | d].
  - reflexivity.
  - destruct b; reflexivity.
  - cbn [json_dumps]. destruct (str_of_Z_head z) as (c & r & E & Hc).
    pose proof (scan_int_str_of_Z z rest Hrest) as Hz.
    rewrite E in *. cbn [List.app] in *.
    now rewrite (scan_once_number fuel c _ Hc), Hz.
  - cbn [json_dumps valid_val] in *. unfold encode_string in *.
    cbn [List.app scan_once].
    change (QUOTE =? 34)%N with true. cbv iota.
    rewrite <- List.app_assoc. cbn [List.app].
    rewrite scan_string_escaped;
      [reflexivity | exact Hv | rewrite List.length_app; simpl; lia].
  - destruct l as [|x l]; [reflexivity|].
    cbn [json_dumps] in *.
    change (lit "[" ++ ?t) with (91%N :: t) in *.
    cbn [List.app scan_once].
    change (91 =? 34)%N with false. change (91 =? 123)%N with false.
    change (91 =? 91)%N with true. cbv iota.
    rewrite <- !List.app_assoc.
    change (lit "]" ++ rest) with (93%N :: rest).
    assert (Hs : skip_ws (join (lit ", ") (List.map json_dumps (x :: l)) ++ 93%N :: rest) =
                 join (lit ", ") (List.map json_dumps (x :: l)) ++ 93%N :: rest).
    { cbn [List.map]. destruct l as [|y l]; cbn [List.map].
      - apply skip_ws_value.
      - rewrite join_cons2, <- List.app_assoc. apply skip_ws_value. }
    rewrite Hs.
    assert (Hhd : exists c1 r1,
               join (lit ", ") (List.map json_dumps (x :: l)) ++ 93%N :: rest = c1 :: r1 /\
               c1 <> 93%N).
    { cbn [List.map]. destruct (json_dumps_head x) as (c & r & E & Hc).
      apply value_head_not_ws in Hc. destruct Hc as [_ Hc].
      destruct l as [|y l]; cbn [List.map join];
        [|rewrite <- !List.app_assoc]; rewrite E; cbn [List.app];
        eexists; eexists; (split; [reflexivity | exact Hc]). }
    destruct Hhd as (c1 & r1 & E1 & Hc1).
    rewrite E1. apply N.eqb_neq in Hc1. rewrite Hc1. rewrite <- E1.
    rewrite scan_items_join; [reflexivity | discriminate | | ].
    + intros y Hy rest' Hr'. apply IH; [now apply (valid_val_list _ _ Hv) | | exact Hr'].
      pose proof (join_length_in (lit ", ") (json_dumps y) (List.map json_dumps (x :: l))
                    (List.in_map json_dumps _ _ Hy)) as Hle.
      cbn [List.length] in Hlen. rewrite List.length_app in Hlen.
      unfold pystr in *. lia.
    + rewrite List.length_app.
      pose proof (join_length_parts (lit ", ") (List.map json_dumps (x :: l))) as Hp.
      rewrite List.length_map in Hp.
      assert (Forall (fun p : pystr => (1 <= List.length p)%nat)
                     (List.map json_dumps (x :: l))).
      { apply Forall_forall. intros p Hp'. apply List.in_map_iff in Hp'.
        destruct Hp' as (y & <- & _). apply json_dumps_nonempty. }
      specialize (Hp H). unfold pystr in *. lia.
  - destruct d as [|kv d]; [reflexivity|].
    cbn [json_dumps] in *.
    change (List.map (fun kv0 : pystr * pyval =>
                        match kv0 with
                        | (k, x) => encode_string k ++ lit ": " ++ json_dumps x
                        end) (kv :: d))
      with (List.map dump_pair (kv :: d)) in *.
    change (lit "{" ++ ?t) with (123%N :: t) in *.
    cbn [List.app scan_once].
    change (123 =? 34)%N with false. change (123 =? 123)%N with true. cbv iota.
    rewrite <- !List.app_assoc.
    change (lit "}" ++ rest) with (125%N :: rest).
    rewrite skip_ws_pairs by discriminate.
    assert (Hhd : exists r1,
               join (lit ", ") (List.map dump_pair (kv :: d)) ++ 125%N :: rest = 34%N :: r1).
    { destruct kv as [k x]. destruct d as [|kv' d]; cbn [List.map];
        [|rewrite join_cons2]; eexists; reflexivity. }
    destruct Hhd as (r1 & E1). rewrite E1.
    change (34 =? 125)%N with false. cbv iota. rewrite <- E1.
    rewrite scan_pairs_join; [reflexivity | discriminate | | ].
    + intros k x Hin. destruct (valid_val_dict _ _ _ Hv Hin) as [Hk Hx].
      split; [exact Hk|]. intros rest' Hr'. apply IH; [exact Hx | | exact Hr'].
      pose proof (join_length_in (lit ", ") (dump_pair (k, x)) (List.map dump_pair (kv :: d))
                    (List.in_map dump_pair _ _ Hin)) as Hle.
      pose proof (dump_pair_length k x) as Hle2.
      cbn [List.length] in Hlen. rewrite List.length_app in Hlen.
      unfold pystr in *. lia.
    + rewrite List.length_app.
      pose proof (join_length_parts (lit ", ") (List.map dump_pair (kv :: d))) as Hp.
      rewrite List.length_map in Hp.
      assert (Forall (fun p : pystr => (1 <= List.length p)%nat)
                     (List.map dump_pair (kv :: d))).
      { apply Forall_forall. intros p Hp'. apply List.in_map_iff in Hp'.
        destruct Hp' as (y & <- & _). apply dump_pair_nonempty. }
      specialize (Hp H). unfold pystr in *. lia.
Qed.

(** [json.loads(json.dumps(v)) == v] *)
Lemma json_loads_dumps v : valid_val v = true -> json_loads (json_dumps v) = Some v.
Proof.
  intro Hv. unfold json_loads.
  rewrite <- (List.app_nil_r (json_dumps v)) at 2.
  rewrite skip_ws_value, List.app_nil_r.
  rewrite <- (List.app_nil_r (json_dumps v)) at 2.
  rewrite (scan_once_dumps _ v [] Hv); [reflexivity | lia | reflexivity].
Qed.

(** *** The report *)

Lemma valid_flags_to_py flags :
  forallb valid_val
    (List.map (fun f : pystr * pystr =>
                 PDict [(lit "name", PStr (fst f)); (lit "severity", PStr (snd f))])
              flags) =
  forallb (fun f => valid_str (fst f) && valid_str (snd f)) flags.
Proof.
  induction flags as [|f flags IH]; [reflexivity|].
  cbn [List.map forallb valid_val]. rewrite IH.
  change (valid_str (lit "name")) with true.
  change (valid_str (lit "severity")) with true.
  cbn [andb]. now rewrite andb_true_r.
Qed.

Lemma valid_to_py r : valid_result r = true -> valid_val (to_py r) = true.
Proof.
  destruct r as [file s b n flags | file e]; cbn [valid_result to_py valid_val forallb].
  - change (valid_str (lit "file")) with true.
    change (valid_str (lit "truth_score")) with true.
    change (valid_str (lit "bias_detected")) with true.
    change (valid_str (lit "flag_count")) with true.
    change (valid_str (lit "flags")) with true.
    cbn [andb]. rewrite valid_flags_to_py, !andb_true_r. exact (fun H => H).
  - change (valid_str (lit "file")) with true.
    change (valid_str (lit "error")) with true.
    change (valid_str (lit "skipped")) with true.
    cbn [andb]. now rewrite !andb_true_r.
Qed.

Lemma valid_report rs :
  forallb valid_result rs = true -> valid_val (PList (List.map to_py rs)) = true.
Proof.
  cbn [valid_val]. induction rs as [|r rs IH]; [reflexivity|].
  cbn [forallb List.map]. intro H. apply andb_true_iff in H. destruct H as [Hr Hrs].
  now rewrite (valid_to_py r Hr), (IH Hrs).
Qed.

Lemma flags_to_py_inj (a b : list (pystr * pystr)) :
  List.map (fun f : pystr * pystr =>
              PDict [(lit "name", PStr (fst f)); (lit "severity", PStr (snd f))]) a =
  List.map (fun f : pystr * pystr =>
              PDict [(lit "name", PStr (fst f)); (lit "severity", PStr (snd f))]) b ->
  a = b.
Proof.
  revert b. induction a as [|[n1 s1] a IH]; intros [|[n2 s2] b] H;
    try reflexivity; try discriminate H.
  cbn [List.map fst snd] in H. injection H as Hn Hs Hrest.
  subst. f_equal. now apply IH.
Qed.

(** Different records are different dictionaries. *)
Lemma to_py_inj r r' : to_py r = to_py r' -> r = r'.
Proof.
  destruct r as [f1 s1 b1 n1 fl1 | f1 e1], r' as [f2 s2 b2 n2 fl2 | f2 e2];
    cbn [to_py]; intro H.
  - injection H as Hf Hs Hb Hn Hfl. subst.
    apply Nat2Z.inj in Hn. apply flags_to_py_inj in Hfl. now subst.
  - exfalso. injection H as _ Hk. vm_compute in Hk. discriminate Hk.
  - exfalso. injection H as _ Hk. vm_compute in Hk. discriminate Hk.
  - injection H as Hf He. now subst.
Qed.

Lemma map_to_py_inj rs rs' : List.map to_py rs = List.map to_py rs' -> rs = rs'.
Proof.
  revert rs'. induction rs as [|r rs IH]; intros [|r' rs'] H;
    try reflexivity; try discriminate H.
  cbn [List.map] in H. injection H as Hr Hrs.
  apply to_py_inj in Hr. subst. f_equal. now apply IH.
Qed.

(** X10 (the report reads back).  Parsing the report gives back the
    list of dictionaries that was serialised, in the same order and with
    the same keys and values, whenever no string in the records has a high
    surrogate directly followed by a low surrogate; and two lists of such
    records with the same report are the same list. *)
Theorem report_reads_back (rs : list file_result) :
  forallb valid_result rs = true ->
  json_loads (dump_report rs) = Some (PList (List.map to_py rs)) /\
  (forall rs', forallb valid_result rs' = true ->
               dump_report rs' = dump_report rs -> rs' = rs).
Proof.
  intro Hv.
  assert (H : json_loads (dump_report rs) = Some (PList (List.map to_py rs))).
  { apply json_loads_dumps, valid_report, Hv. }
  split; [exact H|].
  intros rs' Hv' E.
  assert (H' : json_loads (dump_report rs') = Some (PList (List.map to_py rs'))).
  { apply json_loads_dumps, valid_report, Hv'. }
  rewrite E, H in H'. injection H' as H'. symmetry. now apply map_to_py_inj.
Qed.

Lemma report_reads_back_witness :
  json_loads (dump_report (results (snd (run sample_cfg sample_world)))) =
  Some (PList (List.map to_py (results (snd (run sample_cfg sample_world))))).
Proof.
  apply (report_reads_back (results (snd (run sample_cfg sample_world)))).
  vm_compute. reflexivity.
Defined.

(** Without the condition the report does not read back: a high and a
    low surrogate written one after the other come back as one code
    point. *)
Example surrogate_pair_is_joined :
  json_loads (json_dumps (PStr [0xD83D; 0xDE00]%N)) = Some (PStr [0x1F600%N]).
Proof. vm_compute. reflexivity. Qed.

(* ===================================================================== *)
(** ** Changing the threshold or [fail_on_bias] *)
(* ===================================================================== *)

(** The exit status in one equation. *)
Lemma run_exit_status cfg w :
  exit_status (fst (run cfg w)) =
  if fail_on_bias cfg &&
     nonempty (below_of (threshold cfg)
                 (flagged (loop_state cfg w (glob w (paths_pattern cfg)))))
  then 1 else 0.
Proof.
  destruct (glob w (paths_pattern cfg)) as [|f0 fs] eqn:E.
  - rewrite (main_no_files cfg w E). cbn. now rewrite andb_false_r.
  - pose proof (main_with_files cfg w) as H. cbv zeta in H. rewrite E in H.
    destruct (H ltac:(discriminate)) as [summary [_ ->]].
    cbn [fst]. now destruct (_ && _).
Qed.

Lemma results_effect_threshold cfg w thr f :
  results (file_effect (with_threshold cfg thr) w f) = results (file_effect cfg w f).
Proof.
  unfold file_effect.
  change (classify_file (with_threshold cfg thr) w f) with (classify_file cfg w f).
  now destruct (classify_file cfg w f).
Qed.

Lemma results_loop_threshold cfg w thr files :
  results (loop_state (with_threshold cfg thr) w files) =
  results (loop_state cfg w files).
Proof.
  rewrite !results_loop. induction files as [|f files IH]; [reflexivity|].
  cbn [flat_map]. now rewrite IH, results_effect_threshold.
Qed.

Lemma entry_flagged_mono cfg thr r :
  threshold cfg <= thr ->
  entry_flagged cfg r = true -> entry_flagged (with_threshold cfg thr) r = true.
Proof.
  intro Hle. destruct r as [file s b n fl | file e]; [|discriminate].
  cbn [entry_flagged with_threshold threshold].
  rewrite !orb_true_iff, !Z.ltb_lt. intros [H | H]; [now left | right; lia].
Qed.

(** X11 (a stricter threshold).  Raising the threshold leaves the
    records in [results] as they are, never takes a record out of
    [flagged], and never turns a failing run into a passing one. *)
Theorem stricter_threshold (cfg : config) (w : world) (thr : Z) :
  threshold cfg <= thr ->
  let st := snd (run cfg w) in
  let st' := snd (run (with_threshold cfg thr) w) in
  results st' = results st /\
  (forall r, In r (flagged st) -> In r (flagged st')) /\
  (exit_status (fst (run cfg w)) = 1 ->
   exit_status (fst (run (with_threshold cfg thr) w)) = 1).
Proof.
  intros Hle st st'.
  destruct (run_locals cfg w) as (Hr & Hf & _).
  destruct (run_locals (with_threshold cfg thr) w) as (Hr' & Hf' & _).
  fold st in Hr, Hf. fold st' in Hr', Hf'.
  change (glob w (paths_pattern (with_threshold cfg thr)))
    with (glob w (paths_pattern cfg)) in *.
  set (files := glob w (paths_pattern cfg)) in *.
  assert (Hres : results st' = results st)
    by (now rewrite Hr, Hr', results_loop_threshold).
  assert (Hfl : forall r, In r (flagged (loop_state cfg w files)) ->
                          In r (flagged (loop_state (with_threshold cfg thr) w files))).
  { intro r. rewrite !flagged_loop, !filter_In, results_loop_threshold.
    intros [Hin He]. split; [exact Hin | now apply entry_flagged_mono]. }
  split; [exact Hres|]. split; [now rewrite Hf, Hf'|].
  rewrite !run_exit_status.
  change (glob w (paths_pattern (with_threshold cfg thr))) with files.
  fold files.
  change (fail_on_bias (with_threshold cfg thr)) with (fail_on_bias cfg).
  change (threshold (with_threshold cfg thr)) with thr.
  destruct (fail_on_bias cfg); cbn [andb]; [|discriminate].
  destruct (nonempty (below_of (threshold cfg) (flagged (loop_state cfg w files))))
    eqn:B; [|discriminate].
  intros _.
  apply (nonempty_below cfg (flagged_loop_scanned cfg w files)) in B.
  destruct B as (x & s & Hin & Hg & Hlt).
  assert (B' : nonempty (below_of (threshold (with_threshold cfg thr))
                           (flagged (loop_state (with_threshold cfg thr) w files))) = true).
  { apply (nonempty_below (with_threshold cfg thr)
             (flagged_loop_scanned (with_threshold cfg thr) w files)).
    exists x, s. split; [now apply Hfl|]. split; [exact Hg|].
    cbn [with_threshold threshold]. lia. }
  cbn [with_threshold threshold] in B'. now rewrite B'.
Qed.

Lemma stricter_threshold_witness :
  exit_status (fst (run (with_threshold sample_cfg 90) failing_world)) = 1.
Proof.
  apply (stricter_threshold sample_cfg failing_world 90).
  - simpl. lia.
  - vm_compute. reflexivity.
Defined.

(** The other direction fails: the sample run passes at 70 and fails at
    90, where the file scored 80 falls below the threshold. *)
Example threshold_90_fails_sample :
  exit_status (fst (run sample_cfg sample_world)) = 0 /\
  exit_status (fst (run (with_threshold sample_cfg 90) sample_world)) = 1.
Proof. vm_compute. split; reflexivity. Qed.

Lemma effect_fail_on_bias cfg w b f :
  file_effect (with_fail_on_bias cfg b) w f = file_effect cfg w f.
Proof. reflexivity. Qed.

Lemma loop_state_fail_on_bias cfg w b files :
  loop_state (with_fail_on_bias cfg b) w files = loop_state cfg w files.
Proof.
  induction files as [|f files IH]; [reflexivity|].
  now rewrite !loop_state_cons, IH, effect_fail_on_bias.
Qed.

Lemma appended_to_run_files cfg w file summary :
  let files := glob w (paths_pattern cfg) in
  let L := loop_state cfg w files in
  let scanned := scanned_of (results L) in
  let a := avg_score_of (total_score L) scanned in
  files <> [] ->
  _build_summary scanned (flagged L) a (threshold cfg) (domain cfg) = Returns summary ->
  appended_to file (trace (snd (run cfg w))) =
  appended_to file
    (outputs_events w (str_of_nat (List.length scanned))
                      (str_of_nat (List.length (flagged L)))
                      (str_of_avg a) (dump_report (results L)) ++
     summary_events w summary).
Proof.
  intros files L scanned a Hne Hs. subst a scanned L files.
  destruct (main_with_files cfg w Hne) as [summary' [Hs' ->]].
  rewrite Hs in Hs'. injection Hs' as <-.
  cbn [snd trace].
  rewrite !appended_to_app, appended_to_loop, appended_to_announce,
    appended_to_tally, appended_to_print.
  simpl. now rewrite List.app_nil_r.
Qed.

(** X12 ([fail_on_bias] only decides the exit).  Whatever
    [fail_on_bias] is set to, a run ends with the same [results],
    [flagged] and [total_score], and appends the same text to every file:
    the outputs and the summary do not depend on it.  With [fail_on_bias]
    off the exit status is 0. *)
Theorem fail_on_bias_only_exit (cfg : config) (w : world) (b : bool) :
  let st := snd (run cfg w) in
  let st' := snd (run (with_fail_on_bias cfg b) w) in
  results st' = results st /\
  flagged st' = flagged st /\
  total_score st' = total_score st /\
  (forall file, appended_to file (trace st') = appended_to file (trace st)) /\
  exit_status (fst (run (with_fail_on_bias cfg false) w)) = 0.
Proof.
  intros st st'.
  destruct (run_locals cfg w) as (Hr & Hf & Ht).
  destruct (run_locals (with_fail_on_bias cfg b) w) as (Hr' & Hf' & Ht').
  fold st in Hr, Hf, Ht. fold st' in Hr', Hf', Ht'.
  change (glob w (paths_pattern (with_fail_on_bias cfg b)))
    with (glob w (paths_pattern cfg)) in *.
  rewrite loop_state_fail_on_bias in Hr', Hf', Ht'.
  split; [congruence|]. split; [congruence|]. split; [congruence|].
  split.
  - intro file. subst st st'.
    destruct (glob w (paths_pattern cfg)) as [|f0 fs] eqn:E.
    + now rewrite (main_no_files cfg w E), (main_no_files (with_fail_on_bias cfg b) w E).
    + assert (Hne : glob w (paths_pattern cfg) <> []) by (rewrite E; discriminate).
      destruct (main_with_files cfg w Hne) as [summary [Hs _]].
      rewrite (appended_to_run_files cfg w file summary Hne Hs).
      rewrite (appended_to_run_files (with_fail_on_bias cfg b) w file summary).
      * change (glob w (paths_pattern (with_fail_on_bias cfg b)))
          with (glob w (paths_pattern cfg)).
        now rewrite loop_state_fail_on_bias.
      * exact Hne.
      * change (glob w (paths_pattern (with_fail_on_bias cfg b)))
          with (glob w (paths_pattern cfg)).
        rewrite loop_state_fail_on_bias. exact Hs.
  - now rewrite run_exit_status.
Qed.

(** The failing sample with [fail_on_bias] off: status 0, same outputs. *)
Example failing_sample_without_fail_on_bias :
  exit_status (fst (run (with_fail_on_bias sample_cfg false) failing_world)) = 0 /\
  appended_to (lit "/tmp/out")
    (trace (snd (run (with_fail_on_bias sample_cfg false) failing_world))) =
  appended_to (lit "/tmp/out") (trace (snd (run sample_cfg failing_world))).
Proof. vm_compute. split; reflexivity. Qed.

(* ===================================================================== *)
(** ** The local fallback *)
(* ===================================================================== *)

Lemma abbreviated_bounds v :
  (List.length (abbreviated v) <= 103)%nat /\
  ((List.length v <= 100)%nat -> abbreviated v = v) /\
  ((100 < List.length v)%nat -> abbreviated v = firstn 100 v ++ lit "...").
Proof.
  unfold abbreviated. destruct (Nat.ltb_spec 100 (List.length v)) as [H | H].
  - split; [|split]; [| lia | reflexivity].
    rewrite List.length_app, List.length_firstn.
    change (List.length (lit "...")) with 3%nat. unfold pystr in *. lia.
  - split; [|split]; [| | lia].
    + rewrite List.length_app, List.length_firstn.
      change (List.length (@nil N)) with 0%nat. unfold pystr in *. lia.
    + intros _. now rewrite List.app_nil_r, List.firstn_all2.
Qed.

Lemma no_append_app a b :
  existsb is_append (a ++ b) = existsb is_append a || existsb is_append b.
Proof. apply List.existsb_app. Qed.

Lemma no_append_effect cfg w f : existsb is_append (trace (file_effect cfg w f)) = false.
Proof.
  unfold file_effect. destruct (classify_file cfg w f); try reflexivity.
  cbn [trace]. now destruct (verdict_flagged cfg v).
Qed.

Lemma no_append_loop cfg w files :
  existsb is_append (trace (loop_state cfg w files)) = false.
Proof.
  induction files as [|f files IH]; [reflexivity|].
  rewrite loop_state_cons. cbn [combine trace].
  now rewrite no_append_app, IH, no_append_effect.
Qed.

Lemma output_events_local w name value :
  str_truthy (get_default (GITHUB_OUTPUT w) []) = false ->
  output_events w name value =
  [Print (lit "  [output] " ++ name ++ lit "=" ++ abbreviated value)].
Proof. intro H. now rewrite output_events_cases, H. Qed.

Lemma summary_events_local w summary :
  str_truthy (get_default (GITHUB_STEP_SUMMARY w) []) = false ->
  summary_events w summary = [Print ([NEWLINE] ++ summary)].
Proof. intro H. now rewrite summary_events_cases, H. Qed.



(* ===================================================================== *)
(** ** What the run writes, event by event *)
(* ===================================================================== *)

Lemma outputs_events_written w t f a r :
  printable t = true -> printable f = true -> printable a = true ->
  printable r = true ->
  outputs_events w t f a r = written_outputs w t f a r.
Proof.
  intros Ht Hf Ha Hr. unfold outputs_events, written_outputs.
  rewrite !output_events_cases.
  rewrite (printable_no_newline _ Ht), (printable_no_newline _ Hf),
    (printable_no_newline _ Ha), (printable_no_newline _ Hr).
  now destruct (str_truthy (get_default (GITHUB_OUTPUT w) [])).
Qed.

Lemma summary_events_written w summary :
  summary_events w summary = written_summary w summary.
Proof. apply summary_events_cases. Qed.

(** The run in full, for a non-empty list of matches. *)
Lemma run_with_files cfg w :
  let files := glob w (paths_pattern cfg) in
  let L := loop_state cfg w files in
  let scanned := scanned_of (results L) in
  let a := avg_score_of (total_score L) scanned in
  let below := below_of (threshold cfg) (flagged L) in
  let failing := fail_on_bias cfg && nonempty below in
  files <> [] ->
  exists summary,
    _build_summary scanned (flagged L) a (threshold cfg) (domain cfg) = Returns summary /\
    run cfg w =
    (if failing then SysExit 1 else Val tt,
     mkState (results L) (flagged L) (total_score L)
       ((announce_events cfg files ++ trace L ++ tally_events scanned (flagged L) a) ++
        written_outputs w (str_of_nat (List.length scanned))
                          (str_of_nat (List.length (flagged L)))
                          (str_of_avg a) (dump_report (results L)) ++
        written_summary w summary ++
        [Print (if failing then below_line cfg below else passed_line)])).
Proof.
  intros files L scanned a below failing Hne.
  destruct (main_with_files cfg w Hne) as [summary [Hs Hrun]].
  exists summary. split; [exact Hs|]. rewrite Hrun.
  fold files L scanned a below failing.
  rewrite outputs_events_written, summary_events_written;
    [ | apply printable_str_of_nat | apply printable_str_of_nat
      | apply printable_str_of_avg | apply printable_dump_report].
  now rewrite <- !List.app_assoc.
Qed.

(** C9 (reporting precedes the failure exit).  When the run ends with
    status 1, it ends through [sys.exit(1)], and the trace up to that
    point closes with the four outputs, each appended to the output file
    as [name=value] and a line break (or printed, without an output file),
    then the summary appended to the summary file (or printed), then the
    line announcing the files below the threshold: everything was written
    before the exit. *)
Theorem reporting_precedes_exit (cfg : config) (w : world) :
  exit_status (fst (run cfg w)) = 1 ->
  let st := snd (run cfg w) in
  let scanned := scanned_of (results st) in
  let a := avg_score_of (total_score st) scanned in
  fst (run cfg w) = SysExit 1 /\
  exists pre summary,
    _build_summary scanned (flagged st) a (threshold cfg) (domain cfg) = Returns summary /\
    trace st =
    pre ++
    written_outputs w (str_of_nat (List.length scanned))
                      (str_of_nat (List.length (flagged st)))
                      (str_of_avg a) (dump_report (results st)) ++
    written_summary w summary ++
    [Print (below_line cfg (below_of (threshold cfg) (flagged st)))].
Proof.
  destruct (glob w (paths_pattern cfg)) as [|f0 fs] eqn:E.
  - rewrite (main_no_files cfg w E). discriminate.
  - pose proof (run_with_files cfg w) as H. cbv zeta in H. rewrite E in H.
    destruct (H ltac:(discriminate)) as [summary [Hs ->]]. clear H.
    cbn [fst snd results flagged total_score trace].
    destruct (fail_on_bias cfg && nonempty _); [|discriminate].
    intros _. split; [reflexivity|].
    eexists. exists summary. split; [exact Hs | reflexivity].
Qed.

Lemma reporting_precedes_exit_witness :
  fst (run sample_cfg failing_world) = SysExit 1 /\
  exists pre summary,
    _build_summary (scanned_of (results (snd (run sample_cfg failing_world))))
      (flagged (snd (run sample_cfg failing_world)))
      (avg_score_of (total_score (snd (run sample_cfg failing_world)))
         (scanned_of (results (snd (run sample_cfg failing_world)))))
      (threshold sample_cfg) (domain sample_cfg) = Returns summary /\
    trace (snd (run sample_cfg failing_world)) =
    pre ++
    written_outputs failing_world
      (str_of_nat (List.length (scanned_of (results (snd (run sample_cfg failing_world))))))
      (str_of_nat (List.length (flagged (snd (run sample_cfg failing_world)))))
      (str_of_avg (avg_score_of (total_score (snd (run sample_cfg failing_world)))
                     (scanned_of (results (snd (run sample_cfg failing_world))))))
      (dump_report (results (snd (run sample_cfg failing_world)))) ++
    written_summary failing_world summary ++
    [Print (below_line sample_cfg
              (below_of (threshold sample_cfg) (flagged (snd (run sample_cfg failing_world)))))].
Proof.
  apply (reporting_precedes_exit sample_cfg failing_world). vm_compute. reflexivity.
Defined.

(** The failing sample, event by event from the first output on. *)
Example failing_run_tail :
  exists pre summary,
    trace (snd (run sample_cfg failing_world)) =
    pre ++
    [Append (lit "/tmp/out") (lit "total_files=2" ++ [NEWLINE]);
     Append (lit "/tmp/out") (lit "flagged_files=1" ++ [NEWLINE]);
     Append (lit "/tmp/out") (lit "avg_score=75.0" ++ [NEWLINE]);
     Append (lit "/tmp/out")
            (lit "report=" ++ dump_report (results (snd (run sample_cfg failing_world))) ++
             [NEWLINE]);
     Append (lit "/tmp/summary") (summary ++ [NEWLINE]);
     Print ([NEWLINE] ++ CROSS ++ lit " 1 file(s) scored below threshold (70)")] /\
    fst (run sample_cfg failing_world) = SysExit 1.
Proof.
  pose proof (run_with_files sample_cfg failing_world) as H. cbv zeta in H.
  destruct (H ltac:(discriminate)) as [summary [_ Hrun]].
  rewrite Hrun. eexists. exists summary. split; reflexivity.
Qed.

(** X4 (nothing scanned).  When every matched file is blank or makes
    the read or the analyzer raise, and also when there is no match, the
    run returns with status 0 whatever [fail_on_bias] says, nothing is
    flagged, and what it writes is [total_files=0], [flagged_files=0],
    [avg_score=100] and the report of the failed files, appended to the
    output file or printed. *)
Theorem nothing_scanned_passes (cfg : config) (w : world) :
  (forall f, In f (glob w (paths_pattern cfg)) ->
     is_blank w f = true \/ exists msg, raises_on cfg w f msg) ->
  let st := snd (run cfg w) in
  fst (run cfg w) = Val tt /\
  exit_status (fst (run cfg w)) = 0 /\
  scanned_of (results st) = [] /\
  flagged st = [] /\
  exists pre post,
    trace st =
    pre ++ written_outputs w (lit "0") (lit "0") (lit "100") (dump_report (results st)) ++
    post.
Proof.
  intros Hall. cbv zeta.
  destruct (glob w (paths_pattern cfg)) as [|f0 fs] eqn:E.
  - rewrite (main_no_files cfg w E). cbn [fst snd results flagged trace exit_status].
    repeat (split; [reflexivity|]).
    exists [Print (notice_line cfg)], [].
    rewrite outputs_events_written by reflexivity.
    now rewrite List.app_nil_r.
  - pose proof (run_with_files cfg w) as H. cbv zeta in H. rewrite E in H.
    destruct (H ltac:(discriminate)) as [summary [_ ->]]. clear H.
    cbn [fst snd results flagged trace].
    destruct (unscanned_nothing cfg _ (loop_unscanned cfg w _ Hall)) as [Hs Hf].
    rewrite <- flagged_loop in Hf. rewrite Hs, Hf.
    cbn [below_of filter nonempty]. rewrite andb_false_r.
    repeat (split; [reflexivity|]).
    cbn [List.length avg_score_of].
    change (str_of_nat 0) with (lit "0").
    change (str_of_avg (AvgInt 100)) with (lit "100").
    eexists. eexists. reflexivity.
Qed.

(** Two files, one unreadable and one blank: what reaches the output
    file. *)
Lemma nothing_scanned_passes_witness :
  exists pre post,
    trace (snd (run sample_cfg (world_of [lit "missing.md"; lit "blank.md"]))) =
    pre ++
    written_outputs (world_of [lit "missing.md"; lit "blank.md"])
      (lit "0") (lit "0") (lit "100")
      (dump_report (results (snd (run sample_cfg
                                    (world_of [lit "missing.md"; lit "blank.md"]))))) ++
    post.
Proof.
  apply (nothing_scanned_passes sample_cfg (world_of [lit "missing.md"; lit "blank.md"])).
  intros f [<- | [<- | []]].
  - right. exists (lit "[Errno 2] No such file or directory"). left. reflexivity.
  - left. reflexivity.
Defined.

Example nothing_scanned_output_file :
  appended_to (lit "/tmp/out")
    (trace (snd (run sample_cfg (world_of [lit "missing.md"; lit "blank.md"])))) =
  lit "total_files=0" ++ [NEWLINE] ++ lit "flagged_files=0" ++ [NEWLINE] ++
  lit "avg_score=100" ++ [NEWLINE] ++
  lit "report=" ++
  dump_report [Failed (lit "missing.md") (lit "[Errno 2] No such file or directory")] ++
  [NEWLINE].
Proof. vm_compute. reflexivity. Qed.

(** X13 (the local fallback).  With neither sink set, or set to the
    empty string, a run writes to no file.  A run with matched files
    prints, after the tally, the four output lines with their values cut
    to 100 code points, then a line break and the whole summary, then the
    closing line.  A value of at most 100 code points is shown whole, a
    longer one as its first 100 followed by three dots. *)
Theorem local_run_only_prints (cfg : config) (w : world) :
  str_truthy (get_default (GITHUB_OUTPUT w) []) = false ->
  str_truthy (get_default (GITHUB_STEP_SUMMARY w) []) = false ->
  let st := snd (run cfg w) in
  let scanned := scanned_of (results st) in
  let a := avg_score_of (total_score st) scanned in
  existsb is_append (trace st) = false /\
  (glob w (paths_pattern cfg) <> [] ->
   exists pre summary closing,
     _build_summary scanned (flagged st) a (threshold cfg) (domain cfg) = Returns summary /\
     trace st =
     pre ++
     [Print (lit "  [output] total_files=" ++ abbreviated (str_of_nat (List.length scanned)));
      Print (lit "  [output] flagged_files=" ++
             abbreviated (str_of_nat (List.length (flagged st))));
      Print (lit "  [output] avg_score=" ++ abbreviated (str_of_avg a));
      Print (lit "  [output] report=" ++ abbreviated (dump_report (results st)));
      Print ([NEWLINE] ++ summary);
      Print closing]) /\
  (forall v, (List.length (abbreviated v) <= 103)%nat /\
             ((List.length v <= 100)%nat -> abbreviated v = v) /\
             ((100 < List.length v)%nat -> abbreviated v = firstn 100 v ++ lit "...")).
Proof.
  intros Hout Hsum st scanned a.
  split; [|split; [|apply abbreviated_bounds]]; subst st scanned a.
  - destruct (glob w (paths_pattern cfg)) as [|f0 fs] eqn:E.
    + rewrite (main_no_files cfg w E). cbn [snd trace]. unfold outputs_events.
      now rewrite !(output_events_local w _ _ Hout).
    + pose proof (run_with_files cfg w) as H. cbv zeta in H. rewrite E in H.
      destruct (H ltac:(discriminate)) as [summary [_ ->]]. cbn [snd trace].
      unfold written_outputs, written_summary. rewrite Hout, Hsum.
      rewrite !no_append_app, no_append_loop. reflexivity.
  - intro Hne.
    destruct (run_with_files cfg w Hne) as [summary [Hs ->]].
    cbn [snd trace results flagged total_score].
    unfold written_outputs, written_summary. rewrite Hout, Hsum.
    eexists. exists summary. eexists. split; [exact Hs | reflexivity].
Qed.

Lemma local_run_only_prints_witness :
  exists pre summary closing,
    _build_summary (scanned_of (results (snd (run sample_cfg local_files_world))))
      (flagged (snd (run sample_cfg local_files_world)))
      (avg_score_of (total_score (snd (run sample_cfg local_files_world)))
         (scanned_of (results (snd (run sample_cfg local_files_world)))))
      (threshold sample_cfg) (domain sample_cfg) = Returns summary /\
    trace (snd (run sample_cfg local_files_world)) =
    pre ++
    [Print (lit "  [output] total_files=" ++
            abbreviated (str_of_nat (List.length
              (scanned_of (results (snd (run sample_cfg local_files_world)))))));
     Print (lit "  [output] flagged_files=" ++
            abbreviated (str_of_nat (List.length
              (flagged (snd (run sample_cfg local_files_world))))));
     Print (lit "  [output] avg_score=" ++
            abbreviated (str_of_avg
              (avg_score_of (total_score (snd (run sample_cfg local_files_world)))
                 (scanned_of (results (snd (run sample_cfg local_files_world)))))));
     Print (lit "  [output] report=" ++
            abbreviated (dump_report (results (snd (run sample_cfg local_files_world)))));
     Print ([NEWLINE] ++ summary);
     Print closing].
Proof.
  apply (local_run_only_prints sample_cfg local_files_world); try reflexivity.
  discriminate.
Defined.

(** The local sample prints its report, which is longer than 100 code
    points, as its first 100 followed by three dots. *)
Example local_sample_report_line :
  In (Print (lit "  [output] report=" ++
             firstn 100 (dump_report (results (snd (run sample_cfg local_files_world)))) ++
             lit "..."))
     (trace (snd (run sample_cfg local_files_world))) /\
  In (Print (lit "  [output] avg_score=75.0"))
     (trace (snd (run sample_cfg local_files_world))).
Proof.
  vm_compute. split.
  - do 20 right. left. reflexivity.
  - do 19 right. left. reflexivity.
Qed.




(* ===================================================================== *)
(** ** The average that is reported *)
(* ===================================================================== *)

Lemma run_no_files cfg w :
  glob w (paths_pattern cfg) = [] ->
  run cfg w =
  (Val tt,
   mkState [] [] 0
     (Print (notice_line cfg) ::
      written_outputs w (lit "0") (lit "0") (lit "100") (lit "[]"))).
Proof.
  intro E. rewrite (main_no_files cfg w E).
  now rewrite outputs_events_written.
Qed.

Lemma avg_output_written w t f a r :
  In (avg_output w a) (written_outputs w t f a r).
Proof.
  unfold avg_output, written_outputs.
  destruct (str_truthy (get_default (GITHUB_OUTPUT w) [])); simpl; tauto.
Qed.

(** Every run writes the average it computed. *)
Lemma avg_output_in_run cfg w :
  let st := snd (run cfg w) in
  In (avg_output w (str_of_avg (avg_score_of (total_score st) (scanned_of (results st)))))
     (trace st).
Proof.
  cbv zeta. destruct (glob w (paths_pattern cfg)) as [|f0 fs] eqn:E.
  - rewrite (run_no_files cfg w E). cbn [snd results total_score trace].
    right. apply (avg_output_written w _ _ (lit "100")).
  - pose proof (run_with_files cfg w) as H. cbv zeta in H. rewrite E in H.
    destruct (H ltac:(discriminate)) as [summary [_ ->]].
    cbn [snd results total_score trace].
    apply in_or_app. right. apply in_or_app. left. apply avg_output_written.
Qed.

(** The claim as worded fails on a tie.  Seven files score 86 and
    thirteen score 85: the mean is 1707/20 = 85.35, which rounds to 85.4
    (to the even tenth, and upward as well), while the run writes
    [avg_score=85.3], because the double nearest to 85.35 lies below it. *)
Lemma mean_rounded_counterexample :
  let st := snd (run sample_cfg twenty_world) in
  let scanned := scanned_of (results st) in
  List.length scanned = 20%nat /\
  sum_scores scanned = 1707 /\
  In (Append (lit "/tmp/out") (lit "avg_score=85.3" ++ [NEWLINE])) (trace st) /\
  str_of_avg (avg_score_of (total_score st) scanned) = lit "85.3" /\
  str_of_avg (mean_rounded scanned) = lit "85.4" /\
  avg_score_of (total_score st) scanned <> mean_rounded scanned.
Proof.
  cbv zeta.
  assert (Ha : avg_score_of (total_score (snd (run sample_cfg twenty_world)))
                 (scanned_of (results (snd (run sample_cfg twenty_world)))) =
               AvgFloat (mkDec1 false 853)) by (vm_compute; reflexivity).
  assert (Hm : mean_rounded (scanned_of (results (snd (run sample_cfg twenty_world)))) =
               AvgFloat (mkDec1 false 854)) by (vm_compute; reflexivity).
  split; [vm_compute; reflexivity|].
  split; [vm_compute; reflexivity|].
  split.
  { pose proof (avg_output_in_run sample_cfg twenty_world) as H. cbv zeta in H.
    rewrite Ha in H. exact H. }
  rewrite Ha, Hm. split; [reflexivity|]. split; [reflexivity|]. discriminate.
Qed.



(** Scores 100 and 80, with a failed file in between: the output file
    gets [avg_score=90.0].  On a tie the tenth depends on the double:
    341/4 = 85.25 is a double and goes to the even tenth 85.2, while 1/20
    and 3/20 both give 0.1, the doubles nearest to 0.05 and 0.15 lying
    above and below them. *)
Example average_of_100_and_80 :
  str_of_avg (avg_score_of 180 [Scanned (lit "a.md") 100 false 0 [];
                                Scanned (lit "c.md") 80 true 0 []]) = lit "90.0" /\
  In (Append (lit "/tmp/out") (lit "avg_score=90.0" ++ [NEWLINE]))
     (trace (snd (run sample_cfg sample_world))) /\
  str_of_dec1 (round1 (true_div 341 4)) = lit "85.2" /\
  str_of_dec1 (round1 (true_div 1 20)) = lit "0.1" /\
  str_of_dec1 (round1 (true_div 3 20)) = lit "0.1".
Proof.
  split; [vm_compute; reflexivity|].
  split.
  { pose proof (avg_output_in_run sample_cfg sample_world) as H. cbv zeta in H.
    assert (Ha : avg_score_of (total_score (snd (run sample_cfg sample_world)))
                   (scanned_of (results (snd (run sample_cfg sample_world)))) =
                 AvgFloat (mkDec1 false 900)) by (vm_compute; reflexivity).
    rewrite Ha in H. exact H. }
  repeat split; vm_compute; reflexivity.
Qed.

(** The twenty files of the tie: what the output file holds after the
    run. *)
Example twenty_run_output_file :
  appended_to (lit "/tmp/out") (trace (snd (run sample_cfg twenty_world))) =
  lit "total_files=20" ++ [NEWLINE] ++ lit "flagged_files=0" ++ [NEWLINE] ++
  lit "avg_score=85.3" ++ [NEWLINE] ++
  lit "report=" ++ dump_report (results (snd (run sample_cfg twenty_world))) ++ [NEWLINE].
Proof. vm_compute. reflexivity. Qed.

(* ===================================================================== *)
(** ** The report read back as records *)
(* ===================================================================== *)

Lemma report_output_written w t f a r :
  In (report_output w r) (written_outputs w t f a r).
Proof.
  unfold report_output, written_outputs.
  destruct (str_truthy (get_default (GITHUB_OUTPUT w) [])); simpl; tauto.
Qed.

(** Every run writes the report of its results. *)
Lemma report_output_in_run cfg w :
  let st := snd (run cfg w) in
  In (report_output w (dump_report (results st))) (trace st).
Proof.
  cbv zeta. destruct (glob w (paths_pattern cfg)) as [|f0 fs] eqn:E.
  - rewrite (run_no_files cfg w E). cbn [snd results trace].
    right. apply (report_output_written w _ _ _ (lit "[]")).
  - pose proof (run_with_files cfg w) as H. cbv zeta in H. rewrite E in H.
    destruct (H ltac:(discriminate)) as [summary [_ ->]].
    cbn [snd results trace].
    apply in_or_app. right. apply in_or_app. left. apply report_output_written.
Qed.

Lemma flags_of_py flags :
  all_some flag_of_py
    (List.map (fun f : pystr * pystr =>
                 PDict [(lit "name", PStr (fst f)); (lit "severity", PStr (snd f))])
              flags) = Some flags.
Proof.
  induction flags as [|[n s] flags IH]; [reflexivity|].
  cbn [List.map all_some]. rewrite IH. reflexivity.
Qed.

Lemma of_py_to_py r : of_py (to_py r) = Some r.
Proof.
  destruct r as [f s b n flags | f e]; [|reflexivity].
  change (of_py (to_py (Scanned f s b n flags))) with
    (match all_some flag_of_py
             (List.map (fun f : pystr * pystr =>
                          PDict [(lit "name", PStr (fst f));
                                 (lit "severity", PStr (snd f))]) flags) with
     | Some flags' => Some (Scanned f s b (Z.to_nat (Z.of_nat n)) flags')
     | None => None
     end).
  now rewrite flags_of_py, Nat2Z.id.
Qed.

Lemma records_of_py rs : all_some of_py (List.map to_py rs) = Some rs.
Proof.
  induction rs as [|r rs IH]; [reflexivity|].
  cbn [List.map all_some]. now rewrite of_py_to_py, IH.
Qed.

Lemma read_report_dump rs :
  forallb valid_result rs = true -> read_report (dump_report rs) = Some rs.
Proof.
  intro Hv. unfold read_report, dump_report.
  rewrite (json_loads_dumps _ (valid_report rs Hv)). apply records_of_py.
Qed.

(** The claim as worded fails when a string holds a surrogate pair as
    two code points.  A clean file has one flag whose name is a high
    surrogate followed by a low one: the run ends with status 0 and
    appends the report, which reads back with a flag name of one code
    point, so the records read are not the records aggregated. *)
Lemma report_round_trip_counterexample :
  let st := snd (run sample_cfg surrogate_world) in
  exit_status (fst (run sample_cfg surrogate_world)) = 0 /\
  results st = [Scanned (lit "a.md") 95 false 1 [([0xD83D; 0xDE00]%N, lit "low")]] /\
  In (Append (lit "/tmp/out") (lit "report=" ++ dump_report (results st) ++ [NEWLINE]))
     (trace st) /\
  read_report (dump_report (results st)) =
    Some [Scanned (lit "a.md") 95 false 1 [([0x1F600]%N, lit "low")]] /\
  read_report (dump_report (results st)) <> Some (results st).
Proof.
  cbv zeta.
  assert (Hr : results (snd (run sample_cfg surrogate_world)) =
               [Scanned (lit "a.md") 95 false 1 [([0xD83D; 0xDE00]%N, lit "low")]])
    by (vm_compute; reflexivity).
  split; [vm_compute; reflexivity|].
  split; [exact Hr|].
  split; [apply (report_output_in_run sample_cfg surrogate_world)|].
  rewrite Hr. split; [vm_compute; reflexivity|].
  vm_compute. discriminate.
Qed.

(** C8 (report round trip), amended.  Every run writes its report: the
    [report=] line appended to the output file (or printed, cut to 100
    code points, without one).  The report is one line of text.  When no
    string in the aggregated records has a high surrogate directly
    followed by a low surrogate, parsing the report gives the list of the
    dictionaries of the records, in order, and reading each dictionary by
    its fields gives back the records of the run. *)
Theorem report_round_trip (cfg : config) (w : world) :
  let st := snd (run cfg w) in
  let text := dump_report (results st) in
  In (report_output w text) (trace st) /\
  contains_char NEWLINE text = false /\
  (forallb valid_result (results st) = true ->
   json_loads text = Some (PList (List.map to_py (results st))) /\
   read_report text = Some (results st)).
Proof.
  intros st text.
  split; [apply report_output_in_run|].
  split; [apply printable_no_newline, printable_dump_report|].
  intro Hv. split.
  - apply json_loads_dumps, valid_report, Hv.
  - apply read_report_dump, Hv.
Qed.

Lemma report_round_trip_witness :
  let st := snd (run sample_cfg sample_world) in
  forallb valid_result (results st) = true /\
  read_report (dump_report (results st)) = Some (results st).
Proof.
  cbv zeta.
  assert (Hv : forallb valid_result (results (snd (run sample_cfg sample_world))) = true)
    by (vm_compute; reflexivity).
  split; [exact Hv|].
  destruct (report_round_trip sample_cfg sample_world) as (_ & _ & H).
  exact (proj2 (H Hv)).
Defined.

(** The report of the sample run, as appended to the output file, and
    the three records it reads back as. *)
Example sample_report_read_back :
  In (Append (lit "/tmp/out")
        (lit "report=" ++ dump_report (results (snd (run sample_cfg sample_world))) ++
         [NEWLINE]))
     (trace (snd (run sample_cfg sample_world))) /\
  read_report (dump_report (results (snd (run sample_cfg sample_world)))) =
  Some [Scanned (lit "a.md") 100 false 0 [];
        Failed (lit "b.md") (lit "boom");
        Scanned (lit "c.md") 80 true 1 [(lit "loaded", lit "high")]].
Proof.
  split; [apply (report_output_in_run sample_cfg sample_world)|].
  vm_compute. reflexivity.
Qed.
